(** * chat_project: the websocket hub and the message store

    A shallow embedding of [chat/consumers.py], [chat/middleware.py],
    [chat/models.py] and the [send_message] path of [chat/schema.py],
    with the properties of the hub stated over it. *)

From Stdlib Require Import ZArith Ascii String List Bool.
From stdpp Require Import base tactics option list strings pretty gmap fin_maps fin_sets.

Set Warnings "-register-all,-notation-for-abbreviation".

Local Open Scope string_scope.
Local Open Scope Z_scope.

(** ** Python values

    What [json.loads] produces and what the consumer forwards.  A dict is
    kept as an association list in insertion order with distinct keys, as
    a Python dict is.  A float is carried by the text Python prints for
    it: the hub only formats and forwards it. *)

Inductive value : Type :=
| VNone
| VBool (b : bool)
| VInt (n : Z)
| VFloat (repr : string)
| VStr (s : string)
| VList (l : list value)
| VDict (d : list (string * value)).

Inductive Exn : Type :=
| AttributeError
| KeyError
| TypeError
| ValueError
| BinasciiError
| UnicodeDecodeError
| UnicodeEncodeError
| DoesNotExist.

Module Py.

(** [d.get(k)] on the association list. *)
Fixpoint dict_get (d : list (string * value)) (k : string) : option value :=
  match d with
  | [] => None
  | (k', v) :: d' => if String.eqb k' k then Some v else dict_get d' k
  end.

(** [d[k] = v]: replaces in place, else appends. *)
Fixpoint dict_set (d : list (string * value)) (k : string) (v : value)
  : list (string * value) :=
  match d with
  | [] => [(k, v)]
  | (k', v') :: d' =>
      if String.eqb k' k then (k', v) :: d' else (k', v') :: dict_set d' k v
  end.

(** [x.get(k, default)]: only a dict has the method. *)
Definition get (x : value) (k : string) (default : value) : Exn + value :=
  match x with
  | VDict d => inr (match dict_get d k with Some v => v | None => default end)
  | _ => inl AttributeError
  end.

(** [x[k]] with a string key. *)
Definition subscript (x : value) (k : string) : Exn + value :=
  match x with
  | VDict d => match dict_get d k with Some v => inr v | None => inl KeyError end
  | _ => inl TypeError
  end.

(** [x[k] = v] with a string key. *)
Definition setitem (x : value) (k : string) (v : value) : Exn + value :=
  match x with
  | VDict d => inr (VDict (dict_set d k v))
  | _ => inl TypeError
  end.

(** [bool(x)]. *)
Definition truthy (x : value) : bool :=
  match x with
  | VNone => false
  | VBool b => b
  | VInt n => negb (n =? 0)
  | VFloat r => negb (String.eqb r "0.0" || String.eqb r "-0.0")
  | VStr s => negb (String.eqb s EmptyString)
  | VList l => match l with [] => false | _ => true end
  | VDict d => match d with [] => false | _ => true end
  end.

(** [x == "lit"] for a string literal. *)
Definition eq_str (x : value) (lit : string) : bool :=
  match x with
  | VStr s => String.eqb s lit
  | _ => false
  end.

Definition hex_digit (n : N) : ascii :=
  (if n <? 10 then ascii_of_N (48 + n) else ascii_of_N (87 + n))%N.

(** One character of [repr] of a str, inside the quote [q]. *)
Definition repr_char (q c : ascii) : string :=
  let n := N_of_ascii c in
  if Ascii.eqb c "\" then "\\"
  else if Ascii.eqb c q then String "\" (String q EmptyString)
  else if (n =? 10)%N then "\n"
  else if (n =? 13)%N then "\r"
  else if (n =? 9)%N then "\t"
  else if ((n <? 32) || (n =? 127))%N then
    String "\" (String "x" (String (hex_digit (n / 16)) (String (hex_digit (n mod 16)) EmptyString)))
  else String c EmptyString.

Fixpoint repr_chars (q : ascii) (s : string) : string :=
  match s with
  | EmptyString => EmptyString
  | String c s' => repr_char q c +:+ repr_chars q s'
  end.

Fixpoint has_char (c : ascii) (s : string) : bool :=
  match s with
  | EmptyString => false
  | String c' s' => Ascii.eqb c c' || has_char c s'
  end.

(** [repr(s)]: single quotes unless the text has one and no double
    quote.  Bytes above 127 are kept, which is what Python prints for
    printable text. *)
Definition repr_str (s : string) : string :=
  let dq := ascii_of_N 34 in
  let sq := "'"%char in
  let q := if has_char sq s && negb (has_char dq s) then dq else sq in
  String q (repr_chars q s) +:+ String q EmptyString.

Fixpoint join (sep : string) (l : list string) : string :=
  match l with
  | [] => EmptyString
  | [x] => x
  | x :: l' => x +:+ sep +:+ join sep l'
  end.

Fixpoint repr (x : value) : string :=
  match x with
  | VNone => "None"
  | VBool true => "True"
  | VBool false => "False"
  | VInt n => pretty n
  | VFloat r => r
  | VStr s => repr_str s
  | VList l => "[" +:+ join ", " (List.map repr l) +:+ "]"
  | VDict d =>
      "{" +:+ join ", " (List.map (fun kv => repr_str (fst kv) +:+ ": " +:+ repr (snd kv)) d) +:+ "}"
  end.

(** [str(x)], the text an f-string interpolates. *)
Definition str (x : value) : string :=
  match x with
  | VStr s => s
  | _ => repr x
  end.

(** [s[:n] == prefix], as [str.startswith]. *)
Fixpoint starts_with (prefix s : string) : bool :=
  match prefix, s with
  | EmptyString, _ => true
  | String a p', String b s' => Ascii.eqb a b && starts_with p' s'
  | String _ _, EmptyString => false
  end.

(** [sub in s] for two strings. *)
Fixpoint contains (sub s : string) : bool :=
  starts_with sub s
  || match s with
     | EmptyString => false
     | String _ s' => contains sub s'
     end.

(** [s.replace(".", "_")]. *)
Fixpoint replace_dots (s : string) : string :=
  match s with
  | EmptyString => EmptyString
  | String c s' => String (if Ascii.eqb c "."%char then "_"%char else c) (replace_dots s')
  end.

(** [k in x] for a string [k]: a key of a dict, an element of a list, a
    part of a string; nothing else can be searched. *)
Definition has (x : value) (k : string) : Exn + bool :=
  match x with
  | VDict d => inr (match dict_get d k with Some _ => true | None => false end)
  | VList l => inr (existsb (fun e => eq_str e k) l)
  | VStr s => inr (contains k s)
  | _ => inl TypeError
  end.

(** Every byte is below 128. *)
Fixpoint is_ascii (s : string) : bool :=
  match s with
  | EmptyString => true
  | String c s' => (N_of_ascii c <? 128)%N && is_ascii s'
  end.

End Py.

(** ** Effects of a consumer method

    A method of the consumer either returns or raises, and on the way it
    calls the transport ([accept], [send]) and the channel layer
    ([group_add], [group_discard], [group_send]).  [Run] keeps the calls
    that went through, in order, and the outcome: a call that raises is
    where the method stops. *)

Inductive Effect : Type :=
| Accept
| GroupAdd (group channel : string)
| GroupDiscard (group channel : string)
| GroupSend (group : string) (message : value)
| Send (text_data : value).

Record Run (A : Type) : Type := MkRun { trace : list Effect; outcome : Exn + A }.
Arguments MkRun {A} trace outcome.
Arguments trace {A} r.
Arguments outcome {A} r.

Definition run_ret {A} (x : A) : Run A := MkRun [] (inr x).

Definition run_bind {A B} (k : A → Run B) (m : Run A) : Run B :=
  match outcome m with
  | inl e => MkRun (trace m) (inl e)
  | inr a => MkRun (trace m ++ trace (k a))%list (outcome (k a))
  end.

#[global] Instance Run_ret : MRet Run := @run_ret.
#[global] Instance Run_bind : MBind Run := @run_bind.

Definition emit (e : Effect) : Run unit := MkRun [e] (inr tt).
Definition lift {A} (x : Exn + A) : Run A := MkRun [] x.
Definition raise {A} (e : Exn) : Run A := MkRun [] (inl e).

(** The method returned normally. *)
Definition returns {A} (r : Run A) : bool :=
  match outcome r with inr _ => true | inl _ => false end.


(** ** The connection scope *)

Record User : Type := { id : Z; username : string }.

Inductive ScopeUser : Type :=
| AnonymousUser
| AuthUser (u : User).

Definition is_authenticated (u : ScopeUser) : bool :=
  match u with AuthUser _ => true | AnonymousUser => false end.

(** [u.id]: the primary key, [None] on the anonymous user. *)
Definition user_pk (u : ScopeUser) : value :=
  match u with AuthUser usr => VInt (id usr) | AnonymousUser => VNone end.

(** [query] is what [parse_qs] returns for the query string; [user] is
    [None] until the middleware has set the scope's user; [kwargs] holds
    the keyword arguments of the matched route. *)
Record Scope : Type := {
  query : list (string * list string);
  user : option ScopeUser;
  kwargs : list (string * value)
}.


(** ** The calls on the channel layer

    The layer checks the name of a group before it does anything: a
    name must be shorter than 100 characters and match the pattern
    [^[a-zA-Z\d\-_.]+$]; otherwise the call raises [TypeError].  In the
    pattern [$] also matches before a newline that ends the name, and
    [\d] also matches the decimal digits of other scripts: what the
    pattern says of a name with a character outside ASCII is left to
    [non_ascii_name_ok]. *)

Module Layer.

Definition name_char (c : ascii) : bool :=
  let n := N_of_ascii c in
  (((65 <=? n) && (n <=? 90)) || ((97 <=? n) && (n <=? 122))
   || ((48 <=? n) && (n <=? 57)) || (n =? 45) || (n =? 95) || (n =? 46))%N.

Fixpoint all_name_chars (s : string) : bool :=
  match s with
  | EmptyString => true
  | String c s' => name_char c && all_name_chars s'
  end.

(** The name without the one newline it may end with. *)
Fixpoint without_final_newline (s : string) : string :=
  match s with
  | EmptyString => EmptyString
  | String c EmptyString => if (N_of_ascii c =? 10)%N then EmptyString else s
  | String c s' => String c (without_final_newline s')
  end.

Definition ascii_name_ok (name : string) : bool :=
  (String.length name <? 100)%nat
  && negb (String.eqb (without_final_newline name) EmptyString)
  && all_name_chars (without_final_newline name).

Section Calls.

Variable non_ascii_name_ok : string → bool.

Definition valid_group_name (name : string) : bool :=
  if Py.is_ascii name then ascii_name_ok name else non_ascii_name_ok name.

(** A call goes through, and is kept in the trace, when the name is
    valid. *)
Definition group_add (group channel : string) : Run unit :=
  if valid_group_name group then emit (GroupAdd group channel) else raise TypeError.

Definition group_discard (group channel : string) : Run unit :=
  if valid_group_name group then emit (GroupDiscard group channel) else raise TypeError.

Definition group_send (group : string) (message : value) : Run unit :=
  if valid_group_name group then emit (GroupSend group message) else raise TypeError.

End Calls.

End Layer.

(** ** chat/consumers.py *)

Module ChatConsumer.

(** The instance: its channel name, its scope, and the attributes
    [connect] sets ([None] while an attribute is unset). *)
Record t : Type := {
  channel_name : string;
  scope : Scope;
  user_id : option value;
  chat_id : option value;
  chat_group_name : option string
}.

Definition new (channel : string) (sc : Scope) : t :=
  {| channel_name := channel; scope := sc;
     user_id := None; chat_id := None; chat_group_name := None |}.

Definition attr {A} (a : option A) : Run A :=
  match a with Some x => mret x | None => raise AttributeError end.

Definition item {A} (a : option A) : Run A :=
  match a with Some x => mret x | None => raise KeyError end.

(** The handlers: one outbound frame each.  The frame is the object
    handed to [json.dumps]. *)

Definition chat_started (self : t) (event : value) : Run t :=
  chat ← lift (Py.subscript event "chat");
  emit (Send (VDict [("event", VStr "chat_started"); ("data", chat)]));;
  mret self.

Definition new_message (self : t) (event : value) : Run t :=
  m ← lift (Py.subscript event "message");
  mid ← lift (Py.subscript m "id");
  sender ← lift (Py.subscript m "sender");
  sid ← lift (Py.subscript sender "id");
  sender' ← lift (Py.subscript m "sender");
  sname ← lift (Py.subscript sender' "username");
  content ← lift (Py.subscript m "content");
  media ← lift (Py.subscript m "mediaType");
  ts ← lift (Py.subscript m "timestamp");
  emit (Send (VDict [
    ("event", VStr "new_message");
    ("payload", VDict [
      ("message", VDict [
        ("id", mid);
        ("sender", VDict [("id", sid); ("username", sname)]);
        ("content", content);
        ("mediaType", media);
        ("timestamp", ts)])])]));;
  mret self.

Definition profile_updated (self : t) (event : value) : Run t :=
  profile ← lift (Py.subscript event "profile");
  emit (Send (VDict [("event", VStr "profile_updated"); ("data", profile)]));;
  mret self.

Definition chat_deleted (self : t) (event : value) : Run t :=
  chat ← lift (Py.subscript event "chat_id");
  emit (Send (VDict [("event", VStr "chat_deleted");
                     ("data", VDict [("chat_id", chat)])]));;
  mret self.

Definition user_typing (self : t) (event : value) : Run t :=
  uid ← lift (Py.subscript event "user_id");
  emit (Send (VDict [("event", VStr "user_typing");
                     ("data", VDict [("user_id", uid)])]));;
  mret self.

Definition user_online (self : t) (event : value) : Run t :=
  uid ← lift (Py.subscript event "user_id");
  emit (Send (VDict [("event", VStr "user_online");
                     ("data", VDict [("user_id", uid)])]));;
  mret self.

Definition user_offline (self : t) (event : value) : Run t :=
  uid ← lift (Py.subscript event "user_id");
  emit (Send (VDict [("event", VStr "user_offline");
                     ("data", VDict [("user_id", uid)])]));;
  mret self.

(** The name of the method a message from the channel layer is for:
    its type, dots turned into underscores.  A message without a type,
    or with one that starts with an underscore, is refused. *)
Definition handler_name (message : value) : Exn + string :=
  match Py.has message "type" with
  | inl e => inl e
  | inr false => inl ValueError
  | inr true =>
      match Py.subscript message "type" with
      | inl e => inl e
      | inr (VStr ty) =>
          if Py.starts_with "_" (Py.replace_dots ty) then inl ValueError
          else inr (Py.replace_dots ty)
      | inr _ => inl AttributeError
      end
  end.

(** Calling an attribute that holds a value and not a method: nothing
    to call when the value is unset or counts as false, [TypeError]
    when it is there. *)
Definition call_value (v : option value) : Run t :=
  match v with
  | Some x => if Py.truthy x then raise TypeError else raise ValueError
  | None => raise ValueError
  end.

Section Methods.

(** How the layer judges a group name with a character outside ASCII. *)
Variable non_ascii_name_ok : string → bool.
(** What the framework does with a handler name that is none of the
    names this class defines or sets. *)
Variable framework_handler : string → t → value → Run t.

Definition connect (self : t) : Run t :=
  emit Accept;;
  u ← item (user (scope self));
  let uid := if is_authenticated u then user_pk u else VNone in
  cid ← item (Py.dict_get (kwargs (scope self)) "chat_id");
  if Py.truthy uid && Py.truthy cid then
    let g := "chat_" +:+ Py.str cid in
    Layer.group_add non_ascii_name_ok g (channel_name self);;
    mret {| channel_name := channel_name self; scope := scope self;
            user_id := Some uid; chat_id := Some cid;
            chat_group_name := Some g |}
  else
    mret {| channel_name := channel_name self; scope := scope self;
            user_id := Some uid; chat_id := Some cid;
            chat_group_name := chat_group_name self |}.

Definition disconnect (self : t) : Run t :=
  cid ← attr (chat_id self);
  if Py.truthy cid then
    Layer.group_discard non_ascii_name_ok ("chat_" +:+ Py.str cid) (channel_name self);;
    mret self
  else mret self.

(** [data] is what [json.loads(text_data)] returned. *)
Definition receive (self : t) (data : value) : Run t :=
  event_type ← lift (Py.get data "event" VNone);
  payload ← lift (Py.get data "payload" VNone);
  if Py.eq_str event_type "start_chat" then
    recipient ← lift (Py.get payload "recipient_id" VNone);
    chat ← lift (Py.get payload "chat" VNone);
    Layer.group_send non_ascii_name_ok ("user_" +:+ Py.str recipient)
      (VDict [("type", VStr "chat_started"); ("chat", chat)]);;
    mret self
  else if Py.eq_str event_type "new_message" then
    message_data ← lift (Py.get payload "message" (VDict []));
    message ← lift (Py.get payload "message" (VDict []));
    content ← lift (Py.get message "content" (VStr "No content"));
    message_data ← lift (Py.setitem message_data "content" content);
    chat ← lift (Py.get payload "chat_id" VNone);
    Layer.group_send non_ascii_name_ok ("chat_" +:+ Py.str chat)
      (VDict [("type", VStr "new_message"); ("message", message_data)]);;
    mret self
  else if Py.eq_str event_type "update_profile" then
    profile ← lift (Py.get payload "profile" VNone);
    Layer.group_send non_ascii_name_ok "online_users"
      (VDict [("type", VStr "profile_updated"); ("profile", profile)]);;
    mret self
  else if Py.eq_str event_type "delete_chat" then
    chat ← lift (Py.get payload "chat_id" VNone);
    chat' ← lift (Py.get payload "chat_id" VNone);
    Layer.group_send non_ascii_name_ok ("chat_" +:+ Py.str chat)
      (VDict [("type", VStr "chat_deleted"); ("chat_id", chat')]);;
    mret self
  else if Py.eq_str event_type "typing_indicator" then
    recipient ← lift (Py.get payload "recipient_id" VNone);
    uid ← lift (Py.get payload "user_id" VNone);
    Layer.group_send non_ascii_name_ok ("user_" +:+ Py.str recipient)
      (VDict [("type", VStr "user_typing"); ("user_id", uid)]);;
    mret self
  else if Py.eq_str event_type "user_online" then
    uid ← lift (Py.get payload "user_id" VNone);
    Layer.group_send non_ascii_name_ok "online_users"
      (VDict [("type", VStr "user_online"); ("user_id", uid)]);;
    mret self
  else if Py.eq_str event_type "user_offline" then
    uid ← lift (Py.get payload "user_id" VNone);
    Layer.group_send non_ascii_name_ok "online_users"
      (VDict [("type", VStr "user_offline"); ("user_id", uid)]);;
    mret self
  else mret self.

(** How a message taken from the channel layer reaches a handler: the
    attribute of the instance that its type names is called with the
    message.  [connect] takes no message and [receive] cannot parse
    one; [disconnect] takes it for the close code. *)
Definition dispatch (self : t) (message : value) : Run t :=
  name ← lift (handler_name message);
  if String.eqb name "chat_started" then chat_started self message
  else if String.eqb name "new_message" then new_message self message
  else if String.eqb name "profile_updated" then profile_updated self message
  else if String.eqb name "chat_deleted" then chat_deleted self message
  else if String.eqb name "user_typing" then user_typing self message
  else if String.eqb name "user_online" then user_online self message
  else if String.eqb name "user_offline" then user_offline self message
  else if String.eqb name "connect" then raise TypeError
  else if String.eqb name "disconnect" then disconnect self
  else if String.eqb name "receive" then raise TypeError
  else if String.eqb name "user_id" then call_value (user_id self)
  else if String.eqb name "chat_id" then call_value (chat_id self)
  else if String.eqb name "chat_group_name" then
    call_value (option_map VStr (chat_group_name self))
  else framework_handler name self message.

End Methods.

End ChatConsumer.

(** ** chat/middleware.py *)

(** What [jwt.decode] does with a token: the claims, or one of the two
    errors the middleware catches. *)
Inductive JwtResult : Type :=
| Decoded (claims : list (string * value))
| ExpiredSignatureError
| InvalidTokenError.

Section Collaborators.

(** [jwt.decode(token, settings.SECRET_KEY, algorithms=["HS256"])]. *)
Variable jwt_decode : string → JwtResult.
(** [User.objects.aget(id=user_id)]; [None] stands for [User.DoesNotExist]. *)
Variable user_by_id : value → option User.

Definition get_user (user_id : value) : option User := user_by_id user_id.

(** [query_string.get("token", [None])[0]]: a value of [parse_qs] is a
    list with at least one element. *)
Definition query_token (q : list (string * list string)) : option string :=
  match List.find (fun kv => String.eqb (fst kv) "token") q with
  | Some (_, t :: _) => Some t
  | _ => None
  end.

(** [JWTAuthMiddleware.__call__], up to the call of the inner
    application: the scope it hands on. *)
Definition JWTAuthMiddleware (sc : Scope) : Scope :=
  let u :=
    match query_token (query sc) with
    | Some token =>
        if negb (String.eqb token EmptyString) then
          match jwt_decode token with
          | Decoded decoded_data =>
              let user_id := default VNone (Py.dict_get decoded_data "user_id") in
              if Py.truthy user_id then
                match get_user user_id with
                | Some usr => AuthUser usr
                | None => AnonymousUser
                end
              else AnonymousUser
          | ExpiredSignatureError => AnonymousUser
          | InvalidTokenError => AnonymousUser
          end
        else AnonymousUser
    | None => AnonymousUser
    end in
  {| query := query sc; user := Some u; kwargs := kwargs sc |}.


(** ** The channel layer and the hub

    The group registry of the channel layer: a group name maps to the
    set of channel names in it.  [group_send] puts the message in the
    mailbox of every member; a consumer later takes it and runs the
    handler.  A consumer that raises is ended by the server: its
    handlers run no more, [disconnect] included, and its channel name
    is not given out again. *)

(** How the layer judges a group name with a character outside ASCII. *)
Variable non_ascii_name_ok : string → bool.
(** What the framework does with a handler name the class does not
    define. *)
Variable framework_handler : string → ChatConsumer.t → value → Run ChatConsumer.t.

Definition group_add (g c : string) (gs : gmap string (gset string))
  : gmap string (gset string) :=
  <[g := {[c]} ∪ default ∅ (gs !! g)]> gs.

Definition group_discard (g c : string) (gs : gmap string (gset string))
  : gmap string (gset string) :=
  match gs !! g with
  | Some ms =>
      if decide (ms ∖ {[c]} = ∅) then delete g gs else <[g := ms ∖ {[c]}]> gs
  | None => gs
  end.

Definition members (g : string) (gs : gmap string (gset string)) : gset string :=
  default ∅ (gs !! g).

Definition post (m : value) (to : gset string) (mb : gmap string (list value))
  : gmap string (list value) :=
  union_with (fun old new => Some (old ++ new)%list) mb (gset_to_gmap [m] to).

(** [consumers] holds the instances that are running, [closed] the
    channel names of those that have ended. *)
Record World : Type := {
  groups : gmap string (gset string);
  consumers : gmap string ChatConsumer.t;
  accepted : gset string;
  mailbox : gmap string (list value);
  outbox : gmap string (list value);
  faults : list (string * Exn);
  closed : gset string
}.

Definition empty_world : World :=
  {| groups := ∅; consumers := ∅; accepted := ∅;
     mailbox := ∅; outbox := ∅; faults := []; closed := ∅ |}.

(** The frames pushed to the transport of [c], oldest first. *)
Definition frames (w : World) (c : string) : list value :=
  default [] (outbox w !! c).

(** One call made by the consumer on channel [c]. *)
Definition run_effect (c : string) (w : World) (e : Effect) : World :=
  match e with
  | Accept =>
      {| groups := groups w; consumers := consumers w;
         accepted := {[c]} ∪ accepted w;
         mailbox := mailbox w; outbox := outbox w; faults := faults w;
         closed := closed w |}
  | GroupAdd g ch =>
      {| groups := group_add g ch (groups w); consumers := consumers w;
         accepted := accepted w;
         mailbox := mailbox w; outbox := outbox w; faults := faults w;
         closed := closed w |}
  | GroupDiscard g ch =>
      {| groups := group_discard g ch (groups w); consumers := consumers w;
         accepted := accepted w;
         mailbox := mailbox w; outbox := outbox w; faults := faults w;
         closed := closed w |}
  | GroupSend g m =>
      {| groups := groups w; consumers := consumers w;
         accepted := accepted w;
         mailbox := post m (members g (groups w)) (mailbox w);
         outbox := outbox w; faults := faults w; closed := closed w |}
  | Send f =>
      {| groups := groups w; consumers := consumers w;
         accepted := accepted w; mailbox := mailbox w;
         outbox := <[c := (frames w c ++ [f])%list]> (outbox w); faults := faults w;
         closed := closed w |}
  end.

Definition set_consumers (cs : gmap string ChatConsumer.t) (w : World) : World :=
  {| groups := groups w; consumers := cs; accepted := accepted w;
     mailbox := mailbox w; outbox := outbox w; faults := faults w;
     closed := closed w |}.

(** The instance on [c] is gone and the name [c] used up. *)
Definition close_channel (c : string) (w : World) : World :=
  {| groups := groups w; consumers := delete c (consumers w);
     accepted := accepted w; mailbox := mailbox w; outbox := outbox w;
     faults := faults w; closed := {[c]} ∪ closed w |}.

(** The calls of a method take effect in order; when it returns, its
    result is the new state of the instance; when it raises, the
    exception is logged against [c] and the instance is ended where it
    stands: the groups keep what they hold. *)
Definition settle (c : string) (r : Run ChatConsumer.t) (w : World) : World :=
  let w1 := foldl (run_effect c) w (trace r) in
  match outcome r with
  | inr self' => set_consumers (<[c := self']> (consumers w1)) w1
  | inl e =>
      close_channel c
        {| groups := groups w1; consumers := consumers w1;
           accepted := accepted w1; mailbox := mailbox w1;
           outbox := outbox w1; faults := (faults w1 ++ [(c, e)])%list;
           closed := closed w1 |}
  end.

Inductive HubEvent : Type :=
| Connect (c : string) (sc : Scope)
| Receive (c : string) (data : value)
| Handle (c : string)
| Disconnect (c : string).

(** A connection comes in on a channel name never used before; a frame,
    a broadcast and the close of the transport reach the instance only
    while it runs. *)
Definition step (w : World) (ev : HubEvent) : World :=
  match ev with
  | Connect c sc =>
      match consumers w !! c with
      | Some _ => w
      | None =>
          if decide (c ∈ closed w) then w
          else
            settle c
              (ChatConsumer.connect non_ascii_name_ok
                 (ChatConsumer.new c (JWTAuthMiddleware sc))) w
      end
  | Receive c data =>
      match consumers w !! c with
      | Some self => settle c (ChatConsumer.receive non_ascii_name_ok self data) w
      | None => w
      end
  | Handle c =>
      match consumers w !! c, mailbox w !! c with
      | Some self, Some (m :: rest) =>
          settle c
            (ChatConsumer.dispatch non_ascii_name_ok framework_handler self m)
            {| groups := groups w; consumers := consumers w;
               accepted := accepted w; mailbox := <[c := rest]> (mailbox w);
               outbox := outbox w; faults := faults w; closed := closed w |}
      | _, _ => w
      end
  | Disconnect c =>
      match consumers w !! c with
      | Some self =>
          close_channel c
            (settle c (ChatConsumer.disconnect non_ascii_name_ok self) w)
      | None => w
      end
  end.

Definition run (w : World) (evs : list HubEvent) : World := foldl step w evs.

(** The worlds the hub can be in. *)
Inductive reachable : World → Prop :=
| reachable_init : reachable empty_world
| reachable_step w ev : reachable w → reachable (step w ev).

(** The groups [c] is a member of. *)
Definition groups_of (c : string) (w : World) : gset string :=
  dom (filter (fun gm => c ∈ gm.2) (groups w)).

End Collaborators.

(** ** Text and bytes

    A Python [str] is kept as the byte string of its UTF-8 encoding, a
    surrogate code point in it as the three bytes the same scheme gives
    any code point of its size.  Strict UTF-8 has no such bytes: on a
    text with a surrogate [s.encode("utf-8")] raises, on any other it
    hands over the bytes as they are, and [b.decode("utf-8")] succeeds
    exactly on well-formed UTF-8. *)

Definition bytes : Type := string.

Definition byte_in (c : ascii) (lo hi : N) : bool :=
  ((lo <=? N_of_ascii c) && (N_of_ascii c <=? hi))%N.

(** Well-formed UTF-8 byte sequences (Unicode, table 3-7). *)
Fixpoint utf8_valid (b : bytes) : bool :=
  match b with
  | EmptyString => true
  | String c0 b1 =>
      if byte_in c0 0 127 then utf8_valid b1
      else if byte_in c0 194 223 then
        match b1 with
        | String c1 b2 => byte_in c1 128 191 && utf8_valid b2
        | _ => false
        end
      else if byte_in c0 224 239 then
        match b1 with
        | String c1 (String c2 b3) =>
            (if byte_in c0 224 224 then byte_in c1 160 191
             else if byte_in c0 237 237 then byte_in c1 128 159
             else byte_in c1 128 191)
            && byte_in c2 128 191 && utf8_valid b3
        | _ => false
        end
      else if byte_in c0 240 244 then
        match b1 with
        | String c1 (String c2 (String c3 b4)) =>
            (if byte_in c0 240 240 then byte_in c1 144 191
             else if byte_in c0 244 244 then byte_in c1 128 143
             else byte_in c1 128 191)
            && byte_in c2 128 191 && byte_in c3 128 191 && utf8_valid b4
        | _ => false
        end
      else false
  end.

Definition encode_utf8 (s : string) : Exn + bytes :=
  if utf8_valid s then inr s else inl UnicodeEncodeError.

Definition decode_utf8 (b : bytes) : Exn + string :=
  if utf8_valid b then inr b else inl UnicodeDecodeError.

(** ** base64, as [base64.b64encode] and [base64.b64decode] compute it *)

Module Base64.

Definition alphabet : string :=
  "ABCDEFGHIJKLMNOPQRSTUVWXYZabcdefghijklmnopqrstuvwxyz0123456789+/".

Definition pad : ascii := "="%char.

Definition table_b2a (n : N) : ascii :=
  match String.get (N.to_nat n) alphabet with
  | Some c => c
  | None => pad
  end.

Fixpoint index_from (i : N) (c : ascii) (s : string) : option N :=
  match s with
  | EmptyString => None
  | String c' s' => if Ascii.eqb c c' then Some i else index_from (i + 1)%N c s'
  end.

Definition table_a2b (c : ascii) : option N := index_from 0 c alphabet.

(** Three bytes make four characters; a last group of one or two bytes
    is padded. *)
Fixpoint b2a (b : bytes) : string :=
  match b with
  | EmptyString => EmptyString
  | String x EmptyString =>
      let a := N_of_ascii x in
      String (table_b2a (N.shiftr a 2))
        (String (table_b2a (N.shiftl (N.land a 3) 4))
           (String pad (String pad EmptyString)))
  | String x (String y EmptyString) =>
      let a := N_of_ascii x in
      let b := N_of_ascii y in
      String (table_b2a (N.shiftr a 2))
        (String (table_b2a (N.lor (N.shiftl (N.land a 3) 4) (N.shiftr b 4)))
           (String (table_b2a (N.shiftl (N.land b 15) 2))
              (String pad EmptyString)))
  | String x (String y (String z rest)) =>
      let a := N_of_ascii x in
      let b := N_of_ascii y in
      let c := N_of_ascii z in
      String (table_b2a (N.shiftr a 2))
        (String (table_b2a (N.lor (N.shiftl (N.land a 3) 4) (N.shiftr b 4)))
           (String (table_b2a (N.lor (N.shiftl (N.land b 15) 2) (N.shiftr c 6)))
              (String (table_b2a (N.land c 63)) (b2a rest))))
  end.

(** The decoder without validation: a character outside the alphabet is
    skipped, padding that completes a group ends the input, and a group
    left open is an error.  [out] is the output so far, last byte
    first. *)
Fixpoint a2b_loop (s : string) (quad_pos leftchar pads : N) (out : list ascii)
  : Exn + list ascii :=
  match s with
  | EmptyString => if (quad_pos =? 0)%N then inr out else inl BinasciiError
  | String ch s' =>
      if Ascii.eqb ch pad then
        if (2 <=? quad_pos)%N then
          if (4 <=? quad_pos + (pads + 1))%N then inr out
          else a2b_loop s' quad_pos leftchar (pads + 1)%N out
        else a2b_loop s' quad_pos leftchar pads out
      else
        match table_a2b ch with
        | None => a2b_loop s' quad_pos leftchar pads out
        | Some this_ch =>
            if (quad_pos =? 0)%N then
              a2b_loop s' 1%N this_ch 0%N out
            else if (quad_pos =? 1)%N then
              a2b_loop s' 2%N (N.land this_ch 15) 0%N
                (ascii_of_N (N.lor (N.shiftl leftchar 2) (N.shiftr this_ch 4)) :: out)
            else if (quad_pos =? 2)%N then
              a2b_loop s' 3%N (N.land this_ch 3) 0%N
                (ascii_of_N (N.lor (N.shiftl leftchar 4) (N.shiftr this_ch 2)) :: out)
            else
              a2b_loop s' 0%N 0%N 0%N
                (ascii_of_N (N.lor (N.shiftl leftchar 6) this_ch) :: out)
        end
  end.

Definition a2b (s : string) : Exn + bytes :=
  match a2b_loop s 0 0 0 [] with
  | inr out => inr (string_of_list_ascii (rev out))
  | inl e => inl e
  end.

Definition b64encode (b : bytes) : bytes := b2a b.
Definition b64decode (s : bytes) : Exn + bytes := a2b s.

End Base64.


(** ** chat/models.py and the message path of chat/schema.py *)

Module Message.

Record t : Type := {
  id : Z;
  chat : Z;
  sender : User;
  content : string;
  media_type : string;
  timestamp : string
}.

Definition encrypt_content (self : t) : Exn + string :=
  match encode_utf8 (content self) with
  | inr raw => decode_utf8 (Base64.b64encode raw)
  | inl e => inl e
  end.

Definition decrypt_content (self : t) : string :=
  let decoded :=
    match encode_utf8 (content self) with
    | inr text =>
        match Base64.b64decode text with
        | inr raw => decode_utf8 raw
        | inl e => inl e
        end
    | inl e => inl e
    end in
  match decoded with
  | inr s => s
  | inl _ => content self
  end.

End Message.

Record MessageType : Type := {
  mt_id : Z;
  mt_sender : User;
  mt_media_type : string;
  mt_timestamp : string;
  mt_content : string
}.

Record SendMessageInput : Type := {
  in_chat_id : Z;
  in_sender_id : Z;
  in_content : string;
  in_media_type : option string
}.

(** The tables the mutation touches.  [next_id] is the key the store
    gives the next message row. *)
Record Db : Type := {
  users : list User;
  chats : list Z;
  messages : list Message.t;
  next_id : Z
}.

Definition get_chat (db : Db) (chat_id : Z) : Exn + Z :=
  match List.find (fun c => c =? chat_id) (chats db) with
  | Some c => inr c
  | None => inl DoesNotExist
  end.

Definition get_sender (db : Db) (user_id : Z) : Exn + User :=
  match List.find (fun u => id u =? user_id) (users db) with
  | Some u => inr u
  | None => inl DoesNotExist
  end.

(** [input.media_type or "text"]. *)
Definition media_type_or_text (m : option string) : string :=
  match m with
  | Some s => if String.eqb s EmptyString then "text" else s
  | None => "text"
  end.

(** [Mutation.send_message]; [now] is the time the store stamps on the
    row, as [str] prints it. *)
Definition send_message (db : Db) (input : SendMessageInput) (now : string)
  : Exn + (Db * MessageType) :=
  match get_chat db (in_chat_id input) with
  | inl e => inl e
  | inr chat =>
      match get_sender db (in_sender_id input) with
      | inl e => inl e
      | inr sender =>
          match
            match encode_utf8 (in_content input) with
            | inr raw => decode_utf8 (Base64.b64encode raw)
            | inl e => inl e
            end
          with
          | inl e => inl e
          | inr encrypted_content =>
              let message :=
                {| Message.id := next_id db;
                   Message.chat := chat;
                   Message.sender := sender;
                   Message.content := encrypted_content;
                   Message.media_type := media_type_or_text (in_media_type input);
                   Message.timestamp := now |} in
              let db' :=
                {| users := users db; chats := chats db;
                   messages := (messages db ++ [message])%list;
                   next_id := next_id db + 1 |} in
              let decrypted_content := Message.decrypt_content message in
              inr (db',
                   {| mt_id := Message.id message;
                      mt_sender := sender;
                      mt_media_type := Message.media_type message;
                      mt_timestamp := Message.timestamp message;
                      mt_content := decrypted_content |})
          end
      end
  end.

(** The [MessageType] the queries ([all_messages], [user_messages],
    [latest_message]) build from a stored row. *)
Definition message_type_of (msg : Message.t) : MessageType :=
  {| mt_id := Message.id msg;
     mt_sender := Message.sender msg;
     mt_media_type := Message.media_type msg;
     mt_timestamp := Message.timestamp msg;
     mt_content := Message.decrypt_content msg |}.


(** ** Checks and sample data used by the proofs *)

Module Base64Check.
Import Base64.

Local Open Scope N_scope.

Definition below (k : nat) : list N := List.map N.of_nat (seq 0 k).

Definition sextet_ok (n : N) : bool :=
  match table_a2b (table_b2a n) with
  | Some m => (m =? n) && negb (Ascii.eqb (table_b2a n) pad)
              && (N_of_ascii (table_b2a n) <? 128)
  | None => false
  end.

(** The four sextets of a group of three bytes. *)
Definition s1 (a : N) : N := N.shiftr a 2.
Definition s2 (a b : N) : N := N.lor (N.shiftl (N.land a 3) 4) (N.shiftr b 4).
Definition s3 (b c : N) : N := N.lor (N.shiftl (N.land b 15) 2) (N.shiftr c 6).
Definition s4 (c : N) : N := N.land c 63.

Definition first_ok (a b : N) : bool :=
  (s1 a <? 64) && (s2 a b <? 64)
  && (N.lor (N.shiftl (s1 a) 2) (N.shiftr (s2 a b) 4) =? a).

Definition second_ok (a3 b c6 : N) : bool :=
  let i2 := N.lor (N.shiftl a3 4) (N.shiftr b 4) in
  let i3 := N.lor (N.shiftl (N.land b 15) 2) c6 in
  (i3 <? 64)
  && (N.lor (N.shiftl (N.land i2 15) 4) (N.shiftr i3 2) =? b).

Definition third_ok (b15 c : N) : bool :=
  let i3 := N.lor (N.shiftl b15 2) (N.shiftr c 6) in
  (s4 c <? 64) && (N.lor (N.shiftl (N.land i3 3) 6) (s4 c) =? c).

Definition parts_ok (a : N) : bool :=
  (N.land a 3 <? 4) && (N.land a 15 <? 16) && (N.shiftr a 6 <? 4).

Fixpoint all_ascii (s : string) : bool :=
  match s with
  | EmptyString => true
  | String c s' => (N_of_ascii c <? 128) && all_ascii s'
  end.

End Base64Check.

Definition db0 : Db :=
  {| users := [{| id := 7; username := "ann" |}]; chats := [42];
     messages := []; next_id := 1 |}.

Definition input0 : SendMessageInput :=
  {| in_chat_id := 42; in_sender_id := 7; in_content := "hi";
     in_media_type := None |}.

(** ** The routing table of the specification

    The event kinds, the group keys and the table of section 6, written
    from the specification, to be compared with [ChatConsumer.receive]. *)

Inductive EventKind : Type :=
| StartChat
| NewMessage
| UpdateProfile
| DeleteChat
| TypingIndicator
| UserOnline
| UserOffline.

Definition kind_name (k : EventKind) : string :=
  match k with
  | StartChat => "start_chat"
  | NewMessage => "new_message"
  | UpdateProfile => "update_profile"
  | DeleteChat => "delete_chat"
  | TypingIndicator => "typing_indicator"
  | UserOnline => "user_online"
  | UserOffline => "user_offline"
  end.

Inductive GroupKey : Type :=
| ChatGroup (chat_id : value)
| UserGroup (user_id : value)
| Online.

(** The name under which the channel layer knows a group key. *)
Definition group_name (g : GroupKey) : string :=
  match g with
  | ChatGroup v => "chat_" +:+ Py.str v
  | UserGroup v => "user_" +:+ Py.str v
  | Online => "online_users"
  end.

(** A payload field, [None] when the key is missing. *)
Definition field (p : list (string * value)) (k : string) : value :=
  default VNone (Py.dict_get p k).

Definition table_target (k : EventKind) (p : list (string * value)) : GroupKey :=
  match k with
  | StartChat => UserGroup (field p "recipient_id")
  | NewMessage => ChatGroup (field p "chat_id")
  | UpdateProfile => Online
  | DeleteChat => ChatGroup (field p "chat_id")
  | TypingIndicator => UserGroup (field p "recipient_id")
  | UserOnline => Online
  | UserOffline => Online
  end.

Definition table_outbound (k : EventKind) : string :=
  match k with
  | StartChat => "chat_started"
  | NewMessage => "new_message"
  | UpdateProfile => "profile_updated"
  | DeleteChat => "chat_deleted"
  | TypingIndicator => "user_typing"
  | UserOnline => "user_online"
  | UserOffline => "user_offline"
  end.

(** The content a new_message carries: the payload's, or the default. *)
Definition expected_content (p : list (string * value)) : value :=
  match Py.dict_get p "message" with
  | Some (VDict m) => default (VStr "No content") (Py.dict_get m "content")
  | _ => VStr "No content"
  end.

(** The payload's message with its content filled in. *)
Definition message_with_content (p : list (string * value)) : value :=
  match Py.dict_get p "message" with
  | Some (VDict m) => VDict (Py.dict_set m "content" (expected_content p))
  | _ => VDict [("content", expected_content p)]
  end.

Definition table_fields (k : EventKind) (p : list (string * value))
  : list (string * value) :=
  match k with
  | StartChat => [("chat", field p "chat")]
  | NewMessage => [("message", message_with_content p)]
  | UpdateProfile => [("profile", field p "profile")]
  | DeleteChat => [("chat_id", field p "chat_id")]
  | TypingIndicator => [("user_id", field p "user_id")]
  | UserOnline => [("user_id", field p "user_id")]
  | UserOffline => [("user_id", field p "user_id")]
  end.

Definition table_message (k : EventKind) (p : list (string * value)) : value :=
  VDict (("type", VStr (table_outbound k)) :: table_fields k p).

(** The payload's message is a mapping, or is not there. *)
Definition message_is_mapping (p : list (string * value)) : bool :=
  match Py.dict_get p "message" with
  | None => true
  | Some (VDict _) => true
  | Some _ => false
  end.

(** The message the router puts on the channel layer for new_message. *)
Definition new_message_event (md : value) : value :=
  VDict [("type", VStr "new_message"); ("message", md)].

(** The content of the message in the payload of an outbound frame. *)
Definition frame_content (frame : value) : Exn + value :=
  match Py.subscript frame "payload" with
  | inr pl =>
      match Py.subscript pl "message" with
      | inr m => Py.subscript m "content"
      | inl e => inl e
      end
  | inl e => inl e
  end.

(** The fields the new_message handler reads from a message. *)
Record MessageFields : Type := {
  f_id : value;
  f_sender_id : value;
  f_sender_username : value;
  f_media_type : value;
  f_timestamp : value
}.

(** [m] supplies every field the handler reads besides the content. *)
Definition supplies (m : list (string * value)) (f : MessageFields) : Prop :=
  Py.dict_get m "id" = Some (f_id f)
  ∧ (∃ s, Py.dict_get m "sender" = Some (VDict s)
        ∧ Py.dict_get s "id" = Some (f_sender_id f)
        ∧ Py.dict_get s "username" = Some (f_sender_username f))
  ∧ Py.dict_get m "mediaType" = Some (f_media_type f)
  ∧ Py.dict_get m "timestamp" = Some (f_timestamp f).

(** The outbound new_message frame. *)
Definition new_message_frame (f : MessageFields) (content : value) : value :=
  VDict [
    ("event", VStr "new_message");
    ("payload", VDict [
      ("message", VDict [
        ("id", f_id f);
        ("sender", VDict [("id", f_sender_id f); ("username", f_sender_username f)]);
        ("content", content);
        ("mediaType", f_media_type f);
        ("timestamp", f_timestamp f)])])].

(** Sample connections and envelopes. *)

Definition consumer0 : ChatConsumer.t :=
  {| ChatConsumer.channel_name := "specific.A";
     ChatConsumer.scope :=
       {| query := []; user := Some AnonymousUser; kwargs := [("chat_id", VStr "42")] |};
     ChatConsumer.user_id := Some VNone;
     ChatConsumer.chat_id := Some (VStr "42");
     ChatConsumer.chat_group_name := None |}.

Definition envelope_ping : list (string * value) := [("event", VStr "ping")].

Definition envelope_text_message : list (string * value) :=
  [("event", VStr "new_message");
   ("payload", VDict [("chat_id", VInt 42); ("message", VStr "hi")])].

Definition message_hi : list (string * value) :=
  [("id", VInt 1);
   ("sender", VDict [("id", VInt 7); ("username", VStr "ann")]);
   ("content", VStr "hi")].

Definition message_hi_full : list (string * value) :=
  [("id", VInt 1);
   ("sender", VDict [("id", VInt 7); ("username", VStr "ann")]);
   ("content", VStr "hi");
   ("mediaType", VStr "text");
   ("timestamp", VStr "2025-01-01T00:00:00")].

Definition fields_hi_full : MessageFields :=
  {| f_id := VInt 1; f_sender_id := VInt 7; f_sender_username := VStr "ann";
     f_media_type := VStr "text"; f_timestamp := VStr "2025-01-01T00:00:00" |}.

Definition envelope_new_message (m : list (string * value)) : list (string * value) :=
  [("event", VStr "new_message");
   ("payload", VDict [("chat_id", VInt 42); ("message", VDict m)])].

Definition envelope_user_online : list (string * value) :=
  [("event", VStr "user_online"); ("payload", VDict [("user_id", VInt 9)])].

(** ** The hub: what the proofs speak of *)

(** The credential of the connect request resolves to no user: no
    token, an empty one, an expired one, an invalid one, or one that
    decodes to claims without a user id that counts as true or with the
    id of no user. *)
Definition auth_fails (jwt_decode : string → JwtResult)
  (user_by_id : value → option User) (q : list (string * list string)) : Prop :=
  match query_token q with
  | None => True
  | Some token =>
      token = EmptyString
      ∨ jwt_decode token = ExpiredSignatureError
      ∨ jwt_decode token = InvalidTokenError
      ∨ ∃ claims,
          jwt_decode token = Decoded claims
          ∧ (Py.truthy (default VNone (Py.dict_get claims "user_id")) = false
             ∨ user_by_id (default VNone (Py.dict_get claims "user_id")) = None)
  end.

(** Calls that leave the group registry alone. *)
Definition quiet (e : Effect) : Prop :=
  match e with
  | GroupAdd _ _ | GroupDiscard _ _ => False
  | _ => True
  end.

(** A message as [receive] puts it on the layer: a mapping whose type
    is one of the seven outbound names. *)
Definition typed_message (m : value) : Prop :=
  ∃ k fs, m = VDict (("type", VStr (table_outbound k)) :: fs).

(** What holds of the hub at all times: every running instance carries
    its own channel name and a chat id, and its name is not among the
    closed ones; a group with a member is the group of a chat, with a
    chat id that counts as true and under a valid name, and the member
    is closed or is a running instance with that chat id; a message
    waiting in a mailbox is one [receive] made. *)
Definition hub_inv_on (non_ascii_name_ok : string → bool)
  (gs : gmap string (gset string)) (cs : gmap string ChatConsumer.t)
  (cl : gset string) (mb : gmap string (list value)) : Prop :=
  (∀ c self, cs !! c = Some self →
     ChatConsumer.channel_name self = c ∧ ∃ cid, ChatConsumer.chat_id self = Some cid)
  ∧ (∀ c self, cs !! c = Some self → c ∉ cl)
  ∧ (∀ g ms c, gs !! g = Some ms → c ∈ ms →
       ∃ cid, Py.truthy cid = true
            ∧ g = "chat_" +:+ Py.str cid
            ∧ Layer.valid_group_name non_ascii_name_ok g = true
            ∧ (c ∈ cl
               ∨ ∃ self, cs !! c = Some self
                       ∧ ChatConsumer.chat_id self = Some cid))
  ∧ (∀ c msgs m, mb !! c = Some msgs → m ∈ msgs → typed_message m).

Definition hub_inv (non_ascii_name_ok : string → bool) (w : World) : Prop :=
  hub_inv_on non_ascii_name_ok (groups w) (consumers w) (closed w) (mailbox w).

(** The handler of each kind's outbound event. *)
Definition handler_of (k : EventKind)
  : ChatConsumer.t → value → Run ChatConsumer.t :=
  match k with
  | StartChat => ChatConsumer.chat_started
  | NewMessage => ChatConsumer.new_message
  | UpdateProfile => ChatConsumer.profile_updated
  | DeleteChat => ChatConsumer.chat_deleted
  | TypingIndicator => ChatConsumer.user_typing
  | UserOnline => ChatConsumer.user_online
  | UserOffline => ChatConsumer.user_offline
  end.

(** Sample framework: no digits of other scripts in names, no handler
    beyond those of the class. *)
Definition non_ascii0 (name : string) : bool := false.

Definition framework0 (name : string) (self : ChatConsumer.t) (message : value)
  : Run ChatConsumer.t := raise ValueError.

(** Sample collaborators: two tokens that resolve, one that has expired. *)

Definition ann : User := {| id := 7; username := "ann" |}.
Definition bob : User := {| id := 8; username := "bob" |}.

Definition jwt_decode0 (token : string) : JwtResult :=
  if String.eqb token "token-ann" then Decoded [("user_id", VInt 7)]
  else if String.eqb token "token-bob" then Decoded [("user_id", VInt 8)]
  else if String.eqb token "token-old" then ExpiredSignatureError
  else InvalidTokenError.

Definition user_by_id0 (user_id : value) : option User :=
  match user_id with
  | VInt 7 => Some ann
  | VInt 8 => Some bob
  | _ => None
  end.

Definition scope_of (token : string) : Scope :=
  {| query := [("token", [token])]; user := None;
     kwargs := [("chat_id", VStr "42")] |}.

Definition scope_no_token : Scope :=
  {| query := []; user := None; kwargs := [("chat_id", VStr "42")] |}.

(** Ann and Bob both connected to chat 42. *)
Definition world42 : World :=
  run jwt_decode0 user_by_id0 non_ascii0 framework0 empty_world
    [Connect "specific.A" (scope_of "token-ann");
     Connect "specific.B" (scope_of "token-bob")].

Definition fields_hi_none : MessageFields :=
  {| f_id := VInt 1; f_sender_id := VInt 7; f_sender_username := VStr "ann";
     f_media_type := VNone; f_timestamp := VNone |}.

(** The instances of Ann and Bob once connected. *)
Definition consumer_ann : ChatConsumer.t :=
  {| ChatConsumer.channel_name := "specific.A";
     ChatConsumer.scope := JWTAuthMiddleware jwt_decode0 user_by_id0 (scope_of "token-ann");
     ChatConsumer.user_id := Some (VInt 7);
     ChatConsumer.chat_id := Some (VStr "42");
     ChatConsumer.chat_group_name := Some "chat_42" |}.

Definition consumer_bob : ChatConsumer.t :=
  {| ChatConsumer.channel_name := "specific.B";
     ChatConsumer.scope := JWTAuthMiddleware jwt_decode0 user_by_id0 (scope_of "token-bob");
     ChatConsumer.user_id := Some (VInt 8);
     ChatConsumer.chat_id := Some (VStr "42");
     ChatConsumer.chat_group_name := Some "chat_42" |}.

(** Ann sends the message of the scenario, Bob handles what he got. *)
Definition world42_after (m : list (string * value)) : World :=
  run jwt_decode0 user_by_id0 non_ascii0 framework0 world42
    [Receive "specific.A" (VDict (envelope_new_message m)); Handle "specific.B"].

(** Chat 42 once Bob has sent the full message: it waits in the
    mailboxes of Ann and Bob. *)
Definition world42_queued : World :=
  run jwt_decode0 user_by_id0 non_ascii0 framework0 world42
    [Receive "specific.B" (VDict (envelope_new_message message_hi_full))].

(** ** More of the consumer and the hub *)

(** The frame the handler of each kind other than new_message sends,
    in terms of the payload the sender gave. *)
Definition simple_frame (k : EventKind) (p : list (string * value)) : value :=
  match k with
  | StartChat =>
      VDict [("event", VStr "chat_started"); ("data", field p "chat")]
  | UpdateProfile =>
      VDict [("event", VStr "profile_updated"); ("data", field p "profile")]
  | DeleteChat =>
      VDict [("event", VStr "chat_deleted");
             ("data", VDict [("chat_id", field p "chat_id")])]
  | TypingIndicator =>
      VDict [("event", VStr "user_typing");
             ("data", VDict [("user_id", field p "user_id")])]
  | UserOnline =>
      VDict [("event", VStr "user_online");
             ("data", VDict [("user_id", field p "user_id")])]
  | UserOffline =>
      VDict [("event", VStr "user_offline");
             ("data", VDict [("user_id", field p "user_id")])]
  | NewMessage => VNone
  end.

(** A message lacks a key the new_message handler reads by subscript. *)
Definition lacks_field (m : list (string * value)) : Prop :=
  Py.dict_get m "id" = None
  ∨ Py.dict_get m "sender" = None
  ∨ Py.dict_get m "mediaType" = None
  ∨ Py.dict_get m "timestamp" = None.

(** The channel an event of the hub happens on. *)
Definition event_channel (ev : HubEvent) : string :=
  match ev with
  | Connect c _ => c
  | Receive c _ => c
  | Handle c => c
  | Disconnect c => c
  end.

(** [c] is a member of group [g]. *)
Definition member_of (c g : string) (gs : gmap string (gset string)) : Prop :=
  ∃ ms, gs !! g = Some ms ∧ c ∈ ms.

Definition envelope_typing : list (string * value) :=
  [("event", VStr "typing_indicator");
   ("payload", VDict [("recipient_id", VInt 8); ("user_id", VInt 7)])].

(** ** Accounts: tokens and the profile table of chat/schema.py *)

Record Profile : Type := { bio : option string; online : bool }.

Record ProfileType : Type := { pt_bio : option string; pt_online : bool }.

Record AuthPayload : Type := { token : string; auth_user : User }.

Record LoginInput : Type := { li_username : string; li_password : string }.

(** The row [Profile.objects.create(user=user)] and [get_or_create]
    make: no bio, offline. *)
Definition new_profile : Profile := {| bio := None; online := false |}.

Section Accounts.

(** [jwt.encode(claims, SECRET_KEY, algorithm="HS256")]. *)
Variable jwt_encode : list (string * value) → string.
(** [authenticate(username=..., password=...)] of the auth framework. *)
Variable authenticate : string → string → option User.

(** The token [signup] and [login] hand out for a user. *)
Definition issue_token (usr : User) : string :=
  jwt_encode [("user_id", VInt (id usr))].

(** [Mutation.login] on the profile table, keyed by the user's id (a
    user has at most one profile). *)
Definition login (profiles : gmap Z Profile) (input : LoginInput)
  : gmap Z Profile * option AuthPayload :=
  match authenticate (li_username input) (li_password input) with
  | Some usr =>
      let profile := default new_profile (profiles !! id usr) in
      (<[id usr := {| bio := bio profile; online := true |}]> profiles,
       Some {| token := issue_token usr; auth_user := usr |})
  | None => (profiles, None)
  end.

(** [Mutation.logout]. *)
Definition logout (profiles : gmap Z Profile) (user_id : Z)
  : gmap Z Profile * bool :=
  match profiles !! user_id with
  | Some profile =>
      (<[user_id := {| bio := bio profile; online := false |}]> profiles, true)
  | None => (profiles, false)
  end.

(** [Mutation.update_profile]. *)
Definition update_profile (profiles : gmap Z Profile) (user_id : Z) (new_bio : string)
  : gmap Z Profile * option ProfileType :=
  match profiles !! user_id with
  | Some profile =>
      (<[user_id := {| bio := Some new_bio; online := online profile |}]> profiles,
       Some {| pt_bio := Some new_bio; pt_online := online profile |})
  | None => (profiles, None)
  end.

(** [Query.profile]. *)
Definition profile (profiles : gmap Z Profile) (user_id : Z) : option ProfileType :=
  match profiles !! user_id with
  | Some p => Some {| pt_bio := bio p; pt_online := online p |}
  | None => None
  end.

(** [Query.online_users]: the ids of the users it lists. *)
Definition online_users (profiles : gmap Z Profile) : gset Z :=
  dom (filter (fun kp => online kp.2 = true) profiles).

End Accounts.

Definition jwt_encode0 (claims : list (string * value)) : string :=
  match claims with
  | [(_, VInt 7)] => "token-ann"
  | [(_, VInt 8)] => "token-bob"
  | _ => "token-none"
  end.

Definition authenticate0 (username password : string) : option User :=
  if String.eqb username "ann" && String.eqb password "pw-ann" then Some ann
  else if String.eqb username "bob" && String.eqb password "pw-bob" then Some bob
  else None.

Definition profiles0 : gmap Z Profile :=
  {[ 7 := {| bio := Some "hello"; online := false |} ]}.

(** The kinds routed to the group of a chat; the others go to the group
    of a user or to the online group. *)
Definition chat_kind (k : EventKind) : bool :=
  match k with
  | NewMessage | DeleteChat => true
  | _ => false
  end.

Definition login_ann : LoginInput := {| li_username := "ann"; li_password := "pw-ann" |}.

(** ** Chats: Chat.get_or_create_chat and Mutation.start_chat *)

(** A chat row with its participants, the ids of the users linked to
    it. *)
Record ChatRow : Type := {
  chat_pk : Z;
  started_at : string;
  participants : gset Z
}.

(** The chat table in the order of the keys, and the key the store
    gives the next row. *)
Record ChatTable : Type := { chat_rows : list ChatRow; next_chat_pk : Z }.

(** [filter(participants=user1).filter(participants=user2)]. *)
Definition has_both (u1 u2 : Z) (r : ChatRow) : bool :=
  bool_decide (u1 ∈ participants r) && bool_decide (u2 ∈ participants r).

(** [Chat.get_or_create_chat]; [now] is the time the store stamps on a
    new row. *)
Definition get_or_create_chat (t : ChatTable) (user1 user2 : User) (now : string)
  : ChatTable * (ChatRow * bool) :=
  match List.find (has_both (id user1) (id user2)) (chat_rows t) with
  | Some chat => (t, (chat, false))
  | None =>
      let chat := {| chat_pk := next_chat_pk t; started_at := now;
                     participants := {[id user1; id user2]} |} in
      ({| chat_rows := (chat_rows t ++ [chat])%list;
          next_chat_pk := next_chat_pk t + 1 |},
       (chat, true))
  end.

Record ChatType : Type := {
  ct_id : Z;
  ct_started_at : string;
  ct_participants : list User
}.

Record StartChatInput : Type := { user1_id : Z; user2_id : Z }.

(** [User.objects.get(id=user_id)]. *)
Definition get_user_by_pk (us : list User) (user_id : Z) : Exn + User :=
  match List.find (fun u => id u =? user_id) us with
  | Some u => inr u
  | None => inl DoesNotExist
  end.

(** [Mutation.start_chat]. *)
Definition start_chat (us : list User) (t : ChatTable) (input : StartChatInput)
  (now : string) : Exn + (ChatTable * ChatType) :=
  match get_user_by_pk us (user1_id input) with
  | inl e => inl e
  | inr user1 =>
      match get_user_by_pk us (user2_id input) with
      | inl e => inl e
      | inr user2 =>
          let r := get_or_create_chat t user1 user2 now in
          inr (r.1,
               {| ct_id := chat_pk r.2.1;
                  ct_started_at := started_at r.2.1;
                  ct_participants := [user1; user2] |})
      end
  end.

(** No two rows of the table hold the same two users. *)
Definition pair_unique (rows : list ChatRow) : Prop :=
  ∀ i j ri rj a b,
    rows !! i = Some ri → rows !! j = Some rj → i ≠ j → a ≠ b →
    ¬ (a ∈ participants ri ∧ b ∈ participants ri
       ∧ a ∈ participants rj ∧ b ∈ participants rj).

(** ** The message table: the other mutations of chat/schema.py *)

(** [Mutation.delete_chat]: the messages of the chat go with it, as
    their foreign key cascades. *)
Definition delete_chat (db : Db) (chat_id : Z) : Db * bool :=
  match get_chat db chat_id with
  | inr chat =>
      ({| users := users db;
          chats := List.filter (fun c => negb (c =? chat)) (chats db);
          messages := List.filter (fun m => negb (Message.chat m =? chat)) (messages db);
          next_id := next_id db |},
       true)
  | inl _ => (db, false)
  end.

(** [Mutation.delete_message]. *)
Definition delete_message (db : Db) (message_id : Z) : Db * bool :=
  match List.find (fun m => Message.id m =? message_id) (messages db) with
  | Some message =>
      ({| users := users db; chats := chats db;
          messages :=
            List.filter (fun m => negb (Message.id m =? Message.id message)) (messages db);
          next_id := next_id db |},
       true)
  | None => (db, false)
  end.

(** [msg.save()]: the row with the key of [msg] takes the fields of
    [msg]; without such a row one is added. *)
Definition save_message (db : Db) (msg : Message.t) : Db :=
  {| users := users db; chats := chats db;
     messages :=
       if existsb (fun r => Message.id r =? Message.id msg) (messages db)
       then List.map (fun r => if Message.id r =? Message.id msg then msg else r)
              (messages db)
       else (messages db ++ [msg])%list;
     next_id := next_id db |}.

(** [Mutation.mark_messages_read]: [read] is set on each object and the
    object saved; the model has no such field, so what is saved is the
    fields as they were loaded. *)
Definition mark_messages_read (db : Db) (chat_id user_id : Z) : Db * bool :=
  let msgs :=
    List.filter (fun m => (Message.chat m =? chat_id) && (id (Message.sender m) =? user_id))
      (messages db) in
  (foldl save_message db msgs, true).

(** The keys of the message rows are distinct and below the next key. *)
Definition message_keys_ok (db : Db) : Prop :=
  NoDup (List.map Message.id (messages db))
  ∧ Forall (fun m => Message.id m < next_id db) (messages db).

(** The mutations that touch the message table. *)
Inductive MessageOp : Type :=
| OpSend (input : SendMessageInput) (now : string)
| OpDeleteChat (chat_id : Z)
| OpDeleteMessage (message_id : Z)
| OpMarkRead (chat_id user_id : Z).

(** The table after a mutation; a mutation that raises leaves it. *)
Definition after_op (db : Db) (op : MessageOp) : Db :=
  match op with
  | OpSend input now =>
      match send_message db input now with
      | inr r => r.1
      | inl _ => db
      end
  | OpDeleteChat chat_id => (delete_chat db chat_id).1
  | OpDeleteMessage message_id => (delete_message db message_id).1
  | OpMarkRead chat_id user_id => (mark_messages_read db chat_id user_id).1
  end.

Definition chat_table0 : ChatTable :=
  {| chat_rows := [{| chat_pk := 1; started_at := "t0"; participants := {[7; 8]} |}];
     next_chat_pk := 2 |}.

Definition row_hi : Message.t :=
  {| Message.id := 1; Message.chat := 42; Message.sender := ann;
     Message.content := "aGk="; Message.media_type := "text";
     Message.timestamp := "t1" |}.

Definition db1 : Db :=
  {| users := [ann; bob]; chats := [42; 43]; messages := [row_hi]; next_id := 2 |}.

(** The kind an event name stands for, if any. *)
Definition kind_of_name (s : string) : option EventKind :=
  if String.eqb s "start_chat" then Some StartChat
  else if String.eqb s "new_message" then Some NewMessage
  else if String.eqb s "update_profile" then Some UpdateProfile
  else if String.eqb s "delete_chat" then Some DeleteChat
  else if String.eqb s "typing_indicator" then Some TypingIndicator
  else if String.eqb s "user_online" then Some UserOnline
  else if String.eqb s "user_offline" then Some UserOffline
  else None.

(** What [receive] raises on a frame, if anything: [AttributeError] on
    a frame that is not a mapping, on an event that names a kind while
    the payload is missing or not a mapping, and on a new_message whose
    message is there and not a mapping; [TypeError] when the name of
    the target group is not a valid one. *)
Definition receive_error (non_ascii_name_ok : string → bool) (data : value)
  : option Exn :=
  match data with
  | VDict d =>
      match Py.dict_get d "event" with
      | Some (VStr s) =>
          match kind_of_name s with
          | Some k =>
              match Py.dict_get d "payload" with
              | Some (VDict p) =>
                  if match k with
                     | NewMessage => message_is_mapping p
                     | _ => true
                     end
                  then
                    if Layer.valid_group_name non_ascii_name_ok
                         (group_name (table_target k p))
                    then None else Some TypeError
                  else Some AttributeError
              | _ => Some AttributeError
              end
          | None => None
          end
      | _ => None
      end
  | _ => Some AttributeError
  end.

(** More sample data. *)

Definition carol : User := {| id := 9; username := "carol" |}.

Definition chat_table1 : ChatTable :=
  {| chat_rows := [{| chat_pk := 1; started_at := "t0"; participants := {[7; 8]} |};
                   {| chat_pk := 2; started_at := "t1"; participants := {[7; 9]} |}];
     next_chat_pk := 3 |}.

Definition row_ho : Message.t :=
  {| Message.id := 2; Message.chat := 42; Message.sender := bob;
     Message.content := "ho"; Message.media_type := "text";
     Message.timestamp := "t2" |}.

Definition row_plain_hi : Message.t :=
  {| Message.id := 3; Message.chat := 42; Message.sender := ann;
     Message.content := "hi"; Message.media_type := "text";
     Message.timestamp := "t3" |}.

Definition row_bob_hi : Message.t :=
  {| Message.id := 4; Message.chat := 43; Message.sender := bob;
     Message.content := "hi"; Message.media_type := "text";
     Message.timestamp := "t4" |}.

(** The code point U+D800, a surrogate, alone in a text. *)
Definition lone_surrogate : string :=
  String (ascii_of_N 237) (String (ascii_of_N 160) (String (ascii_of_N 128) EmptyString)).

Definition input_surrogate : SendMessageInput :=
  {| in_chat_id := 42; in_sender_id := 7; in_content := lone_surrogate;
     in_media_type := None |}.

Definition envelope_delete_chat : list (string * value) :=
  [("event", VStr "delete_chat"); ("payload", VDict [("chat_id", VInt 42)])].

Definition envelope_bad_group : list (string * value) :=
  [("event", VStr "delete_chat"); ("payload", VDict [("chat_id", VStr "a b")])].
(** * Properties *)

(** ** Formatting *)

Example str_int : Py.str (VInt 42) = "42".
Proof. reflexivity. Qed.

Example str_none : Py.str VNone = "None".
Proof. reflexivity. Qed.

Example str_dict :
  Py.str (VDict [("a", VInt (-1)); ("b'", VList [VStr "x"; VBool true])])
  = "{'a': -1, " +:+ String (ascii_of_N 34) "b'" +:+ String (ascii_of_N 34) ": ['x', True]}".
Proof. vm_compute. reflexivity. Qed.

(** ** base64 round trip *)

Module Base64Facts.
Import Base64 Base64Check.

Local Open Scope N_scope.

Lemma below_spec (k : nat) (n : N) : n < N.of_nat k → In n (below k).
Proof.
  intros Hn. unfold below. apply in_map_iff. exists (N.to_nat n). split.
  - apply N2Nat.id.
  - apply in_seq. lia.
Qed.

Lemma forall_below (k : nat) (P : N → bool) :
  forallb P (below k) = true → ∀ n, n < N.of_nat k → P n = true.
Proof.
  intros Hall n Hn. rewrite forallb_forall in Hall. apply Hall, below_spec, Hn.
Qed.

Lemma sextet (n : N) :
  n < 64 →
  table_a2b (table_b2a n) = Some n
  ∧ Ascii.eqb (table_b2a n) pad = false
  ∧ N_of_ascii (table_b2a n) < 128.
Proof.
  intros Hn.
  assert (H : sextet_ok n = true).
  { apply (forall_below 64); [vm_compute; reflexivity | exact Hn]. }
  unfold sextet_ok in H. destruct (table_a2b (table_b2a n)) as [m|]; [|discriminate].
  apply andb_prop in H as [H H3]. apply andb_prop in H as [H1 H2].
  apply N.eqb_eq in H1. apply negb_true_iff in H2. apply N.ltb_lt in H3.
  subst m. auto.
Qed.

Lemma parts (a : N) :
  a < 256 → N.land a 3 < 4 ∧ N.land a 15 < 16 ∧ N.shiftr a 6 < 4.
Proof.
  intros Ha.
  assert (H : parts_ok a = true).
  { apply (forall_below 256); [vm_compute; reflexivity | exact Ha]. }
  unfold parts_ok in H. rewrite !andb_true_iff, !N.ltb_lt in H. tauto.
Qed.

Lemma first_byte (a b : N) :
  a < 256 → b < 256 →
  s1 a < 64 ∧ s2 a b < 64
  ∧ N.lor (N.shiftl (s1 a) 2) (N.shiftr (s2 a b) 4) = a.
Proof.
  intros Ha Hb.
  assert (H : first_ok a b = true).
  { revert b Hb. apply (forall_below 256).
    revert a Ha. apply (forall_below 256 (fun a => forallb (first_ok a) (below 256))).
    vm_compute; reflexivity. }
  unfold first_ok in H. rewrite !andb_true_iff, !N.ltb_lt, N.eqb_eq in H. tauto.
Qed.

Lemma second_byte (a b c : N) :
  a < 256 → b < 256 → c < 256 →
  s3 b c < 64
  ∧ N.lor (N.shiftl (N.land (s2 a b) 15) 4) (N.shiftr (s3 b c) 2) = b.
Proof.
  intros Ha Hb Hc.
  destruct (parts a Ha) as (Ha3 & _ & _). destruct (parts c Hc) as (_ & _ & Hc6).
  assert (H : second_ok (N.land a 3) b (N.shiftr c 6) = true).
  { revert Hc6. generalize (N.shiftr c 6). intros c6 Hc6.
    revert Ha3. generalize (N.land a 3). intros a3 Ha3.
    revert c6 Hc6. apply (forall_below 4).
    revert b Hb.
    apply (forall_below 256 (fun b => forallb (second_ok a3 b) (below 4))).
    revert a3 Ha3.
    apply (forall_below 4
             (fun a3 => forallb (fun b => forallb (second_ok a3 b) (below 4)) (below 256))).
    vm_compute; reflexivity. }
  unfold second_ok in H. rewrite !andb_true_iff, !N.ltb_lt, N.eqb_eq in H.
  unfold s2, s3. tauto.
Qed.

Lemma third_byte (b c : N) :
  b < 256 → c < 256 →
  s4 c < 64 ∧ N.lor (N.shiftl (N.land (s3 b c) 3) 6) (s4 c) = c.
Proof.
  intros Hb Hc.
  destruct (parts b Hb) as (_ & Hb15 & _).
  assert (H : third_ok (N.land b 15) c = true).
  { revert Hb15. generalize (N.land b 15). intros b15 Hb15.
    revert c Hc. apply (forall_below 256).
    revert b15 Hb15.
    apply (forall_below 16 (fun b15 => forallb (third_ok b15) (below 256))).
    vm_compute; reflexivity. }
  unfold third_ok in H. rewrite !andb_true_iff, !N.ltb_lt, N.eqb_eq in H.
  unfold s3. tauto.
Qed.

Lemma loop_data (n : N) (s : string) (q l p : N) (out : list ascii) :
  n < 64 →
  a2b_loop (String (table_b2a n) s) q l p out =
    if q =? 0 then a2b_loop s 1 n 0 out
    else if q =? 1 then
      a2b_loop s 2 (N.land n 15) 0
        (ascii_of_N (N.lor (N.shiftl l 2) (N.shiftr n 4)) :: out)
    else if q =? 2 then
      a2b_loop s 3 (N.land n 3) 0
        (ascii_of_N (N.lor (N.shiftl l 4) (N.shiftr n 2)) :: out)
    else
      a2b_loop s 0 0 0 (ascii_of_N (N.lor (N.shiftl l 6) n) :: out).
Proof.
  intros Hn. destruct (sextet n Hn) as (Ha & Hp & _).
  cbn [a2b_loop]. rewrite Hp, Ha. reflexivity.
Qed.

Lemma b2a_three (x y z : ascii) (rest : string) :
  b2a (String x (String y (String z rest))) =
    String (table_b2a (s1 (N_of_ascii x)))
      (String (table_b2a (s2 (N_of_ascii x) (N_of_ascii y)))
         (String (table_b2a (s3 (N_of_ascii y) (N_of_ascii z)))
            (String (table_b2a (s4 (N_of_ascii z))) (b2a rest)))).
Proof. reflexivity. Qed.

Lemma b2a_two (x y : ascii) :
  b2a (String x (String y EmptyString)) =
    String (table_b2a (s1 (N_of_ascii x)))
      (String (table_b2a (s2 (N_of_ascii x) (N_of_ascii y)))
         (String (table_b2a (s3 (N_of_ascii y) 0))
            (String pad EmptyString))).
Proof.
  unfold s3. change (N.shiftr 0 6) with 0. rewrite N.lor_0_r. reflexivity.
Qed.

Lemma b2a_one (x : ascii) :
  b2a (String x EmptyString) =
    String (table_b2a (s1 (N_of_ascii x)))
      (String (table_b2a (s2 (N_of_ascii x) 0))
         (String pad (String pad EmptyString))).
Proof.
  unfold s2. change (N.shiftr 0 4) with 0. rewrite N.lor_0_r. reflexivity.
Qed.

Lemma string_ind3 (P : string → Prop) :
  P EmptyString →
  (∀ x, P (String x EmptyString)) →
  (∀ x y, P (String x (String y EmptyString))) →
  (∀ x y z r, P r → P (String x (String y (String z r)))) →
  ∀ s, P s.
Proof.
  intros H0 H1 H2 H3 s.
  assert (H : P s ∧ (∀ x, P (String x s)) ∧ (∀ x y, P (String x (String y s)))).
  { induction s as [|c s IH].
    - auto.
    - destruct IH as (IH0 & IH1 & IH2). repeat split; auto. }
  apply H.
Qed.

Lemma byte_bound (x : ascii) : N_of_ascii x < 256.
Proof. apply N_ascii_bounded. Qed.

Lemma loop_three (x y z : ascii) (rest : string) (out : list ascii) :
  a2b_loop (b2a (String x (String y (String z rest)))) 0 0 0 out
  = a2b_loop (b2a rest) 0 0 0 (z :: y :: x :: out).
Proof.
  pose proof (byte_bound x) as Hx. pose proof (byte_bound y) as Hy.
  pose proof (byte_bound z) as Hz.
  destruct (first_byte _ _ Hx Hy) as (H1 & H2 & E1).
  destruct (second_byte _ _ _ Hx Hy Hz) as (H3 & E2).
  destruct (third_byte _ _ Hy Hz) as (H4 & E3).
  rewrite b2a_three.
  rewrite (loop_data _ _ _ _ _ _ H1). cbn [N.eqb].
  rewrite (loop_data _ _ _ _ _ _ H2). cbn [N.eqb Pos.eqb].
  rewrite (loop_data _ _ _ _ _ _ H3). cbn [N.eqb Pos.eqb].
  rewrite (loop_data _ _ _ _ _ _ H4). cbn [N.eqb Pos.eqb].
  rewrite E1, E2, E3, !ascii_N_embedding. reflexivity.
Qed.

Lemma loop_two (x y : ascii) (out : list ascii) :
  a2b_loop (b2a (String x (String y EmptyString))) 0 0 0 out = inr (y :: x :: out).
Proof.
  pose proof (byte_bound x) as Hx. pose proof (byte_bound y) as Hy.
  assert (Hz : 0 < 256) by lia.
  destruct (first_byte _ _ Hx Hy) as (H1 & H2 & E1).
  destruct (second_byte _ _ _ Hx Hy Hz) as (H3 & E2).
  rewrite b2a_two.
  rewrite (loop_data _ _ _ _ _ _ H1). cbn [N.eqb].
  rewrite (loop_data _ _ _ _ _ _ H2). cbn [N.eqb Pos.eqb].
  rewrite (loop_data _ _ _ _ _ _ H3). cbn [N.eqb Pos.eqb].
  rewrite E1, E2, !ascii_N_embedding. reflexivity.
Qed.

Lemma loop_one (x : ascii) (out : list ascii) :
  a2b_loop (b2a (String x EmptyString)) 0 0 0 out = inr (x :: out).
Proof.
  pose proof (byte_bound x) as Hx.
  assert (Hz : 0 < 256) by lia.
  destruct (first_byte _ _ Hx Hz) as (H1 & H2 & E1).
  rewrite b2a_one.
  rewrite (loop_data _ _ _ _ _ _ H1). cbn [N.eqb].
  rewrite (loop_data _ _ _ _ _ _ H2). cbn [N.eqb Pos.eqb].
  rewrite E1, !ascii_N_embedding. reflexivity.
Qed.

Lemma loop_b2a (b : bytes) :
  ∀ out, a2b_loop (b2a b) 0 0 0 out = inr (rev (list_ascii_of_string b) ++ out)%list.
Proof.
  induction b as [|x|x y|x y z r IH] using string_ind3; intros out.
  - reflexivity.
  - apply loop_one.
  - apply loop_two.
  - rewrite loop_three, IH. cbn [list_ascii_of_string rev].
    rewrite <- !app_assoc. reflexivity.
Qed.

(** Decoding undoes encoding, on every byte string. *)
Lemma b64decode_b64encode (b : bytes) : b64decode (b64encode b) = inr b.
Proof.
  unfold b64decode, b64encode, a2b. rewrite loop_b2a.
  rewrite app_nil_r, rev_involutive, string_of_list_ascii_of_string. reflexivity.
Qed.

Lemma utf8_valid_ascii (s : string) : all_ascii s = true → utf8_valid s = true.
Proof.
  induction s as [|c s IH]; [reflexivity|].
  cbn [all_ascii utf8_valid]. intros H. apply andb_prop in H as [Hc Hs].
  apply N.ltb_lt in Hc.
  assert (Hb : byte_in c 0 127 = true).
  { unfold byte_in. apply andb_true_intro; split; apply N.leb_le; lia. }
  rewrite Hb. exact (IH Hs).
Qed.

Lemma b2a_ascii (b : bytes) : all_ascii (b2a b) = true.
Proof.
  induction b as [|x|x y|x y z r IH] using string_ind3.
  - reflexivity.
  - pose proof (byte_bound x) as Hx. assert (Hz : 0 < 256) by lia.
    destruct (first_byte _ _ Hx Hz) as (H1 & H2 & _).
    rewrite b2a_one. cbn [all_ascii].
    destruct (sextet _ H1) as (_ & _ & A1). destruct (sextet _ H2) as (_ & _ & A2).
    apply N.ltb_lt in A1, A2. rewrite A1, A2. reflexivity.
  - pose proof (byte_bound x) as Hx. pose proof (byte_bound y) as Hy.
    assert (Hz : 0 < 256) by lia.
    destruct (first_byte _ _ Hx Hy) as (H1 & H2 & _).
    destruct (second_byte _ _ _ Hx Hy Hz) as (H3 & _).
    rewrite b2a_two. cbn [all_ascii].
    destruct (sextet _ H1) as (_ & _ & A1). destruct (sextet _ H2) as (_ & _ & A2).
    destruct (sextet _ H3) as (_ & _ & A3).
    apply N.ltb_lt in A1, A2, A3. rewrite A1, A2, A3. reflexivity.
  - pose proof (byte_bound x) as Hx. pose proof (byte_bound y) as Hy.
    pose proof (byte_bound z) as Hz.
    destruct (first_byte _ _ Hx Hy) as (H1 & H2 & _).
    destruct (second_byte _ _ _ Hx Hy Hz) as (H3 & _).
    destruct (third_byte _ _ Hy Hz) as (H4 & _).
    rewrite b2a_three. cbn [all_ascii].
    destruct (sextet _ H1) as (_ & _ & A1). destruct (sextet _ H2) as (_ & _ & A2).
    destruct (sextet _ H3) as (_ & _ & A3). destruct (sextet _ H4) as (_ & _ & A4).
    apply N.ltb_lt in A1, A2, A3, A4. rewrite A1, A2, A3, A4, IH. reflexivity.
Qed.

(** The encoded text is ASCII, so it is a [str]. *)
Lemma b64encode_is_text (b : bytes) :
  decode_utf8 (b64encode b) = inr (b64encode b).
Proof.
  unfold decode_utf8, b64encode. rewrite (utf8_valid_ascii _ (b2a_ascii b)). reflexivity.
Qed.

End Base64Facts.

(** ** The message store *)

Example b64encode_hi : Base64.b64encode "hi" = "aGk=".
Proof. reflexivity. Qed.

Example b64encode_chat : Base64.b64encode "chat!" = "Y2hhdCE=".
Proof. reflexivity. Qed.

Example b64decode_skips_newline :
  Base64.b64decode (String (ascii_of_N 10) "aGk=") = inr "hi".
Proof. reflexivity. Qed.

Example b64decode_open_group : Base64.b64decode "aGk" = inl BinasciiError.
Proof. reflexivity. Qed.

(** A row whose text is not base64 is read back as it is stored. *)
Example decrypt_content_falls_back :
  Message.decrypt_content
    {| Message.id := 1; Message.chat := 1;
       Message.sender := {| id := 7; username := "ann" |};
       Message.content := "hello"; Message.media_type := "text";
       Message.timestamp := "t" |} = "hello".
Proof. reflexivity. Qed.

Example encode_surrogate : encode_utf8 lone_surrogate = inl UnicodeEncodeError.
Proof. reflexivity. Qed.

Lemma encode_text (s : string) : utf8_valid s = true → encode_utf8 s = inr s.
Proof. intros H. unfold encode_utf8. rewrite H. reflexivity. Qed.

Lemma b64encode_is_valid (b : bytes) : utf8_valid (Base64.b64encode b) = true.
Proof.
  pose proof (Base64Facts.b64encode_is_text b) as H. unfold decode_utf8 in H.
  destruct (utf8_valid (Base64.b64encode b)); [reflexivity | discriminate].
Qed.

Lemma encrypt_of_text (msg : Message.t) :
  utf8_valid (Message.content msg) = true →
  Message.encrypt_content msg = inr (Base64.b64encode (Message.content msg)).
Proof.
  intros Hs. unfold Message.encrypt_content. rewrite (encode_text _ Hs).
  apply Base64Facts.b64encode_is_text.
Qed.

Lemma decrypt_of_encoded (row : Message.t) (s : string) :
  utf8_valid s = true →
  Message.content row = Base64.b64encode s →
  Message.decrypt_content row = s.
Proof.
  intros Hs Hrow. unfold Message.decrypt_content. rewrite Hrow.
  rewrite (encode_text _ (b64encode_is_valid s)).
  rewrite Base64Facts.b64decode_b64encode.
  unfold decode_utf8. rewrite Hs. reflexivity.
Qed.

Lemma send_message_content_ok
  (db : Db) (input : SendMessageInput) (now : string) (chat : Z) (sender : User) :
  get_chat db (in_chat_id input) = inr chat →
  get_sender db (in_sender_id input) = inr sender →
  utf8_valid (in_content input) = true →
  ∃ db' mt, send_message db input now = inr (db', mt).
Proof.
  intros Hchat Hsender Hs. unfold send_message.
  rewrite Hchat, Hsender, (encode_text _ Hs), Base64Facts.b64encode_is_text. eauto.
Qed.

(** C10, as amended: for every content that is text UTF-8 can encode,
    [send_message] stores its base64 text, which is what
    [encrypt_content] makes of a message holding the content, and
    [decrypt_content] takes the stored row back to the content: the
    [MessageType] returned, like every later read of the row, carries
    the content that was sent. *)
Theorem send_message_content_round_trip
  (db : Db) (input : SendMessageInput) (now : string) (chat : Z) (sender : User) :
  get_chat db (in_chat_id input) = inr chat →
  get_sender db (in_sender_id input) = inr sender →
  utf8_valid (in_content input) = true →
  ∃ db' mt row,
    send_message db input now = inr (db', mt)
    ∧ messages db' = (messages db ++ [row])%list
    ∧ Message.content row = Base64.b64encode (in_content input)
    ∧ (∀ plain, Message.content plain = in_content input →
                Message.encrypt_content plain = inr (Message.content row))
    ∧ Message.decrypt_content row = in_content input
    ∧ mt_content mt = in_content input
    ∧ mt_content (message_type_of row) = in_content input.
Proof.
  intros Hchat Hsender Hs. unfold send_message.
  rewrite Hchat, Hsender, (encode_text _ Hs), Base64Facts.b64encode_is_text.
  eexists _, _, _. split; [reflexivity|]. cbn [messages].
  split; [reflexivity|]. cbn [Message.content mt_content message_type_of].
  split; [reflexivity|]. split.
  - intros plain Hp. rewrite <- Hp. apply encrypt_of_text. rewrite Hp. exact Hs.
  - rewrite (decrypt_of_encoded _ (in_content input)) by (assumption || reflexivity).
    auto.
Qed.

Lemma send_message_content_round_trip_witness :
  ∃ db' mt row,
    send_message db0 input0 "2025-01-01 00:00:00" = inr (db', mt)
    ∧ messages db' = (messages db0 ++ [row])%list
    ∧ Message.content row = Base64.b64encode (in_content input0)
    ∧ (∀ plain, Message.content plain = in_content input0 →
                Message.encrypt_content plain = inr (Message.content row))
    ∧ Message.decrypt_content row = in_content input0
    ∧ mt_content mt = in_content input0
    ∧ mt_content (message_type_of row) = in_content input0.
Proof.
  apply (send_message_content_round_trip db0 input0 "2025-01-01 00:00:00" 42
           {| id := 7; username := "ann" |}); reflexivity.
Defined.

(** C10, as stated, fails: the chat and the sender exist, and for a
    content that holds a lone surrogate [send_message] raises, stores
    nothing and returns no [MessageType]; [encrypt_content] raises on
    it as well. *)
Lemma send_message_refuses_surrogate :
  get_chat db0 (in_chat_id input_surrogate) = inr 42
  ∧ get_sender db0 (in_sender_id input_surrogate) = inr {| id := 7; username := "ann" |}
  ∧ send_message db0 input_surrogate "2025-01-01 00:00:00" = inl UnicodeEncodeError
  ∧ Message.encrypt_content
      {| Message.id := 1; Message.chat := 42;
         Message.sender := {| id := 7; username := "ann" |};
         Message.content := lone_surrogate; Message.media_type := "text";
         Message.timestamp := "t" |} = inl UnicodeEncodeError.
Proof. repeat split. Qed.
(** ** The event router *)

Lemma dict_get_set_eq (d : list (string * value)) (k : string) (v : value) :
  Py.dict_get (Py.dict_set d k v) k = Some v.
Proof.
  induction d as [|[k' v'] d IH]; cbn.
  - rewrite String.eqb_refl. reflexivity.
  - destruct (String.eqb k' k) eqn:E; cbn; rewrite E; auto.
Qed.

Lemma dict_get_set_ne (d : list (string * value)) (k k' : string) (v : value) :
  k ≠ k' → Py.dict_get (Py.dict_set d k v) k' = Py.dict_get d k'.
Proof.
  intros Hne. induction d as [|[k0 v0] d IH]; cbn.
  - destruct (String.eqb k k') eqn:E; [apply String.eqb_eq in E; contradiction | reflexivity].
  - destruct (String.eqb k0 k) eqn:E; cbn.
    + apply String.eqb_eq in E. subst k0.
      destruct (String.eqb k k') eqn:E'; [apply String.eqb_eq in E'; contradiction | reflexivity].
    + rewrite IH. reflexivity.
Qed.


Lemma online_group_valid (nok : string → bool) :
  Layer.valid_group_name nok "online_users" = true.
Proof. reflexivity. Qed.

Lemma group_send_valid (nok : string → bool) (g : string) (m : value) :
  Layer.valid_group_name nok g = true →
  Layer.group_send nok g m = emit (GroupSend g m).
Proof. intros H. unfold Layer.group_send. rewrite H. reflexivity. Qed.

Lemma group_send_invalid (nok : string → bool) (g : string) (m : value) :
  Layer.valid_group_name nok g = false →
  Layer.group_send nok g m = raise TypeError.
Proof. intros H. unfold Layer.group_send. rewrite H. reflexivity. Qed.

Lemma receive_by_table (nok : string → bool)
  (self : ChatConsumer.t) (d p : list (string * value)) (k : EventKind) :
  Py.dict_get d "event" = Some (VStr (kind_name k)) →
  Py.dict_get d "payload" = Some (VDict p) →
  message_is_mapping p = true →
  Layer.valid_group_name nok (group_name (table_target k p)) = true →
  ChatConsumer.receive nok self (VDict d)
  = MkRun [GroupSend (group_name (table_target k p)) (table_message k p)] (inr self).
Proof.
  intros He Hp Hm Hv. unfold ChatConsumer.receive, Py.get. rewrite He, Hp.
  unfold message_is_mapping in Hm.
  destruct k; cbn in Hv |- *; unfold field in Hv;
    try (rewrite (group_send_valid nok _ _ Hv); reflexivity);
    try reflexivity.
  unfold table_message, table_fields, message_with_content, expected_content, field.
  destruct (Py.dict_get p "message") as [[]|]; try discriminate; cbn;
    rewrite (group_send_valid nok _ _ Hv); reflexivity.
Qed.

(** The layer refuses the name of the target group: [receive] raises
    and nothing is broadcast. *)
Lemma receive_invalid_group (nok : string → bool)
  (self : ChatConsumer.t) (d p : list (string * value)) (k : EventKind) :
  Py.dict_get d "event" = Some (VStr (kind_name k)) →
  Py.dict_get d "payload" = Some (VDict p) →
  message_is_mapping p = true →
  Layer.valid_group_name nok (group_name (table_target k p)) = false →
  ChatConsumer.receive nok self (VDict d) = MkRun [] (inl TypeError).
Proof.
  intros He Hp Hm Hv. unfold ChatConsumer.receive, Py.get. rewrite He, Hp.
  unfold message_is_mapping in Hm.
  destruct k; cbn in Hv |- *; unfold field in Hv;
    try (rewrite (group_send_invalid nok _ _ Hv); reflexivity);
    try (rewrite online_group_valid in Hv; discriminate).
  destruct (Py.dict_get p "message") as [[]|]; try discriminate; cbn;
    rewrite (group_send_invalid nok _ _ Hv); reflexivity.
Qed.




(** A delete_chat envelope for a chat id with a blank in it: the layer
    refuses the group name, and [receive] raises without a broadcast. *)
Example receive_bad_group_name :
  ChatConsumer.receive non_ascii0 consumer0 (VDict envelope_bad_group)
  = MkRun [] (inl TypeError).
Proof. reflexivity. Qed.

Lemma eq_str_true (e : value) (lit : string) :
  Py.eq_str e lit = true → e = VStr lit.
Proof.
  destruct e; cbn; try discriminate. intros H. apply String.eqb_eq in H. congruence.
Qed.

Lemma eq_str_kind_false (e : value) (k : EventKind) :
  e ≠ VStr (kind_name k) → Py.eq_str e (kind_name k) = false.
Proof.
  intros Hne. destruct (Py.eq_str e (kind_name k)) eqn:E; [|reflexivity].
  apply eq_str_true in E. contradiction.
Qed.

Lemma receive_unrecognised (nok : string → bool)
  (self : ChatConsumer.t) (d : list (string * value)) :
  (∀ k, Py.dict_get d "event" ≠ Some (VStr (kind_name k))) →
  ChatConsumer.receive nok self (VDict d) = MkRun [] (inr self).
Proof.
  intros Hk. unfold ChatConsumer.receive, Py.get.
  set (e := match Py.dict_get d "event" with Some v => v | None => VNone end).
  assert (He : ∀ k, e ≠ VStr (kind_name k)).
  { intros k Heq. subst e. specialize (Hk k).
    destruct (Py.dict_get d "event"); [congruence | discriminate]. }
  pose proof (eq_str_kind_false e StartChat (He _)) as H1.
  pose proof (eq_str_kind_false e NewMessage (He _)) as H2.
  pose proof (eq_str_kind_false e UpdateProfile (He _)) as H3.
  pose proof (eq_str_kind_false e DeleteChat (He _)) as H4.
  pose proof (eq_str_kind_false e TypingIndicator (He _)) as H5.
  pose proof (eq_str_kind_false e UserOnline (He _)) as H6.
  pose proof (eq_str_kind_false e UserOffline (He _)) as H7.
  cbn in H1, H2, H3, H4, H5, H6, H7.
  cbn. rewrite H1, H2, H3, H4, H5, H6, H7. reflexivity.
Qed.

Lemma settle_returns_unchanged (w : World) (c : string) (self : ChatConsumer.t) :
  consumers w !! c = Some self → settle c (MkRun [] (inr self)) w = w.
Proof.
  intros Hc. unfold settle, set_consumers. cbn. destruct w; cbn in *.
  f_equal. apply insert_id, Hc.
Qed.

(** C4: an envelope whose event is none of the seven kinds makes
    [receive] return normally without a call to the channel layer or
    the transport, and the hub is left exactly as it was: no message in
    a mailbox, no frame pushed, no fault, every connection still there. *)
Theorem unknown_event_is_ignored
  (jwt_decode : string → JwtResult) (user_by_id : value → option User)
  (nok : string → bool)
  (fh : string → ChatConsumer.t → value → Run ChatConsumer.t)
  (d : list (string * value)) :
  (∀ k, Py.dict_get d "event" ≠ Some (VStr (kind_name k))) →
  (∀ self, ChatConsumer.receive nok self (VDict d) = MkRun [] (inr self))
  ∧ (∀ w c, step jwt_decode user_by_id nok fh w (Receive c (VDict d)) = w).
Proof.
  intros Hk. split.
  - intros self. apply receive_unrecognised, Hk.
  - intros w c. unfold step. destruct (consumers w !! c) as [self|] eqn:Hc; [|reflexivity].
    rewrite (receive_unrecognised nok self d Hk). apply settle_returns_unchanged, Hc.
Qed.

Lemma unknown_event_is_ignored_witness :
  (∀ self, ChatConsumer.receive non_ascii0 self (VDict envelope_ping)
           = MkRun [] (inr self))
  ∧ (∀ w c, step (fun _ => InvalidTokenError) (fun _ => None) non_ascii0 framework0 w
              (Receive c (VDict envelope_ping)) = w).
Proof.
  apply (unknown_event_is_ignored (fun _ => InvalidTokenError) (fun _ => None)
           non_ascii0 framework0 envelope_ping).
  intros k; destruct k; discriminate.
Defined.

(** C5 fails on the code: with the payload missing from the frame,
    [receive] raises for each of the seven kinds, before any call to the
    channel layer. *)
Theorem receive_without_payload_raises (nok : string → bool)
  (self : ChatConsumer.t) (k : EventKind) :
  ChatConsumer.receive nok self (VDict [("event", VStr (kind_name k))])
  = MkRun [] (inl AttributeError).
Proof. destruct k; reflexivity. Qed.

(** Missing keys inside a payload that is there are read as [None]. *)
Lemma receive_returns_on_mapping_payload (nok : string → bool)
  (self : ChatConsumer.t) (d p : list (string * value)) (k : EventKind) :
  Py.dict_get d "event" = Some (VStr (kind_name k)) →
  Py.dict_get d "payload" = Some (VDict p) →
  message_is_mapping p = true →
  Layer.valid_group_name nok (group_name (table_target k p)) = true →
  returns (ChatConsumer.receive nok self (VDict d)) = true.
Proof.
  intros He Hp Hm Hv. rewrite (receive_by_table nok self d p k He Hp Hm Hv). reflexivity.
Qed.

(** C7: a user_online envelope is broadcast to the online group with the
    user id of the payload, and the calls [receive] makes are the same
    whatever the sending connection is: no attribute of the sender, its
    identity included, enters the routing. *)
Theorem user_online_ignores_sender (nok : string → bool)
  (sender other : ChatConsumer.t) (d p : list (string * value)) :
  Py.dict_get d "event" = Some (VStr "user_online") →
  Py.dict_get d "payload" = Some (VDict p) →
  trace (ChatConsumer.receive nok sender (VDict d))
  = [GroupSend "online_users"
       (VDict [("type", VStr "user_online"); ("user_id", field p "user_id")])]
  ∧ trace (ChatConsumer.receive nok other (VDict d))
    = trace (ChatConsumer.receive nok sender (VDict d))
  ∧ returns (ChatConsumer.receive nok sender (VDict d)) = true
  ∧ returns (ChatConsumer.receive nok other (VDict d)) = true.
Proof.
  intros He Hp. unfold ChatConsumer.receive, Py.get. rewrite He, Hp.
  repeat split; reflexivity.
Qed.

Lemma user_online_ignores_sender_witness :
  trace (ChatConsumer.receive non_ascii0 consumer0 (VDict envelope_user_online))
  = [GroupSend "online_users"
       (VDict [("type", VStr "user_online"); ("user_id", VInt 9)])]
  ∧ trace (ChatConsumer.receive non_ascii0
             {| ChatConsumer.channel_name := "specific.B";
                ChatConsumer.scope := ChatConsumer.scope consumer0;
                ChatConsumer.user_id := Some (VInt 7);
                ChatConsumer.chat_id := Some (VStr "42");
                ChatConsumer.chat_group_name := Some "chat_42" |}
             (VDict envelope_user_online))
    = trace (ChatConsumer.receive non_ascii0 consumer0 (VDict envelope_user_online))
  ∧ returns (ChatConsumer.receive non_ascii0 consumer0 (VDict envelope_user_online)) = true
  ∧ returns (ChatConsumer.receive non_ascii0
               {| ChatConsumer.channel_name := "specific.B";
                  ChatConsumer.scope := ChatConsumer.scope consumer0;
                  ChatConsumer.user_id := Some (VInt 7);
                  ChatConsumer.chat_id := Some (VStr "42");
                  ChatConsumer.chat_group_name := Some "chat_42" |}
               (VDict envelope_user_online)) = true.
Proof.
  apply (user_online_ignores_sender non_ascii0 consumer0 _ envelope_user_online
           [("user_id", VInt 9)]); reflexivity.
Defined.

(** The calls [receive] makes never depend on the receiving instance. *)
Lemma receive_trace_any_sender (nok : string → bool)
  (s1 s2 : ChatConsumer.t) (data : value) :
  trace (ChatConsumer.receive nok s1 data) = trace (ChatConsumer.receive nok s2 data).
Proof.
  unfold ChatConsumer.receive.
  destruct (Py.get data "event" VNone) as [|e]; [reflexivity|].
  destruct (Py.get data "payload" VNone) as [|p]; [reflexivity|].
  cbn.
  repeat (match goal with
          | |- context [if ?b then _ else _] => destruct b; cbn
          | |- context [Py.get ?x ?k ?v] => destruct (Py.get x k v); cbn
          | |- context [Py.setitem ?x ?k ?v] => destruct (Py.setitem x k v); cbn
          | |- context [Layer.group_send ?n ?g ?m] =>
              unfold Layer.group_send; destruct (Layer.valid_group_name n g); cbn
          end); reflexivity.
Qed.

(** ** The outbound translator *)

Lemma dispatch_typed (nok : string → bool)
  (fh : string → ChatConsumer.t → value → Run ChatConsumer.t)
  (r : ChatConsumer.t) (k : EventKind) (fs : list (string * value)) :
  ChatConsumer.dispatch nok fh r (VDict (("type", VStr (table_outbound k)) :: fs))
  = handler_of k r (VDict (("type", VStr (table_outbound k)) :: fs)).
Proof.
  destruct k; unfold ChatConsumer.dispatch, ChatConsumer.handler_name; cbn;
    match goal with |- _ = ?x => destruct x end; reflexivity.
Qed.

Lemma dispatch_new_message (nok : string → bool)
  (fh : string → ChatConsumer.t → value → Run ChatConsumer.t)
  (r : ChatConsumer.t) (md : value) :
  ChatConsumer.dispatch nok fh r (new_message_event md)
  = ChatConsumer.new_message r (new_message_event md).
Proof. reflexivity. Qed.

Lemma new_message_frames (r : ChatConsumer.t) (md frame : value) :
  In (Send frame) (trace (ChatConsumer.new_message r (new_message_event md))) →
  ∃ c, Py.subscript md "content" = inr c ∧ frame_content frame = inr c.
Proof.
  unfold ChatConsumer.new_message, new_message_event.
  change (Py.subscript (VDict [("type", VStr "new_message"); ("message", md)]) "message")
    with (@inr Exn value md).
  cbn [lift mbind Run_bind run_bind outcome trace].
  repeat match goal with
         | |- context [Py.subscript ?x ?k] =>
             destruct (Py.subscript x k) eqn:?;
             cbn [lift mbind Run_bind run_bind outcome trace app In];
             try tauto
         end.
  cbn. intros [H|[]]. injection H as <-. exists v3. split; reflexivity.
Qed.

Lemma new_message_delivers (r : ChatConsumer.t) (md s c : value) (f : MessageFields) :
  Py.subscript md "id" = inr (f_id f) →
  Py.subscript md "sender" = inr s →
  Py.subscript s "id" = inr (f_sender_id f) →
  Py.subscript s "username" = inr (f_sender_username f) →
  Py.subscript md "content" = inr c →
  Py.subscript md "mediaType" = inr (f_media_type f) →
  Py.subscript md "timestamp" = inr (f_timestamp f) →
  ChatConsumer.new_message r (new_message_event md)
  = MkRun [Send (new_message_frame f c)] (inr r).
Proof.
  intros H1 H2 H3 H4 H5 H6 H7.
  unfold ChatConsumer.new_message, new_message_event.
  change (Py.subscript (VDict [("type", VStr "new_message"); ("message", md)]) "message")
    with (@inr Exn value md).
  cbn [lift mbind Run_bind run_bind outcome trace].
  rewrite H1. cbn [lift mbind Run_bind run_bind outcome trace].
  rewrite H2. cbn [lift mbind Run_bind run_bind outcome trace].
  rewrite H3, H4. cbn [lift mbind Run_bind run_bind outcome trace].
  rewrite H5, H6, H7. reflexivity.
Qed.

(** A message with its content filled in still supplies what it did. *)
Lemma supplies_with_content (m : list (string * value)) (f : MessageFields) (c : value) :
  supplies m f →
  ∃ s, Py.subscript (VDict (Py.dict_set m "content" c)) "id" = inr (f_id f)
     ∧ Py.subscript (VDict (Py.dict_set m "content" c)) "sender" = inr s
     ∧ Py.subscript s "id" = inr (f_sender_id f)
     ∧ Py.subscript s "username" = inr (f_sender_username f)
     ∧ Py.subscript (VDict (Py.dict_set m "content" c)) "content" = inr c
     ∧ Py.subscript (VDict (Py.dict_set m "content" c)) "mediaType" = inr (f_media_type f)
     ∧ Py.subscript (VDict (Py.dict_set m "content" c)) "timestamp" = inr (f_timestamp f).
Proof.
  intros (Hid & (s & Hs & Hsid & Hsn) & Hmt & Hts). exists (VDict s).
  unfold Py.subscript.
  rewrite dict_get_set_eq, !dict_get_set_ne by discriminate.
  rewrite Hid, Hs, Hsid, Hsn, Hmt, Hts. repeat split; reflexivity.
Qed.

Lemma receive_new_message_broadcast (nok : string → bool)
  (self : ChatConsumer.t) (d p : list (string * value)) (g : string) (ev : value) :
  Py.dict_get d "event" = Some (VStr "new_message") →
  Py.dict_get d "payload" = Some (VDict p) →
  In (GroupSend g ev) (trace (ChatConsumer.receive nok self (VDict d))) →
  g = "chat_" +:+ Py.str (field p "chat_id")
  ∧ ev = new_message_event (message_with_content p).
Proof.
  intros He Hp Hin.
  destruct (message_is_mapping p) eqn:Hm.
  - destruct (Layer.valid_group_name nok (group_name (table_target NewMessage p)))
      eqn:Hv.
    + rewrite (receive_by_table nok self d p NewMessage He Hp Hm Hv) in Hin.
      destruct Hin as [Hin|[]]. injection Hin as <- <-. split; reflexivity.
    + rewrite (receive_invalid_group nok self d p NewMessage He Hp Hm Hv) in Hin.
      destruct Hin.
  - exfalso. revert Hin. unfold ChatConsumer.receive, Py.get. rewrite He, Hp. cbn.
    unfold message_is_mapping in Hm.
    destruct (Py.dict_get p "message") as [[]|]; try discriminate; cbn; tauto.
Qed.

(** C3: whatever new_message payload comes in, a frame a recipient gets
    for it carries the payload's message content when the message has
    one, and the text No content when it has none; and a message that
    supplies the other fields the handler reads does get its frame. *)
Theorem new_message_content_round_trip (nok : string → bool)
  (fh : string → ChatConsumer.t → value → Run ChatConsumer.t)
  (sender recipient : ChatConsumer.t) (d p : list (string * value))
  (g : string) (ev : value) :
  Py.dict_get d "event" = Some (VStr "new_message") →
  Py.dict_get d "payload" = Some (VDict p) →
  In (GroupSend g ev) (trace (ChatConsumer.receive nok sender (VDict d))) →
  (∀ frame, In (Send frame) (trace (ChatConsumer.dispatch nok fh recipient ev)) →
            frame_content frame = inr (expected_content p))
  ∧ (∀ m f, Py.dict_get p "message" = Some (VDict m) → supplies m f →
            ChatConsumer.dispatch nok fh recipient ev
            = MkRun [Send (new_message_frame f (expected_content p))] (inr recipient)).
Proof.
  intros He Hp Hin.
  destruct (receive_new_message_broadcast nok sender d p g ev He Hp Hin) as [-> ->].
  rewrite dispatch_new_message. split.
  - intros frame Hf. apply new_message_frames in Hf as (c & Hc & Hfc).
    rewrite Hfc. f_equal. unfold message_with_content in Hc.
    destruct (Py.dict_get p "message") as [[]|] eqn:Hm; cbn in Hc;
      try rewrite dict_get_set_eq in Hc; congruence.
  - intros m f Hm Hsup. unfold message_with_content. rewrite Hm.
    destruct (supplies_with_content m f (expected_content p) Hsup)
      as (s & H1 & H2 & H3 & H4 & H5 & H6 & H7).
    apply (new_message_delivers recipient _ s); assumption.
Qed.

Lemma new_message_content_round_trip_witness :
  (∀ frame,
      In (Send frame)
        (trace (ChatConsumer.dispatch non_ascii0 framework0 consumer0
                  (new_message_event (VDict message_hi_full)))) →
      frame_content frame = inr (VStr "hi"))
  ∧ (∀ m f,
        Py.dict_get [("chat_id", VInt 42); ("message", VDict message_hi_full)] "message"
        = Some (VDict m) →
        supplies m f →
        ChatConsumer.dispatch non_ascii0 framework0 consumer0 (new_message_event (VDict message_hi_full))
        = MkRun [Send (new_message_frame f (VStr "hi"))] (inr consumer0)).
Proof.
  apply (new_message_content_round_trip non_ascii0 framework0 consumer0 consumer0
           (envelope_new_message message_hi_full)
           [("chat_id", VInt 42); ("message", VDict message_hi_full)]
           "chat_42" (new_message_event (VDict message_hi_full)));
    [reflexivity | reflexivity | left; reflexivity].
Defined.

(** Without a content the default is sent. *)
Example new_message_default_content :
  ChatConsumer.dispatch non_ascii0 framework0 consumer0
    (new_message_event
       (message_with_content
          [("chat_id", VInt 42);
           ("message",
            VDict [("id", VInt 1);
                   ("sender", VDict [("id", VInt 7); ("username", VStr "ann")]);
                   ("mediaType", VNone); ("timestamp", VNone)])]))
  = MkRun [Send (new_message_frame
                   {| f_id := VInt 1; f_sender_id := VInt 7;
                      f_sender_username := VStr "ann";
                      f_media_type := VNone; f_timestamp := VNone |}
                   (VStr "No content"))]
      (inr consumer0).
Proof. reflexivity. Qed.

(** ** The hub *)

Example world42_groups :
  groups world42 = {[ "chat_42" := {[ "specific.A"; "specific.B" ]} ]}.
Proof. vm_compute. reflexivity. Qed.

(** *** The shape of what each method does *)

Lemma receive_shape (nok : string → bool) (self : ChatConsumer.t) (data : value) :
  (∃ e, ChatConsumer.receive nok self data = MkRun [] (inl e))
  ∨ ChatConsumer.receive nok self data = MkRun [] (inr self)
  ∨ (∃ g k fs, ChatConsumer.receive nok self data
               = MkRun [GroupSend g (VDict (("type", VStr (table_outbound k)) :: fs))]
                   (inr self)).
Proof.
  unfold ChatConsumer.receive.
  destruct (Py.get data "event" VNone) as [|e]; [left; eexists; reflexivity|].
  destruct (Py.get data "payload" VNone) as [|p]; [left; eexists; reflexivity|].
  cbn.
  repeat (match goal with
          | |- context [if ?b then _ else _] => destruct b; cbn
          | |- context [Py.get ?x ?k ?v] => destruct (Py.get x k v); cbn
          | |- context [Py.setitem ?x ?k ?v] => destruct (Py.setitem x k v); cbn
          | |- context [Layer.group_send ?n ?g ?m] =>
              unfold Layer.group_send; destruct (Layer.valid_group_name n g); cbn
          end);
    first [ left; eexists; reflexivity
          | right; left; reflexivity
          | right; right; eexists _, StartChat, _; reflexivity
          | right; right; eexists _, NewMessage, _; reflexivity
          | right; right; eexists _, UpdateProfile, _; reflexivity
          | right; right; eexists _, DeleteChat, _; reflexivity
          | right; right; eexists _, TypingIndicator, _; reflexivity
          | right; right; eexists _, UserOnline, _; reflexivity
          | right; right; eexists _, UserOffline, _; reflexivity ].
Qed.

Lemma handler_shape (k : EventKind) (self : ChatConsumer.t) (message : value) :
  (∃ e, handler_of k self message = MkRun [] (inl e))
  ∨ (∃ f, handler_of k self message = MkRun [Send f] (inr self)).
Proof.
  destruct k; cbn [handler_of];
    unfold ChatConsumer.chat_started, ChatConsumer.new_message,
      ChatConsumer.profile_updated, ChatConsumer.chat_deleted,
      ChatConsumer.user_typing, ChatConsumer.user_online, ChatConsumer.user_offline;
    repeat (match goal with
            | |- context [Py.subscript ?x ?k] =>
                destruct (Py.subscript x k);
                cbn [lift mbind Run_bind run_bind outcome trace]
            end);
    first [ left; eexists; reflexivity | right; eexists; reflexivity ].
Qed.

(** A message [receive] made reaches the handler of its kind, and that
    handler sends one frame or raises before it sends any. *)
Lemma dispatch_shape (nok : string → bool)
  (fh : string → ChatConsumer.t → value → Run ChatConsumer.t)
  (self : ChatConsumer.t) (m : value) :
  typed_message m →
  (∃ e, ChatConsumer.dispatch nok fh self m = MkRun [] (inl e))
  ∨ (∃ f, ChatConsumer.dispatch nok fh self m = MkRun [Send f] (inr self)).
Proof.
  intros (k & fs & ->). rewrite dispatch_typed. apply handler_shape.
Qed.

Lemma disconnect_shape (nok : string → bool) (self : ChatConsumer.t) (cid : value) :
  ChatConsumer.chat_id self = Some cid →
  ChatConsumer.disconnect nok self =
    if Py.truthy cid then
      if Layer.valid_group_name nok ("chat_" +:+ Py.str cid) then
        MkRun [GroupDiscard ("chat_" +:+ Py.str cid) (ChatConsumer.channel_name self)]
          (inr self)
      else MkRun [] (inl TypeError)
    else MkRun [] (inr self).
Proof.
  intros H. unfold ChatConsumer.disconnect, Layer.group_discard. rewrite H. cbn.
  destruct (Py.truthy cid); [|reflexivity].
  destruct (Layer.valid_group_name nok _); reflexivity.
Qed.

Lemma connect_shape (nok : string → bool) (c : string) (sc : Scope) (u : ScopeUser) :
  user sc = Some u →
  ChatConsumer.connect nok (ChatConsumer.new c sc) =
    match Py.dict_get (kwargs sc) "chat_id" with
    | None => MkRun [Accept] (inl KeyError)
    | Some cid =>
        let uid := if is_authenticated u then user_pk u else VNone in
        if Py.truthy uid && Py.truthy cid then
          if Layer.valid_group_name nok ("chat_" +:+ Py.str cid) then
            MkRun [Accept; GroupAdd ("chat_" +:+ Py.str cid) c]
              (inr {| ChatConsumer.channel_name := c; ChatConsumer.scope := sc;
                      ChatConsumer.user_id := Some uid;
                      ChatConsumer.chat_id := Some cid;
                      ChatConsumer.chat_group_name := Some ("chat_" +:+ Py.str cid) |})
          else MkRun [Accept] (inl TypeError)
        else
          MkRun [Accept]
            (inr {| ChatConsumer.channel_name := c; ChatConsumer.scope := sc;
                    ChatConsumer.user_id := Some uid;
                    ChatConsumer.chat_id := Some cid;
                    ChatConsumer.chat_group_name := None |})
    end.
Proof.
  intros H. unfold ChatConsumer.connect, ChatConsumer.new, Layer.group_add.
  cbn. rewrite H. cbn.
  destruct (Py.dict_get (kwargs sc) "chat_id") as [cid|]; [|reflexivity]. cbn.
  destruct (Py.truthy _ && Py.truthy cid); [|reflexivity].
  destruct (Layer.valid_group_name nok _); reflexivity.
Qed.

Lemma connect_anonymous (nok : string → bool) (c : string) (sc : Scope) :
  user sc = Some AnonymousUser →
  ChatConsumer.connect nok (ChatConsumer.new c sc) =
    match Py.dict_get (kwargs sc) "chat_id" with
    | None => MkRun [Accept] (inl KeyError)
    | Some cid =>
        MkRun [Accept]
          (inr {| ChatConsumer.channel_name := c; ChatConsumer.scope := sc;
                  ChatConsumer.user_id := Some VNone;
                  ChatConsumer.chat_id := Some cid;
                  ChatConsumer.chat_group_name := None |})
    end.
Proof.
  intros Hu. rewrite (connect_shape nok c sc _ Hu).
  destruct (Py.dict_get (kwargs sc) "chat_id"); reflexivity.
Qed.

Lemma connect_authenticated (nok : string → bool)
  (c : string) (sc : Scope) (usr : User) (cid : value) :
  user sc = Some (AuthUser usr) → id usr ≠ 0 →
  Py.dict_get (kwargs sc) "chat_id" = Some cid → Py.truthy cid = true →
  Layer.valid_group_name nok ("chat_" +:+ Py.str cid) = true →
  ChatConsumer.connect nok (ChatConsumer.new c sc) =
    MkRun [Accept; GroupAdd ("chat_" +:+ Py.str cid) c]
      (inr {| ChatConsumer.channel_name := c; ChatConsumer.scope := sc;
              ChatConsumer.user_id := Some (VInt (id usr));
              ChatConsumer.chat_id := Some cid;
              ChatConsumer.chat_group_name := Some ("chat_" +:+ Py.str cid) |}).
Proof.
  intros Hu Hid Hcid Ht Hv. rewrite (connect_shape nok c sc _ Hu), Hcid. cbn.
  assert (Hnz : negb (id usr =? 0) = true) by (apply negb_true_iff, Z.eqb_neq, Hid).
  rewrite Hnz, Ht, Hv. reflexivity.
Qed.

Lemma middleware_sets_user
  (jwt_decode : string → JwtResult) (user_by_id : value → option User) (sc : Scope) :
  ∃ u, user (JWTAuthMiddleware jwt_decode user_by_id sc) = Some u.
Proof. unfold JWTAuthMiddleware. cbn. eexists. reflexivity. Qed.

Lemma middleware_anonymous
  (jwt_decode : string → JwtResult) (user_by_id : value → option User) (sc : Scope) :
  auth_fails jwt_decode user_by_id (query sc) →
  user (JWTAuthMiddleware jwt_decode user_by_id sc) = Some AnonymousUser.
Proof.
  unfold auth_fails, JWTAuthMiddleware, get_user. cbn.
  destruct (query_token (query sc)) as [token|]; [|reflexivity].
  intros [-> | [-> | [-> | (claims & -> & Hc)]]]; [reflexivity | | |];
    destruct (negb (String.eqb token EmptyString)); try reflexivity.
  unfold Py.get. cbn.
  destruct (Py.dict_get claims "user_id") as [uid|]; cbn in Hc |- *.
  - destruct Hc as [-> | ->]; [reflexivity|].
    destruct (Py.truthy uid); reflexivity.
  - reflexivity.
Qed.

(** *** The group registry *)

Lemma lookup_group_add (g c : string) (gs : gmap string (gset string)) (g' : string) :
  group_add g c gs !! g'
  = if decide (g = g') then Some ({[c]} ∪ members g gs) else gs !! g'.
Proof. unfold group_add, members. apply lookup_insert. Qed.

Lemma elem_of_group_discard
  (g c : string) (gs : gmap string (gset string)) (g' : string)
  (ms : gset string) (c' : string) :
  group_discard g c gs !! g' = Some ms → c' ∈ ms →
  ∃ ms0, gs !! g' = Some ms0 ∧ c' ∈ ms0 ∧ ¬ (g' = g ∧ c' = c).
Proof.
  unfold group_discard. destruct (gs !! g) as [m0|] eqn:Hg.
  - case_decide as Hempty.
    + rewrite lookup_delete. case_decide as Hgg; [discriminate|].
      intros Hl Hin. exists ms. repeat split; auto. intros [-> _]. congruence.
    + rewrite lookup_insert. case_decide as Hgg.
      * intros [= <-] Hin. subst g'. apply elem_of_difference in Hin as [Hin Hne].
        exists m0. repeat split; auto. intros [_ ->]. apply Hne, elem_of_singleton. reflexivity.
      * intros Hl Hin. exists ms. repeat split; auto. intros [-> _]. congruence.
  - intros Hl Hin. exists ms. repeat split; auto. intros [-> _]. congruence.
Qed.

Lemma lookup_post (m : value) (to : gset string) (mb : gmap string (list value))
  (c : string) :
  post m to mb !! c
  = if decide (c ∈ to) then Some (default [] (mb !! c) ++ [m])%list else mb !! c.
Proof.
  unfold post. rewrite lookup_union_with, lookup_gset_to_gmap.
  destruct (mb !! c) as [old|]; case_decide as Hin.
  - rewrite option_guard_True by exact Hin. reflexivity.
  - rewrite option_guard_False by exact Hin. reflexivity.
  - rewrite option_guard_True by exact Hin. reflexivity.
  - rewrite option_guard_False by exact Hin. reflexivity.
Qed.

(** *** What keeps the invariant *)

Section InvariantSteps.

Variable nok : string → bool.
Variable gs : gmap string (gset string).
Variable cs : gmap string ChatConsumer.t.
Variable cl : gset string.
Variable mb : gmap string (list value).
Hypothesis Hinv : hub_inv_on nok gs cs cl mb.

Lemma inv_close (c : string) :
  hub_inv_on nok gs (delete c cs) ({[c]} ∪ cl) mb.
Proof.
  destruct Hinv as (H1 & H2 & H3 & H4). split; [|split; [|split]].
  - intros c' self Hl. apply lookup_delete_Some in Hl as [_ Hl]. eauto.
  - intros c' self Hl. apply lookup_delete_Some in Hl as [Hne Hl].
    intros Hin. apply elem_of_union in Hin as [Hin|Hin].
    + apply elem_of_singleton in Hin. congruence.
    + exact (H2 c' self Hl Hin).
  - intros g ms c' Hg Hin. destruct (decide (c' = c)) as [->|Hne].
    + destruct (H3 g ms c Hg Hin) as (k & Ht & Hgk & Hv & _).
      exists k. repeat split; auto.
      left. apply elem_of_union_l, elem_of_singleton. reflexivity.
    + destruct (H3 g ms c' Hg Hin) as (k & Ht & Hgk & Hv & [Hcl | (s & Hs & Hk)]);
        exists k; repeat split; auto.
      * left. apply elem_of_union_r, Hcl.
      * right. exists s. rewrite lookup_delete_ne by congruence. auto.
  - exact H4.
Qed.

Lemma inv_register (c : string) (self : ChatConsumer.t) (cid : value) :
  cs !! c = None → c ∉ cl →
  ChatConsumer.channel_name self = c → ChatConsumer.chat_id self = Some cid →
  hub_inv_on nok gs (<[c := self]> cs) cl mb.
Proof.
  destruct Hinv as (H1 & H2 & H3 & H4). intros Hc Hcl Hn Hcid.
  split; [|split; [|split]].
  - intros c' self' Hl. rewrite lookup_insert in Hl. case_decide as Hcc.
    + injection Hl as <-. subst c'. eauto.
    + eauto.
  - intros c' self' Hl. rewrite lookup_insert in Hl. case_decide as Hcc.
    + subst c'. exact Hcl.
    + eauto.
  - intros g ms c' Hg Hin.
    destruct (H3 g ms c' Hg Hin) as (k & Ht & Hgk & Hv & [Hin' | (s & Hs & Hk)]);
      exists k; repeat split; auto.
    right. exists s. rewrite lookup_insert_ne by congruence. auto.
  - exact H4.
Qed.

Lemma inv_join (c : string) (self : ChatConsumer.t) (cid : value) :
  cs !! c = Some self →
  ChatConsumer.chat_id self = Some cid → Py.truthy cid = true →
  Layer.valid_group_name nok ("chat_" +:+ Py.str cid) = true →
  hub_inv_on nok (group_add ("chat_" +:+ Py.str cid) c gs) cs cl mb.
Proof.
  destruct Hinv as (H1 & H2 & H3 & H4). intros Hc Hcid Ht Hv.
  split; [exact H1|]. split; [exact H2|]. split; [|exact H4].
  intros g ms c' Hg Hin. rewrite lookup_group_add in Hg. case_decide as Hgg.
  - injection Hg as <-. subst g. apply elem_of_union in Hin as [Hin|Hin].
    + apply elem_of_singleton in Hin. subst c'. exists cid. eauto 10.
    + unfold members in Hin.
      destruct (gs !! ("chat_" +:+ Py.str cid)) as [m0|] eqn:Hm0; cbn in Hin.
      * eapply H3; eauto.
      * set_solver.
  - eapply H3; eauto.
Qed.

Lemma inv_leave (g c : string) :
  hub_inv_on nok (group_discard g c gs) cs cl mb.
Proof.
  destruct Hinv as (H1 & H2 & H3 & H4).
  split; [exact H1|]. split; [exact H2|]. split; [|exact H4].
  intros g' ms c' Hg Hin.
  destruct (elem_of_group_discard _ _ _ _ _ _ Hg Hin) as (ms0 & Hg0 & Hin0 & _).
  exact (H3 g' ms0 c' Hg0 Hin0).
Qed.

Lemma inv_post (m : value) (to : gset string) :
  typed_message m → hub_inv_on nok gs cs cl (post m to mb).
Proof.
  destruct Hinv as (H1 & H2 & H3 & H4). intros Hm.
  split; [exact H1|]. split; [exact H2|]. split; [exact H3|].
  intros c msgs m' Hl Hin. rewrite lookup_post in Hl. case_decide as Hto.
  - injection Hl as <-. apply elem_of_app in Hin as [Hin|Hin].
    + destruct (mb !! c) as [old|] eqn:Hold; cbn in Hin.
      * exact (H4 c old m' Hold Hin).
      * apply elem_of_nil in Hin. contradiction.
    + apply list_elem_of_singleton in Hin. subst m'. exact Hm.
  - exact (H4 c msgs m' Hl Hin).
Qed.

Lemma inv_pop (c : string) (m : value) (rest : list value) :
  mb !! c = Some (m :: rest) → hub_inv_on nok gs cs cl (<[c := rest]> mb).
Proof.
  destruct Hinv as (H1 & H2 & H3 & H4). intros Hc.
  split; [exact H1|]. split; [exact H2|]. split; [exact H3|].
  intros c' msgs m' Hl Hin. rewrite lookup_insert in Hl. case_decide as Hcc.
  - injection Hl as <-. subst c'. apply (H4 c (m :: rest) m' Hc).
    apply elem_of_cons. right. exact Hin.
  - exact (H4 c' msgs m' Hl Hin).
Qed.

(** A running instance found in a group: the group is the one of its
    chat. *)
Lemma inv_member (c : string) (self : ChatConsumer.t) (cid : value)
  (g : string) (ms : gset string) :
  cs !! c = Some self → ChatConsumer.chat_id self = Some cid →
  gs !! g = Some ms → c ∈ ms →
  Py.truthy cid = true ∧ g = "chat_" +:+ Py.str cid
  ∧ Layer.valid_group_name nok g = true.
Proof.
  destruct Hinv as (H1 & H2 & H3 & H4). intros Hc Hcid Hg Hin.
  destruct (H3 g ms c Hg Hin) as (k & Ht & Hgk & Hv & [Hcl | (s & Hs & Hk)]).
  - exfalso. exact (H2 c self Hc Hcl).
  - rewrite Hc in Hs. injection Hs as <-. rewrite Hcid in Hk. injection Hk as <-.
    auto.
Qed.

(** A group with a member is the group of a chat. *)
Lemma inv_group_name (g : string) (ms : gset string) (c : string) :
  gs !! g = Some ms → c ∈ ms →
  ∃ cid, g = "chat_" +:+ Py.str cid.
Proof.
  destruct Hinv as (H1 & H2 & H3 & H4). intros Hg Hin.
  destruct (H3 g ms c Hg Hin) as (k & _ & Hgk & _). eauto.
Qed.

(** A channel name not yet used is in no group. *)
Lemma inv_absent (c g : string) (ms : gset string) :
  cs !! c = None → c ∉ cl → gs !! g = Some ms → c ∉ ms.
Proof.
  destruct Hinv as (H1 & H2 & H3 & H4). intros Hc Hcl Hg Hin.
  destruct (H3 g ms c Hg Hin) as (k & _ & _ & _ & [Hin' | (s & Hs & _)]);
    [contradiction|congruence].
Qed.

End InvariantSteps.

Lemma elem_of_groups_of (c g : string) (w : World) :
  g ∈ groups_of c w ↔ ∃ ms, groups w !! g = Some ms ∧ c ∈ ms.
Proof.
  unfold groups_of. rewrite elem_of_dom. split.
  - intros [ms Hms]. apply map_lookup_filter_Some in Hms as [? ?]. eauto.
  - intros (ms & ? & ?). exists ms. apply map_lookup_filter_Some. auto.
Qed.

(** *** The invariant of the hub *)

Section HubInvariant.

Variable jwt_decode : string → JwtResult.
Variable user_by_id : value → option User.
Variable nok : string → bool.
Variable fh : string → ChatConsumer.t → value → Run ChatConsumer.t.

Local Notation hub_step := (step jwt_decode user_by_id nok fh).
Local Notation hub_reachable := (reachable jwt_decode user_by_id nok fh).
Local Notation middleware := (JWTAuthMiddleware jwt_decode user_by_id).

Lemma hub_inv_connect (w : World) (c : string) (sc : Scope) :
  hub_inv nok w → hub_inv nok (hub_step w (Connect c sc)).
Proof.
  intros Hinv. unfold step.
  destruct (consumers w !! c) as [old|] eqn:Hc; [exact Hinv|].
  case_decide as Hcl; [exact Hinv|].
  destruct (middleware_sets_user jwt_decode user_by_id sc) as [u Hu].
  rewrite (connect_shape nok c _ u Hu).
  destruct (Py.dict_get (kwargs (middleware sc)) "chat_id") as [cid|].
  - cbn zeta.
    destruct (Py.truthy (if is_authenticated u then user_pk u else VNone) && Py.truthy cid)
      eqn:Hjoin.
    + apply andb_prop in Hjoin as [_ Ht].
      destruct (Layer.valid_group_name nok ("chat_" +:+ Py.str cid)) eqn:Hv;
        unfold hub_inv, settle; cbn.
      * eapply inv_join; [| apply lookup_insert_eq | reflexivity | exact Ht | exact Hv].
        eapply inv_register; [exact Hinv | exact Hc | exact Hcl | reflexivity | reflexivity].
      * apply inv_close, Hinv.
    + unfold hub_inv, settle; cbn.
      eapply inv_register; [exact Hinv | exact Hc | exact Hcl | reflexivity | reflexivity].
  - unfold hub_inv, settle; cbn. apply inv_close, Hinv.
Qed.

Lemma hub_inv_receive (w : World) (c : string) (data : value) :
  hub_inv nok w → hub_inv nok (hub_step w (Receive c data)).
Proof.
  intros Hinv. unfold step.
  destruct (consumers w !! c) as [self|] eqn:Hc; [|exact Hinv].
  destruct (receive_shape nok self data) as [[e ->] | [-> | (g & k & fs & ->)]];
    unfold hub_inv, settle; cbn.
  - apply inv_close, Hinv.
  - rewrite insert_id by exact Hc. exact Hinv.
  - rewrite insert_id by exact Hc. apply inv_post; [exact Hinv|]. eexists _, _. reflexivity.
Qed.

Lemma hub_inv_handle (w : World) (c : string) :
  hub_inv nok w → hub_inv nok (hub_step w (Handle c)).
Proof.
  intros Hinv. unfold step.
  destruct (consumers w !! c) as [self|] eqn:Hc; [|exact Hinv].
  destruct (mailbox w !! c) as [[|m rest]|] eqn:Hmb; try exact Hinv.
  assert (Hm : typed_message m).
  { destruct Hinv as (_ & _ & _ & H4). apply (H4 c (m :: rest) m Hmb).
    apply elem_of_cons. left. reflexivity. }
  pose proof (inv_pop nok _ _ _ _ Hinv c m rest Hmb) as Hpop.
  destruct (dispatch_shape nok fh self m Hm) as [[e ->] | [f ->]];
    unfold hub_inv, settle; cbn.
  - apply inv_close, Hpop.
  - rewrite insert_id by exact Hc. exact Hpop.
Qed.

Lemma hub_inv_disconnect (w : World) (c : string) :
  hub_inv nok w → hub_inv nok (hub_step w (Disconnect c)).
Proof.
  intros Hinv. unfold step.
  destruct (consumers w !! c) as [self|] eqn:Hc; [|exact Hinv].
  destruct (proj1 Hinv c self Hc) as [Hn [cid Hcid]].
  rewrite (disconnect_shape nok self cid Hcid), Hn.
  destruct (Py.truthy cid);
    [destruct (Layer.valid_group_name nok ("chat_" +:+ Py.str cid))|];
    unfold hub_inv, settle, close_channel; cbn.
  - apply inv_close. rewrite insert_id by exact Hc. apply inv_leave, Hinv.
  - apply inv_close, inv_close, Hinv.
  - apply inv_close. rewrite insert_id by exact Hc. exact Hinv.
Qed.

Lemma hub_inv_step (w : World) (ev : HubEvent) :
  hub_inv nok w → hub_inv nok (hub_step w ev).
Proof.
  destruct ev.
  - apply hub_inv_connect.
  - apply hub_inv_receive.
  - apply hub_inv_handle.
  - apply hub_inv_disconnect.
Qed.

Lemma hub_inv_reachable (w : World) : hub_reachable w → hub_inv nok w.
Proof.
  induction 1 as [|w ev _ IH].
  - unfold hub_inv, hub_inv_on. cbn.
    split; [|split; [|split]]; intros *; rewrite lookup_empty; discriminate.
  - apply hub_inv_step, IH.
Qed.

Lemma disconnect_groups (w : World) (c : string) (self : ChatConsumer.t) (cid : value) :
  consumers w !! c = Some self →
  ChatConsumer.channel_name self = c → ChatConsumer.chat_id self = Some cid →
  groups (hub_step w (Disconnect c))
  = if Py.truthy cid && Layer.valid_group_name nok ("chat_" +:+ Py.str cid)
    then group_discard ("chat_" +:+ Py.str cid) c (groups w)
    else groups w.
Proof.
  intros Hc Hn Hcid. unfold step. rewrite Hc, (disconnect_shape nok self cid Hcid), Hn.
  destruct (Py.truthy cid);
    [destruct (Layer.valid_group_name nok ("chat_" +:+ Py.str cid))|]; reflexivity.
Qed.

Lemma disconnect_no_membership (w : World) (c : string) (self : ChatConsumer.t) :
  hub_reachable w → consumers w !! c = Some self →
  ∀ g ms, groups (hub_step w (Disconnect c)) !! g = Some ms → c ∉ ms.
Proof.
  intros Hr Hc g ms Hg Hin. pose proof (hub_inv_reachable w Hr) as Hinv.
  destruct (proj1 Hinv c self Hc) as [Hn [cid Hcid]].
  rewrite (disconnect_groups w c self cid Hc Hn Hcid) in Hg.
  destruct (Py.truthy cid && Layer.valid_group_name nok ("chat_" +:+ Py.str cid))
    eqn:Hjoin.
  - destruct (elem_of_group_discard _ _ _ _ _ _ Hg Hin) as (ms0 & Hg0 & Hin0 & Hne).
    destruct (inv_member nok _ _ _ _ Hinv c self cid g ms0 Hc Hcid Hg0 Hin0)
      as (_ & -> & _).
    apply Hne. auto.
  - destruct (inv_member nok _ _ _ _ Hinv c self cid g ms Hc Hcid Hg Hin)
      as (Ht & -> & Hv).
    rewrite Ht, Hv in Hjoin. discriminate.
Qed.

Lemma disconnect_groups_of_empty (w : World) (c : string) (self : ChatConsumer.t) :
  hub_reachable w → consumers w !! c = Some self →
  groups_of c (hub_step w (Disconnect c)) = ∅.
Proof.
  intros Hr Hc. pose proof (disconnect_no_membership w c self Hr Hc) as Hno.
  apply set_eq. intros g. rewrite elem_of_groups_of. split.
  - intros (ms & Hg & Hin). exfalso. exact (Hno g ms Hg Hin).
  - intros H. apply not_elem_of_empty in H. contradiction.
Qed.

(** C2: in any world the hub can reach, once the disconnect handler of
    a running connection has run, the connection is a member of no
    group: no member set holds its channel, hence no group lists it,
    and the instance is gone.  A connection that was in a group is one
    whose handler returns. *)
Theorem disconnect_leaves_no_membership
  (w : World) (c : string) (self : ChatConsumer.t) :
  hub_reachable w → consumers w !! c = Some self →
  (∀ g ms, groups (hub_step w (Disconnect c)) !! g = Some ms → c ∉ ms)
  ∧ groups_of c (hub_step w (Disconnect c)) = ∅
  ∧ consumers (hub_step w (Disconnect c)) !! c = None
  ∧ (groups_of c w ≠ ∅ → returns (ChatConsumer.disconnect nok self) = true).
Proof.
  intros Hr Hc. pose proof (disconnect_no_membership w c self Hr Hc) as Hno.
  split; [exact Hno|]. split; [|split].
  - exact (disconnect_groups_of_empty w c self Hr Hc).
  - unfold step. rewrite Hc. cbn. apply lookup_delete_eq.
  - intros Hne. pose proof (hub_inv_reachable w Hr) as Hinv.
    destruct (proj1 Hinv c self Hc) as [Hn [cid Hcid]].
    destruct (set_choose_L _ Hne) as [g Hg].
    apply elem_of_groups_of in Hg as (ms & Hg & Hin).
    destruct (inv_member nok _ _ _ _ Hinv c self cid g ms Hc Hcid Hg Hin)
      as (Ht & -> & Hv).
    rewrite (disconnect_shape nok self cid Hcid), Ht, Hv. reflexivity.
Qed.

End HubInvariant.

(** *** Connecting *)

Section Lifecycle.

Variable jwt_decode : string → JwtResult.
Variable user_by_id : value → option User.
Variable nok : string → bool.
Variable fh : string → ChatConsumer.t → value → Run ChatConsumer.t.

Local Notation hub_step := (step jwt_decode user_by_id nok fh).
Local Notation hub_reachable := (reachable jwt_decode user_by_id nok fh).
Local Notation middleware := (JWTAuthMiddleware jwt_decode user_by_id).

Lemma groups_of_fresh (w w' : World) (c : string) :
  hub_inv nok w → consumers w !! c = None → c ∉ closed w →
  groups w' = groups w → groups_of c w' = ∅.
Proof.
  intros Hinv Hc Hcl Hg. apply set_eq. intros g. rewrite elem_of_groups_of, Hg. split.
  - intros (ms & Hms & Hin). exfalso.
    exact (inv_absent nok _ _ _ _ Hinv c g ms Hc Hcl Hms Hin).
  - intros H. apply not_elem_of_empty in H. contradiction.
Qed.

(** C6: when the credential resolves to no user (it is missing, empty,
    expired or invalid, or it decodes to claims that name no user), the
    connection is accepted all the same, its user id is [None], and it
    is joined to no group. *)
Theorem failed_auth_connects_anonymous (sc : Scope) (c : string) :
  auth_fails jwt_decode user_by_id (query sc) →
  user (middleware sc) = Some AnonymousUser
  ∧ trace (ChatConsumer.connect nok (ChatConsumer.new c (middleware sc))) = [Accept]
  ∧ (∀ self', outcome (ChatConsumer.connect nok (ChatConsumer.new c (middleware sc)))
              = inr self' →
              ChatConsumer.user_id self' = Some VNone
              ∧ ChatConsumer.chat_group_name self' = None)
  ∧ (∀ cid, Py.dict_get (kwargs sc) "chat_id" = Some cid →
            returns (ChatConsumer.connect nok (ChatConsumer.new c (middleware sc)))
            = true)
  ∧ (∀ w, hub_reachable w → consumers w !! c = None → c ∉ closed w →
          c ∈ accepted (hub_step w (Connect c sc))
          ∧ groups (hub_step w (Connect c sc)) = groups w
          ∧ groups_of c (hub_step w (Connect c sc)) = ∅).
Proof.
  intros Hfail. pose proof (middleware_anonymous jwt_decode user_by_id sc Hfail) as Hu.
  pose proof (connect_anonymous nok c _ Hu) as Hshape.
  change (kwargs (middleware sc)) with (kwargs sc) in Hshape.
  split; [exact Hu|]. split; [|split; [|split]].
  - rewrite Hshape. destruct (Py.dict_get (kwargs sc) "chat_id"); reflexivity.
  - intros self'. rewrite Hshape.
    destruct (Py.dict_get (kwargs sc) "chat_id"); cbn; [|discriminate].
    intros [= <-]. split; reflexivity.
  - intros cid Hcid. rewrite Hshape, Hcid. reflexivity.
  - intros w Hr Hc Hcl.
    assert (Hstep : c ∈ accepted (hub_step w (Connect c sc))
                    ∧ groups (hub_step w (Connect c sc)) = groups w).
    { unfold step. rewrite Hc, decide_False by exact Hcl. rewrite Hshape.
      destruct (Py.dict_get (kwargs sc) "chat_id"); cbn; split;
        solve [reflexivity | apply elem_of_union_l, elem_of_singleton; reflexivity]. }
    destruct Hstep as [Hacc Hg]. repeat split; [exact Hacc | exact Hg |].
    exact (groups_of_fresh w _ c (hub_inv_reachable _ _ _ _ w Hr) Hc Hcl Hg).
Qed.

Lemma connect_joins_chat_group (w : World) (sc : Scope) (c : string) (usr : User) (cid : value) :
  hub_reachable w → consumers w !! c = None → c ∉ closed w →
  user (middleware sc) = Some (AuthUser usr) → id usr ≠ 0 →
  Py.dict_get (kwargs sc) "chat_id" = Some cid → Py.truthy cid = true →
  Layer.valid_group_name nok ("chat_" +:+ Py.str cid) = true →
  trace (ChatConsumer.connect nok (ChatConsumer.new c (middleware sc)))
  = [Accept; GroupAdd ("chat_" +:+ Py.str cid) c]
  ∧ groups_of c (hub_step w (Connect c sc)) = {[ "chat_" +:+ Py.str cid ]}
  ∧ size (groups_of c (hub_step w (Connect c sc))) = 1%nat.
Proof.
  intros Hr Hc Hcl Hu Hid Hcid Ht Hv.
  pose proof (connect_authenticated nok c _ usr cid Hu Hid Hcid Ht Hv) as Hshape.
  assert (Hset : groups_of c (hub_step w (Connect c sc)) = {[ "chat_" +:+ Py.str cid ]}).
  { apply set_eq. intros g. rewrite elem_of_groups_of, elem_of_singleton.
    unfold step. rewrite Hc, decide_False by exact Hcl. rewrite Hshape.
    unfold settle. cbn.
    split.
    - intros (ms & Hms & Hin). rewrite lookup_group_add in Hms.
      case_decide as Hg; [congruence|]. exfalso.
      exact (inv_absent nok _ _ _ _ (hub_inv_reachable _ _ _ _ w Hr) c g ms
               Hc Hcl Hms Hin).
    - intros ->. eexists. rewrite lookup_group_add, decide_True by reflexivity.
      split; [reflexivity|]. apply elem_of_union_l, elem_of_singleton. reflexivity. }
  split; [rewrite Hshape; reflexivity|]. split; [exact Hset|].
  rewrite Hset. apply size_singleton.
Qed.

(** C9, as amended: when the identity resolves to a user whose id is
    not 0, the route gives a chat id that counts as true, and the
    channel layer accepts the name chat_<chat id>, connecting on a new
    channel joins the connection to exactly one group, the group of
    that chat. *)
Theorem connect_joins_the_chat_group_only
  (w : World) (sc : Scope) (c : string) (usr : User) (cid : value) :
  hub_reachable w → consumers w !! c = None → c ∉ closed w →
  user (middleware sc) = Some (AuthUser usr) → id usr ≠ 0 →
  Py.dict_get (kwargs sc) "chat_id" = Some cid → Py.truthy cid = true →
  Layer.valid_group_name nok ("chat_" +:+ Py.str cid) = true →
  trace (ChatConsumer.connect nok (ChatConsumer.new c (middleware sc)))
  = [Accept; GroupAdd ("chat_" +:+ Py.str cid) c]
  ∧ groups_of c (hub_step w (Connect c sc)) = {[ "chat_" +:+ Py.str cid ]}
  ∧ size (groups_of c (hub_step w (Connect c sc))) = 1%nat.
Proof. exact (connect_joins_chat_group w sc c usr cid). Qed.

End Lifecycle.

(** *** Delivery of a broadcast *)

Section Delivery.

Variable jwt_decode : string → JwtResult.
Variable user_by_id : value → option User.
Variable nok : string → bool.
Variable fh : string → ChatConsumer.t → value → Run ChatConsumer.t.

Local Notation hub_run := (run jwt_decode user_by_id nok fh).

(** A new_message for chat 42 whose message supplies every field the
    handler reads: a running member of the group of chat 42 with
    nothing waiting in its mailbox gets, on handling the broadcast, one
    more frame, the new_message envelope with the fields as they were
    supplied. *)
Theorem new_message_reaches_member
  (w : World) (a b : string) (self_a self_b : ChatConsumer.t)
  (d p m : list (string * value)) (f : MessageFields) (content : value) :
  consumers w !! a = Some self_a →
  consumers w !! b = Some self_b →
  b ∈ members "chat_42" (groups w) →
  default [] (mailbox w !! b) = [] →
  Py.dict_get d "event" = Some (VStr "new_message") →
  Py.dict_get d "payload" = Some (VDict p) →
  Py.dict_get p "chat_id" = Some (VInt 42) →
  Py.dict_get p "message" = Some (VDict m) →
  Py.dict_get m "content" = Some content →
  supplies m f →
  frames (hub_run w [Receive a (VDict d); Handle b]) b
  = (frames w b ++ [new_message_frame f content])%list.
Proof.
  intros Ha Hb Hin Hmb He Hp Hchat Hm Hcontent Hsup.
  assert (Hmap : message_is_mapping p = true).
  { unfold message_is_mapping. rewrite Hm. reflexivity. }
  assert (Hgroup : group_name (table_target NewMessage p) = "chat_42").
  { cbn. unfold field. rewrite Hchat. reflexivity. }
  assert (Hvalid : Layer.valid_group_name nok (group_name (table_target NewMessage p))
                   = true).
  { rewrite Hgroup. reflexivity. }
  pose proof (receive_by_table nok self_a d p NewMessage He Hp Hmap Hvalid) as Hrecv.
  assert (Hexp : expected_content p = content).
  { unfold expected_content. rewrite Hm, Hcontent. reflexivity. }
  assert (Hev : table_message NewMessage p
                = new_message_event (VDict (Py.dict_set m "content" content))).
  { unfold table_message, new_message_event. cbn.
    unfold message_with_content. rewrite Hm, Hexp. reflexivity. }
  rewrite Hgroup, Hev in Hrecv.
  destruct (supplies_with_content m f content Hsup)
    as (s & H1 & H2 & H3 & H4 & H5 & H6 & H7).
  pose proof (new_message_delivers self_b _ s content f H1 H2 H3 H4 H5 H6 H7) as Hdel.
  rewrite <- (dispatch_new_message nok fh) in Hdel.
  unfold run. cbn [foldl]. unfold step at 2. rewrite Ha, Hrecv.
  unfold settle at 1. cbn [trace outcome foldl run_effect].
  unfold step. cbn [mailbox consumers groups set_consumers].
  assert (Hb' : <[a := self_a]> (consumers w) !! b = Some self_b).
  { rewrite insert_id by exact Ha. exact Hb. }
  rewrite Hb'.
  rewrite lookup_post, decide_True by exact Hin. rewrite Hmb. cbn [app].
  rewrite Hdel.
  unfold settle, frames. cbn. rewrite lookup_insert_eq. reflexivity.
Qed.

End Delivery.

(** *** The scenarios *)

Lemma world42_reachable :
  reachable jwt_decode0 user_by_id0 non_ascii0 framework0 world42.
Proof. unfold world42, run. cbn [foldl]. repeat constructor. Qed.

Lemma world42_members :
  consumers world42 !! "specific.A" = Some consumer_ann
  ∧ consumers world42 !! "specific.B" = Some consumer_bob
  ∧ members "chat_42" (groups world42) = {[ "specific.A"; "specific.B" ]}
  ∧ mailbox world42 !! "specific.B" = None.
Proof. vm_compute. repeat split. Qed.

Lemma disconnect_leaves_no_membership_witness :
  (∀ g ms,
      groups (step jwt_decode0 user_by_id0 non_ascii0 framework0 world42
                (Disconnect "specific.A")) !! g
      = Some ms → "specific.A" ∉ ms)
  ∧ groups_of "specific.A"
      (step jwt_decode0 user_by_id0 non_ascii0 framework0 world42
         (Disconnect "specific.A")) = ∅
  ∧ consumers (step jwt_decode0 user_by_id0 non_ascii0 framework0 world42
                 (Disconnect "specific.A")) !! "specific.A" = None
  ∧ (groups_of "specific.A" world42 ≠ ∅ →
     returns (ChatConsumer.disconnect non_ascii0 consumer_ann) = true).
Proof.
  apply (disconnect_leaves_no_membership jwt_decode0 user_by_id0 non_ascii0 framework0
           world42 "specific.A" consumer_ann).
  - exact world42_reachable.
  - exact (proj1 world42_members).
Defined.

Example world42_after_disconnect :
  groups (step jwt_decode0 user_by_id0 non_ascii0 framework0 world42
            (Disconnect "specific.A"))
  = {[ "chat_42" := {[ "specific.B" ]} ]}.
Proof. vm_compute. reflexivity. Qed.

Lemma new_message_reaches_member_witness :
  frames (world42_after message_hi_full) "specific.B"
  = (frames world42 "specific.B" ++ [new_message_frame fields_hi_full (VStr "hi")])%list.
Proof.
  destruct world42_members as (Ha & Hb & Hm & Hmb).
  apply (new_message_reaches_member jwt_decode0 user_by_id0 non_ascii0 framework0 world42
           "specific.A" "specific.B" consumer_ann consumer_bob
           (envelope_new_message message_hi_full)
           [("chat_id", VInt 42); ("message", VDict message_hi_full)]
           message_hi_full fields_hi_full (VStr "hi")).
  - exact Ha.
  - exact Hb.
  - rewrite Hm. apply elem_of_union_r, elem_of_singleton. reflexivity.
  - rewrite Hmb. reflexivity.
  - reflexivity.
  - reflexivity.
  - reflexivity.
  - reflexivity.
  - reflexivity.
  - repeat split. eexists. repeat split.
Defined.

Example new_message_full_is_delivered :
  frames (world42_after message_hi_full) "specific.B"
  = [new_message_frame fields_hi_full (VStr "hi")].
Proof. vm_compute. reflexivity. Qed.

(** C8 fails on the code: in the scenario of the specification, with
    mediaType and timestamp left out of the message, Bob, a member of
    the group of chat 42, gets no frame at all, and so not the envelope
    with the two fields as [None]: the broadcast reaches his handler,
    which raises [KeyError] on the missing key. *)
Theorem omitted_fields_are_not_delivered :
  members "chat_42" (groups world42) = {[ "specific.A"; "specific.B" ]}
  ∧ ChatConsumer.receive non_ascii0 consumer_ann (VDict (envelope_new_message message_hi))
    = MkRun [GroupSend "chat_42" (new_message_event (VDict message_hi))]
        (inr consumer_ann)
  ∧ ChatConsumer.dispatch non_ascii0 framework0 consumer_bob
      (new_message_event (VDict message_hi))
    = MkRun [] (inl KeyError)
  ∧ frames (world42_after message_hi) "specific.B" = []
  ∧ faults (world42_after message_hi) = [("specific.B", KeyError)]
  ∧ ¬ In (new_message_frame fields_hi_none (VStr "hi"))
        (frames (world42_after message_hi) "specific.B").
Proof.
  assert (H : frames (world42_after message_hi) "specific.B" = []
              ∧ faults (world42_after message_hi) = [("specific.B", KeyError)]).
  { vm_compute. split; reflexivity. }
  destruct H as [Hf Hfaults]. destruct world42_members as (_ & _ & Hm & _).
  split; [exact Hm|]. split; [reflexivity|]. split; [reflexivity|].
  split; [exact Hf|]. split; [exact Hfaults|].
  rewrite Hf. intros [].
Qed.

Lemma failed_auth_connects_anonymous_witness :
  user (JWTAuthMiddleware jwt_decode0 user_by_id0 (scope_of "token-old"))
  = Some AnonymousUser
  ∧ trace (ChatConsumer.connect non_ascii0
             (ChatConsumer.new "specific.C"
                (JWTAuthMiddleware jwt_decode0 user_by_id0 (scope_of "token-old"))))
    = [Accept]
  ∧ (∀ self',
        outcome (ChatConsumer.connect non_ascii0
                   (ChatConsumer.new "specific.C"
                      (JWTAuthMiddleware jwt_decode0 user_by_id0 (scope_of "token-old"))))
        = inr self' →
        ChatConsumer.user_id self' = Some VNone
        ∧ ChatConsumer.chat_group_name self' = None)
  ∧ (∀ cid, Py.dict_get (kwargs (scope_of "token-old")) "chat_id" = Some cid →
            returns (ChatConsumer.connect non_ascii0
                       (ChatConsumer.new "specific.C"
                          (JWTAuthMiddleware jwt_decode0 user_by_id0
                             (scope_of "token-old")))) = true)
  ∧ (∀ w, reachable jwt_decode0 user_by_id0 non_ascii0 framework0 w →
          consumers w !! "specific.C" = None → "specific.C" ∉ closed w →
          "specific.C"
          ∈ accepted (step jwt_decode0 user_by_id0 non_ascii0 framework0 w
                        (Connect "specific.C" (scope_of "token-old")))
          ∧ groups (step jwt_decode0 user_by_id0 non_ascii0 framework0 w
                      (Connect "specific.C" (scope_of "token-old"))) = groups w
          ∧ groups_of "specific.C"
              (step jwt_decode0 user_by_id0 non_ascii0 framework0 w
                 (Connect "specific.C" (scope_of "token-old"))) = ∅).
Proof.
  apply (failed_auth_connects_anonymous jwt_decode0 user_by_id0 non_ascii0 framework0
           (scope_of "token-old") "specific.C").
  right. left. reflexivity.
Defined.

Example no_token_is_anonymous :
  user (JWTAuthMiddleware jwt_decode0 user_by_id0 scope_no_token) = Some AnonymousUser.
Proof. reflexivity. Qed.

Lemma connect_joins_the_chat_group_only_witness :
  trace (ChatConsumer.connect non_ascii0
           (ChatConsumer.new "specific.A"
              (JWTAuthMiddleware jwt_decode0 user_by_id0 (scope_of "token-ann"))))
  = [Accept; GroupAdd ("chat_" +:+ Py.str (VStr "42")) "specific.A"]
  ∧ groups_of "specific.A"
      (step jwt_decode0 user_by_id0 non_ascii0 framework0 empty_world
         (Connect "specific.A" (scope_of "token-ann")))
    = {[ "chat_" +:+ Py.str (VStr "42") ]}
  ∧ size (groups_of "specific.A"
            (step jwt_decode0 user_by_id0 non_ascii0 framework0 empty_world
               (Connect "specific.A" (scope_of "token-ann")))) = 1%nat.
Proof.
  apply (connect_joins_the_chat_group_only jwt_decode0 user_by_id0 non_ascii0 framework0
           empty_world (scope_of "token-ann") "specific.A" ann (VStr "42")).
  - constructor.
  - reflexivity.
  - cbn. apply not_elem_of_empty.
  - reflexivity.
  - cbn. lia.
  - reflexivity.
  - reflexivity.
  - reflexivity.
Defined.

(** C9, as stated, fails: Ann's identity resolves and her route gives
    chat id 42, and connecting joins her to one group, not two. *)
Lemma connect_joins_one_group_not_two :
  user (JWTAuthMiddleware jwt_decode0 user_by_id0 (scope_of "token-ann"))
  = Some (AuthUser ann)
  ∧ Py.dict_get (kwargs (scope_of "token-ann")) "chat_id" = Some (VStr "42")
  ∧ groups_of "specific.A"
      (step jwt_decode0 user_by_id0 non_ascii0 framework0 empty_world
         (Connect "specific.A" (scope_of "token-ann"))) = {[ "chat_42" ]}
  ∧ size (groups_of "specific.A"
            (step jwt_decode0 user_by_id0 non_ascii0 framework0 empty_world
               (Connect "specific.A" (scope_of "token-ann")))) ≠ 2%nat.
Proof.
  destruct (connect_joins_chat_group jwt_decode0 user_by_id0 non_ascii0 framework0
              empty_world (scope_of "token-ann") "specific.A" ann (VStr "42"))
    as (_ & Hset & Hsize);
    [constructor | reflexivity | cbn; apply not_elem_of_empty | reflexivity
    | cbn; lia | reflexivity | reflexivity | reflexivity |].
  split; [reflexivity|]. split; [reflexivity|]. split; [exact Hset|].
  rewrite Hsize. discriminate.
Qed.
(** * Further properties of the code *)

(** ** Routing and translation together *)

Lemma receive_simple_kind (nok : string → bool)
  (self : ChatConsumer.t) (d p : list (string * value)) (k : EventKind) :
  k ≠ NewMessage →
  Py.dict_get d "event" = Some (VStr (kind_name k)) →
  Py.dict_get d "payload" = Some (VDict p) →
  ChatConsumer.receive nok self (VDict d)
  = if Layer.valid_group_name nok (group_name (table_target k p))
    then MkRun [GroupSend (group_name (table_target k p)) (table_message k p)]
           (inr self)
    else MkRun [] (inl TypeError).
Proof.
  intros Hk He Hp. unfold ChatConsumer.receive, Py.get. rewrite He, Hp.
  destruct (Layer.valid_group_name nok (group_name (table_target k p))) eqn:Hv;
    destruct k; try contradiction; cbn in Hv |- *; unfold field in Hv;
    first [ rewrite (group_send_valid nok _ _ Hv); reflexivity
          | rewrite (group_send_invalid nok _ _ Hv); reflexivity
          | reflexivity
          | discriminate Hv
          | rewrite online_group_valid in Hv; discriminate Hv ].
Qed.

(** For each kind but new_message, whatever mapping the payload is,
    when the layer accepts the name of the target group the broadcast
    [receive] issues is handled by a recipient without raising, and
    gives that recipient exactly one frame: the outbound event with the
    payload's field. *)
Theorem simple_event_end_to_end (nok : string → bool)
  (fh : string → ChatConsumer.t → value → Run ChatConsumer.t)
  (sender recipient : ChatConsumer.t) (d p : list (string * value)) (k : EventKind) :
  k ≠ NewMessage →
  Py.dict_get d "event" = Some (VStr (kind_name k)) →
  Py.dict_get d "payload" = Some (VDict p) →
  Layer.valid_group_name nok (group_name (table_target k p)) = true →
  ∃ g ev,
    ChatConsumer.receive nok sender (VDict d) = MkRun [GroupSend g ev] (inr sender)
    ∧ ChatConsumer.dispatch nok fh recipient ev
      = MkRun [Send (simple_frame k p)] (inr recipient).
Proof.
  intros Hk He Hp Hv.
  exists (group_name (table_target k p)), (table_message k p). split.
  - rewrite (receive_simple_kind nok sender d p k Hk He Hp), Hv. reflexivity.
  - destruct k; try reflexivity. contradiction.
Qed.

Lemma simple_event_end_to_end_witness :
  ∃ g ev,
    ChatConsumer.receive non_ascii0 consumer0 (VDict envelope_typing)
    = MkRun [GroupSend g ev] (inr consumer0)
    ∧ ChatConsumer.dispatch non_ascii0 framework0 consumer0 ev
      = MkRun [Send (VDict [("event", VStr "user_typing");
                            ("data", VDict [("user_id", VInt 7)])])]
          (inr consumer0).
Proof.
  apply (simple_event_end_to_end non_ascii0 framework0 consumer0 consumer0
           envelope_typing [("recipient_id", VInt 8); ("user_id", VInt 7)]
           TypingIndicator);
    [discriminate | reflexivity | reflexivity | reflexivity].
Defined.

Lemma new_message_returns_needs_fields (r : ChatConsumer.t) (md : value) :
  returns (ChatConsumer.new_message r (new_message_event md)) = true →
  (∃ v, Py.subscript md "id" = inr v)
  ∧ (∃ v, Py.subscript md "sender" = inr v)
  ∧ (∃ v, Py.subscript md "mediaType" = inr v)
  ∧ (∃ v, Py.subscript md "timestamp" = inr v).
Proof.
  unfold ChatConsumer.new_message, new_message_event, returns.
  change (Py.subscript (VDict [("type", VStr "new_message"); ("message", md)]) "message")
    with (@inr Exn value md).
  cbn [lift mbind Run_bind run_bind outcome trace].
  repeat match goal with
         | |- context [Py.subscript ?x ?k] =>
             destruct (Py.subscript x k) eqn:?;
             cbn [lift mbind Run_bind run_bind outcome trace];
             try discriminate
         end.
  intros _. eauto 10.
Qed.

(** A new_message whose message is missing, or is a mapping without id,
    sender, mediaType or timestamp, is still broadcast to the chat
    group when the layer accepts its name; each recipient's handler
    then raises and sends no frame. *)
Theorem new_message_lacking_field_gives_no_frame (nok : string → bool)
  (fh : string → ChatConsumer.t → value → Run ChatConsumer.t)
  (sender recipient : ChatConsumer.t) (d p : list (string * value)) :
  Py.dict_get d "event" = Some (VStr "new_message") →
  Py.dict_get d "payload" = Some (VDict p) →
  match Py.dict_get p "message" with
  | None => True
  | Some (VDict m) => lacks_field m
  | Some _ => False
  end →
  Layer.valid_group_name nok ("chat_" +:+ Py.str (field p "chat_id")) = true →
  ∃ ev,
    ChatConsumer.receive nok sender (VDict d)
    = MkRun [GroupSend ("chat_" +:+ Py.str (field p "chat_id")) ev] (inr sender)
    ∧ trace (ChatConsumer.dispatch nok fh recipient ev) = []
    ∧ returns (ChatConsumer.dispatch nok fh recipient ev) = false.
Proof.
  intros He Hp Hm Hv.
  assert (Hmap : message_is_mapping p = true).
  { unfold message_is_mapping. destruct (Py.dict_get p "message") as [[]|];
      solve [reflexivity | contradiction]. }
  exists (new_message_event (message_with_content p)). split.
  - exact (receive_by_table nok sender d p NewMessage He Hp Hmap Hv).
  - rewrite dispatch_new_message.
    assert (Hret : returns (ChatConsumer.new_message recipient
                              (new_message_event (message_with_content p))) = false).
    { destruct (returns _) eqn:Hr; [|reflexivity]. exfalso.
      apply new_message_returns_needs_fields in Hr
        as ((v1 & H1) & (v2 & H2) & (v3 & H3) & (v4 & H4)).
      unfold message_with_content in H1, H2, H3, H4.
      destruct (Py.dict_get p "message") as [[]|]; try contradiction.
      - unfold Py.subscript in H1, H2, H3, H4.
        rewrite dict_get_set_ne in H1, H2, H3, H4 by discriminate.
        destruct Hm as [Hm | [Hm | [Hm | Hm]]]; rewrite Hm in *; discriminate.
      - discriminate H1. }
    split; [|exact Hret].
    destruct (handler_shape NewMessage recipient
                (new_message_event (message_with_content p)))
      as [[e Hs] | [f Hs]]; cbn [handler_of] in Hs; rewrite Hs in Hret |- *;
      [reflexivity | discriminate].
Qed.

Lemma new_message_lacking_field_gives_no_frame_witness :
  ∃ ev,
    ChatConsumer.receive non_ascii0 consumer0 (VDict (envelope_new_message message_hi))
    = MkRun [GroupSend ("chat_" +:+ Py.str (VInt 42)) ev] (inr consumer0)
    ∧ trace (ChatConsumer.dispatch non_ascii0 framework0 consumer0 ev) = []
    ∧ returns (ChatConsumer.dispatch non_ascii0 framework0 consumer0 ev) = false.
Proof.
  apply (new_message_lacking_field_gives_no_frame non_ascii0 framework0
           consumer0 consumer0 (envelope_new_message message_hi)
           [("chat_id", VInt 42); ("message", VDict message_hi)]);
    [reflexivity | reflexivity | right; right; left; reflexivity | reflexivity].
Defined.

(** ** What a method never does *)

(** On any frame, at most one call of [receive] goes through, a
    group_send; when [receive] raises nothing has been broadcast, and
    when it returns the instance is as it was. *)
Theorem receive_only_broadcasts (nok : string → bool)
  (self : ChatConsumer.t) (data : value) :
  (length (trace (ChatConsumer.receive nok self data)) ≤ 1)%nat
  ∧ (∀ e, In e (trace (ChatConsumer.receive nok self data)) → ∃ g m, e = GroupSend g m)
  ∧ (returns (ChatConsumer.receive nok self data) = false →
     trace (ChatConsumer.receive nok self data) = [])
  ∧ (∀ self', outcome (ChatConsumer.receive nok self data) = inr self' → self' = self).
Proof.
  destruct (receive_shape nok self data) as [[e ->] | [-> | (g & k & fs & ->)]]; cbn;
    repeat split; try lia; try tauto; try discriminate; try congruence.
  intros e [<- | []]. eauto.
Qed.

(** Whatever message one of the seven handlers is given, it makes at
    most one call, a send on its own transport; it makes none when it
    raises, and it leaves the instance as it was.  A message [receive]
    made is dispatched to the handler of its kind. *)
Theorem handler_only_sends (k : EventKind) (self : ChatConsumer.t) (message : value) :
  (length (trace (handler_of k self message)) ≤ 1)%nat
  ∧ (∀ e, In e (trace (handler_of k self message)) → ∃ f, e = Send f)
  ∧ (returns (handler_of k self message) = false →
     trace (handler_of k self message) = [])
  ∧ (∀ self', outcome (handler_of k self message) = inr self' → self' = self)
  ∧ (∀ nok fh fs,
       ChatConsumer.dispatch nok fh self (VDict (("type", VStr (table_outbound k)) :: fs))
       = handler_of k self (VDict (("type", VStr (table_outbound k)) :: fs))).
Proof.
  split; [|split; [|split; [|split]]];
    try (intros nok fh fs; apply dispatch_typed);
    destruct (handler_shape k self message) as [[e ->] | [f ->]]; cbn;
    try lia; try tauto; try discriminate; try congruence.
  intros e [<- | []]. eauto.
Qed.

(** ** Connecting and disconnecting *)

(** Every group [connect] joins is the group [disconnect] leaves, with
    the same channel: the two methods name the chat group alike. *)
Theorem disconnect_discards_what_connect_joined (nok : string → bool)
  (c : string) (sc : Scope) (self' : ChatConsumer.t) (g ch : string) :
  outcome (ChatConsumer.connect nok (ChatConsumer.new c sc)) = inr self' →
  In (GroupAdd g ch) (trace (ChatConsumer.connect nok (ChatConsumer.new c sc))) →
  ChatConsumer.disconnect nok self' = MkRun [GroupDiscard g ch] (inr self').
Proof.
  destruct (user sc) as [u|] eqn:Hu.
  - rewrite (connect_shape nok c sc u Hu).
    destruct (Py.dict_get (kwargs sc) "chat_id") as [cid|]; [|discriminate].
    cbn zeta.
    destruct (Py.truthy (if is_authenticated u then user_pk u else VNone) && Py.truthy cid)
      eqn:Hj.
    + apply andb_prop in Hj as [_ Ht].
      destruct (Layer.valid_group_name nok ("chat_" +:+ Py.str cid)) eqn:Hv; cbn;
        [|discriminate].
      intros [= <-] [Hin | [Hin | []]]; [discriminate Hin|]. injection Hin as <- <-.
      rewrite (disconnect_shape nok _ cid) by reflexivity. rewrite Ht, Hv. reflexivity.
    + cbn. intros _ [Hin | []]. discriminate Hin.
  - unfold ChatConsumer.connect, ChatConsumer.new. cbn. rewrite Hu. cbn. discriminate.
Qed.

Lemma disconnect_discards_what_connect_joined_witness :
  ChatConsumer.disconnect non_ascii0 consumer_ann
  = MkRun [GroupDiscard "chat_42" "specific.A"] (inr consumer_ann).
Proof.
  apply (disconnect_discards_what_connect_joined non_ascii0 "specific.A"
           (JWTAuthMiddleware jwt_decode0 user_by_id0 (scope_of "token-ann"))
           consumer_ann "chat_42" "specific.A").
  - reflexivity.
  - right. left. reflexivity.
Defined.

(** Behind the middleware [connect] always accepts first.  It raises
    in two cases only, each after the transport is accepted and with
    no group joined: [KeyError] when the route carries no chat id, and
    [TypeError] when it would join, the user being authenticated with
    an id other than 0 and the chat id counting as true, and the layer
    refuses the name of the chat group. *)
Theorem connect_behind_middleware
  (jwt_decode : string → JwtResult) (user_by_id : value → option User)
  (nok : string → bool) (sc : Scope) (c : string) :
  (∃ rest, trace (ChatConsumer.connect nok
                    (ChatConsumer.new c (JWTAuthMiddleware jwt_decode user_by_id sc)))
           = Accept :: rest)
  ∧ (Py.dict_get (kwargs sc) "chat_id" = None →
     ChatConsumer.connect nok
       (ChatConsumer.new c (JWTAuthMiddleware jwt_decode user_by_id sc))
     = MkRun [Accept] (inl KeyError))
  ∧ (∀ cid, Py.dict_get (kwargs sc) "chat_id" = Some cid →
       (returns (ChatConsumer.connect nok
                   (ChatConsumer.new c (JWTAuthMiddleware jwt_decode user_by_id sc)))
        = false
        ↔ ∃ usr, user (JWTAuthMiddleware jwt_decode user_by_id sc) = Some (AuthUser usr)
               ∧ id usr ≠ 0 ∧ Py.truthy cid = true
               ∧ Layer.valid_group_name nok ("chat_" +:+ Py.str cid) = false)
       ∧ (returns (ChatConsumer.connect nok
                     (ChatConsumer.new c (JWTAuthMiddleware jwt_decode user_by_id sc)))
          = false →
          ChatConsumer.connect nok
            (ChatConsumer.new c (JWTAuthMiddleware jwt_decode user_by_id sc))
          = MkRun [Accept] (inl TypeError))).
Proof.
  destruct (middleware_sets_user jwt_decode user_by_id sc) as [u Hu].
  rewrite (connect_shape nok c _ u Hu).
  change (kwargs (JWTAuthMiddleware jwt_decode user_by_id sc)) with (kwargs sc).
  rewrite Hu.
  destruct (Py.dict_get (kwargs sc) "chat_id") as [cid0|]; cbn zeta.
  - split; [|split; [discriminate|]].
    + destruct (Py.truthy _ && Py.truthy cid0);
        [destruct (Layer.valid_group_name nok _)|]; eexists; reflexivity.
    + intros cid [= <-].
      destruct u as [|usr]; cbn [is_authenticated user_pk Py.truthy andb].
      * cbn. split; [|discriminate]. split; [discriminate|].
        intros (usr & Hcontra & _). discriminate Hcontra.
      * destruct (id usr =? 0) eqn:Hid; cbn [negb andb].
        -- cbn. split; [|discriminate]. split; [discriminate|].
           intros (usr' & [= <-] & Hne & _). apply Z.eqb_eq in Hid. contradiction.
        -- destruct (Py.truthy cid0) eqn:Ht.
           ++ destruct (Layer.valid_group_name nok ("chat_" +:+ Py.str cid0)) eqn:Hv;
                cbn.
              ** split; [|discriminate]. split; [discriminate|].
                 intros (usr' & _ & _ & _ & Hcontra). discriminate Hcontra.
              ** split; [|reflexivity]. split; [|reflexivity].
                 intros _. exists usr. repeat split; auto.
                 apply Z.eqb_neq, Hid.
           ++ cbn. split; [|discriminate]. split; [discriminate|].
              intros (usr' & _ & _ & Hcontra & _). discriminate Hcontra.
  - cbn. split; [eexists; reflexivity|]. split; [reflexivity|]. discriminate.
Qed.

(** The blank in the chat id of the route: Ann's connect is accepted
    and then raises. *)
Example connect_bad_chat_id :
  ChatConsumer.connect non_ascii0
    (ChatConsumer.new "specific.A"
       (JWTAuthMiddleware jwt_decode0 user_by_id0
          {| query := [("token", ["token-ann"])]; user := None;
             kwargs := [("chat_id", VStr "a b")] |}))
  = MkRun [Accept] (inl TypeError).
Proof. reflexivity. Qed.
(** ** Membership of the other connections *)

Lemma member_of_group_add
  (c' g g0 c : string) (gs : gmap string (gset string)) :
  c' ≠ c → member_of c' g (group_add g0 c gs) ↔ member_of c' g gs.
Proof.
  intros Hne. unfold member_of. split.
  - intros (ms & Hms & Hin). rewrite lookup_group_add in Hms. case_decide as Hg.
    + injection Hms as <-. subst g0. apply elem_of_union in Hin as [Hin|Hin].
      * apply elem_of_singleton in Hin. contradiction.
      * unfold members in Hin. destruct (gs !! g) as [m0|]; cbn in Hin.
        -- eauto.
        -- apply not_elem_of_empty in Hin. contradiction.
    + eauto.
  - intros (ms & Hms & Hin). destruct (decide (g0 = g)) as [->|Hg].
    + eexists. rewrite lookup_group_add, decide_True by reflexivity.
      split; [reflexivity|]. apply elem_of_union_r. unfold members. rewrite Hms. exact Hin.
    + exists ms. rewrite lookup_group_add, decide_False by exact Hg. auto.
Qed.

Lemma member_of_group_discard
  (c' g g0 c : string) (gs : gmap string (gset string)) :
  c' ≠ c → member_of c' g (group_discard g0 c gs) ↔ member_of c' g gs.
Proof.
  intros Hne. unfold member_of. split.
  - intros (ms & Hms & Hin).
    destruct (elem_of_group_discard _ _ _ _ _ _ Hms Hin) as (ms0 & ? & ? & _). eauto.
  - intros (ms & Hms & Hin). unfold group_discard.
    destruct (decide (g0 = g)) as [->|Hg].
    + rewrite Hms.
      assert (Hin' : c' ∈ ms ∖ {[c]}).
      { apply elem_of_difference. split; [exact Hin|].
        intros H. apply elem_of_singleton in H. contradiction. }
      case_decide as Hempty.
      * rewrite Hempty in Hin'. apply not_elem_of_empty in Hin'. contradiction.
      * eexists. rewrite lookup_insert_eq. eauto.
    + destruct (gs !! g0) as [m0|]; [|eauto].
      case_decide.
      * exists ms. rewrite lookup_delete_ne by exact Hg. auto.
      * exists ms. rewrite lookup_insert_ne by exact Hg. auto.
Qed.

Lemma groups_of_ext (c : string) (w w' : World) :
  (∀ g, member_of c g (groups w') ↔ member_of c g (groups w)) →
  groups_of c w' = groups_of c w.
Proof.
  intros H. apply set_eq. intros g. rewrite !elem_of_groups_of. apply H.
Qed.

Lemma quiet_run (c : string) (es : list Effect) :
  Forall quiet es →
  ∀ w, groups (foldl (run_effect c) w es) = groups w
     ∧ consumers (foldl (run_effect c) w es) = consumers w.
Proof.
  induction 1 as [|e es He _ IH]; intros w; [split; reflexivity|].
  cbn [foldl]. destruct (IH (run_effect c w e)) as [-> ->].
  destruct e; cbn in He; try contradiction; split; reflexivity.
Qed.

(** A method that joins and leaves no group: the registry is as it
    was, and the instance has its new state, or is ended when the
    method raised. *)
Lemma settle_quiet (c : string) (r : Run ChatConsumer.t) (w : World) :
  Forall quiet (trace r) →
  groups (settle c r w) = groups w
  ∧ consumers (settle c r w)
    = match outcome r with
      | inr self' => <[c := self']> (consumers w)
      | inl _ => delete c (consumers w)
      end.
Proof.
  intros Hq. destruct (quiet_run c (trace r) Hq w) as [Hg Hcs].
  unfold settle. destruct (outcome r); cbn; rewrite Hg, Hcs; split; reflexivity.
Qed.

Lemma receive_quiet (nok : string → bool) (self : ChatConsumer.t) (data : value) :
  Forall quiet (trace (ChatConsumer.receive nok self data))
  ∧ (outcome (ChatConsumer.receive nok self data) = inr self
     ∨ ∃ e, outcome (ChatConsumer.receive nok self data) = inl e).
Proof.
  destruct (receive_shape nok self data) as [[e ->] | [-> | (g & k & fs & ->)]]; cbn;
    split; eauto; repeat constructor.
Qed.

Lemma dispatch_quiet (nok : string → bool)
  (fh : string → ChatConsumer.t → value → Run ChatConsumer.t)
  (self : ChatConsumer.t) (m : value) :
  typed_message m →
  Forall quiet (trace (ChatConsumer.dispatch nok fh self m))
  ∧ (outcome (ChatConsumer.dispatch nok fh self m) = inr self
     ∨ ∃ e, outcome (ChatConsumer.dispatch nok fh self m) = inl e).
Proof.
  intros Hm. destruct (dispatch_shape nok fh self m Hm) as [[e ->] | [f ->]]; cbn;
    split; eauto; repeat constructor.
Qed.

Section Isolation.

Variable jwt_decode : string → JwtResult.
Variable user_by_id : value → option User.
Variable nok : string → bool.
Variable fh : string → ChatConsumer.t → value → Run ChatConsumer.t.

Local Notation hub_step := (step jwt_decode user_by_id nok fh).
Local Notation hub_run := (run jwt_decode user_by_id nok fh).
Local Notation hub_reachable := (reachable jwt_decode user_by_id nok fh).
Local Notation middleware := (JWTAuthMiddleware jwt_decode user_by_id).

Lemma step_receive_keeps (w : World) (c : string) (data : value) :
  groups (hub_step w (Receive c data)) = groups w
  ∧ (∀ c', c' ≠ c →
       consumers (hub_step w (Receive c data)) !! c' = consumers w !! c')
  ∧ (∀ self, consumers (hub_step w (Receive c data)) !! c = Some self →
             consumers w !! c = Some self).
Proof.
  unfold step. destruct (consumers w !! c) as [self|] eqn:Hc;
    [|repeat split; auto; intros; congruence].
  destruct (receive_quiet nok self data) as [Hq Ho].
  destruct (settle_quiet c _ w Hq) as [Hg Hcs]. rewrite Hg, Hcs.
  split; [reflexivity|].
  destruct Ho as [-> | [e ->]]; split.
  - intros c' Hne. rewrite lookup_insert_ne by congruence. reflexivity.
  - intros s. rewrite lookup_insert_eq. auto.
  - intros c' Hne. rewrite lookup_delete_ne by congruence. reflexivity.
  - intros s. rewrite lookup_delete_eq. discriminate.
Qed.

Lemma step_handle_keeps (w : World) (c : string) :
  hub_inv nok w →
  groups (hub_step w (Handle c)) = groups w
  ∧ (∀ c', c' ≠ c → consumers (hub_step w (Handle c)) !! c' = consumers w !! c')
  ∧ (∀ self, consumers (hub_step w (Handle c)) !! c = Some self →
             consumers w !! c = Some self).
Proof.
  intros Hinv. unfold step.
  destruct (consumers w !! c) as [self|] eqn:Hc; [|repeat split; auto; intros; congruence].
  destruct (mailbox w !! c) as [[|m rest]|] eqn:Hmb; try (repeat split; auto; intros; congruence).
  assert (Hm : typed_message m).
  { destruct Hinv as (_ & _ & _ & H4). apply (H4 c (m :: rest) m Hmb).
    apply elem_of_cons. left. reflexivity. }
  destruct (dispatch_quiet nok fh self m Hm) as [Hq Ho].
  match goal with
  | |- groups (settle c ?r ?w1) = _ ∧ _ =>
      destruct (settle_quiet c r w1 Hq) as [Hg Hcs]
  end.
  rewrite Hg, Hcs. cbn [groups consumers]. split; [reflexivity|].
  destruct Ho as [-> | [e ->]]; split.
  - intros c' Hne. rewrite lookup_insert_ne by congruence. reflexivity.
  - intros s. rewrite lookup_insert_eq. auto.
  - intros c' Hne. rewrite lookup_delete_ne by congruence. reflexivity.
  - intros s. rewrite lookup_delete_eq. discriminate.
Qed.

(** Routing a frame and handling a broadcast never change who is in
    which group, nor the state of any other connection; the connection
    the method ran on keeps its state, or is ended when the method
    raised. *)
Theorem receive_and_handle_keep_registry (w : World) (c : string) (data : value) :
  hub_reachable w →
  (groups (hub_step w (Receive c data)) = groups w
   ∧ (∀ c', c' ≠ c →
        consumers (hub_step w (Receive c data)) !! c' = consumers w !! c')
   ∧ (∀ self, consumers (hub_step w (Receive c data)) !! c = Some self →
              consumers w !! c = Some self))
  ∧ (groups (hub_step w (Handle c)) = groups w
     ∧ (∀ c', c' ≠ c → consumers (hub_step w (Handle c)) !! c' = consumers w !! c')
     ∧ (∀ self, consumers (hub_step w (Handle c)) !! c = Some self →
                consumers w !! c = Some self)).
Proof.
  intros Hr. split; [apply step_receive_keeps | apply step_handle_keeps].
  apply (hub_inv_reachable _ _ _ _ w Hr).
Qed.

(** What a connect on a new channel does to the registry: nothing when
    it raises, and then the instance is not there; nothing or one join
    of that channel when it returns. *)
Lemma connect_step_cases (w : World) (c : string) (sc : Scope) :
  consumers w !! c = None → c ∉ closed w →
  (groups (hub_step w (Connect c sc)) = groups w
   ∧ consumers (hub_step w (Connect c sc)) !! c = None)
  ∨ (is_Some (consumers (hub_step w (Connect c sc)) !! c)
     ∧ (groups (hub_step w (Connect c sc)) = groups w
        ∨ ∃ g, groups (hub_step w (Connect c sc)) = group_add g c (groups w))).
Proof.
  intros Hc Hcl. unfold step. rewrite Hc, decide_False by exact Hcl.
  destruct (middleware_sets_user jwt_decode user_by_id sc) as [u Hu].
  rewrite (connect_shape nok c _ u Hu).
  destruct (Py.dict_get (kwargs (middleware sc)) "chat_id") as [cid|]; cbn zeta.
  - destruct (Py.truthy (if is_authenticated u then user_pk u else VNone) && Py.truthy cid);
      [destruct (Layer.valid_group_name nok ("chat_" +:+ Py.str cid))|];
      unfold settle; cbn.
    + right. rewrite lookup_insert_eq. split; [eexists; reflexivity|]. right. eauto.
    + left. rewrite lookup_delete_eq. auto.
    + right. rewrite lookup_insert_eq. split; [eexists; reflexivity|]. left. reflexivity.
  - unfold settle; cbn. left. rewrite lookup_delete_eq. auto.
Qed.

Lemma step_keeps_others (w : World) (ev : HubEvent) (c' g : string) :
  hub_inv nok w → event_channel ev ≠ c' →
  member_of c' g (groups (hub_step w ev)) ↔ member_of c' g (groups w).
Proof.
  intros Hinv Hne. destruct ev as [c sc | c data | c | c]; cbn in Hne.
  - destruct (consumers w !! c) as [old|] eqn:Hc;
      [unfold step; rewrite Hc; reflexivity|].
    destruct (decide (c ∈ closed w)) as [Hcl|Hcl];
      [unfold step; rewrite Hc, decide_True by exact Hcl; reflexivity|].
    destruct (connect_step_cases w c sc Hc Hcl)
      as [[-> _] | [_ [-> | [g0 ->]]]]; try reflexivity.
    apply member_of_group_add. congruence.
  - destruct (step_receive_keeps w c data) as [-> _]. reflexivity.
  - destruct (step_handle_keeps w c Hinv) as [-> _]. reflexivity.
  - destruct (consumers w !! c) as [self|] eqn:Hc;
      [|unfold step; rewrite Hc; reflexivity].
    destruct (proj1 Hinv c self Hc) as [Hn [cid Hcid]].
    rewrite (disconnect_groups jwt_decode user_by_id nok fh w c self cid Hc Hn Hcid).
    destruct (Py.truthy cid && Layer.valid_group_name nok ("chat_" +:+ Py.str cid));
      [|reflexivity].
    apply member_of_group_discard. congruence.
Qed.

(** Whatever happens on one channel, connect, frame, broadcast or
    disconnect, every other channel stays in exactly the groups it was
    in. *)
Theorem other_memberships_untouched (w : World) (ev : HubEvent) (c' : string) :
  hub_reachable w → event_channel ev ≠ c' →
  groups_of c' (hub_step w ev) = groups_of c' w.
Proof.
  intros Hr Hne. apply groups_of_ext. intros g.
  apply step_keeps_others; [apply (hub_inv_reachable _ _ _ _ w Hr) | exact Hne].
Qed.

(** Connecting and then disconnecting gives every channel back the
    groups it had: the registry is left as it was found. *)
Theorem connect_then_disconnect_restores (w : World) (c : string) (sc : Scope) (c' : string) :
  hub_reachable w → consumers w !! c = None →
  groups_of c' (hub_run w [Connect c sc; Disconnect c]) = groups_of c' w.
Proof.
  intros Hr Hc. pose proof (hub_inv_reachable _ _ _ _ w Hr) as Hinv.
  unfold run. cbn [foldl].
  pose proof (hub_inv_step jwt_decode user_by_id nok fh w (Connect c sc) Hinv) as Hinv1.
  destruct (decide (c = c')) as [<-|Hne].
  - destruct (decide (c ∈ closed w)) as [Hcl|Hcl].
    + assert (Hw : hub_step w (Connect c sc) = w).
      { unfold step. rewrite Hc, decide_True by exact Hcl. reflexivity. }
      rewrite Hw. unfold step. rewrite Hc. reflexivity.
    + rewrite (groups_of_fresh nok w w c Hinv Hc Hcl eq_refl).
      destruct (connect_step_cases w c sc Hc Hcl) as [[Hg Hnone] | [[self Hs] _]].
      * unfold step at 1. rewrite Hnone.
        apply (groups_of_fresh nok w _ c Hinv Hc Hcl Hg).
      * apply (disconnect_groups_of_empty jwt_decode user_by_id nok fh
                 (hub_step w (Connect c sc)) c self);
          [constructor; exact Hr | exact Hs].
  - apply groups_of_ext. intros g.
    rewrite (step_keeps_others _ (Disconnect c) c' g Hinv1 Hne).
    apply (step_keeps_others w (Connect c sc) c' g Hinv Hne).
Qed.


End Isolation.

Lemma world42_queued_reachable :
  reachable jwt_decode0 user_by_id0 non_ascii0 framework0 world42_queued.
Proof.
  unfold world42_queued, run. cbn [foldl]. apply reachable_step, world42_reachable.
Qed.

Lemma receive_and_handle_keep_registry_witness :
  (groups (step jwt_decode0 user_by_id0 non_ascii0 framework0 world42_queued
             (Receive "specific.A" (VDict envelope_delete_chat)))
   = groups world42_queued
   ∧ (∀ c', c' ≠ "specific.A" →
        consumers (step jwt_decode0 user_by_id0 non_ascii0 framework0 world42_queued
                     (Receive "specific.A" (VDict envelope_delete_chat))) !! c'
        = consumers world42_queued !! c')
   ∧ (∀ self,
        consumers (step jwt_decode0 user_by_id0 non_ascii0 framework0 world42_queued
                     (Receive "specific.A" (VDict envelope_delete_chat)))
          !! "specific.A" = Some self →
        consumers world42_queued !! "specific.A" = Some self))
  ∧ (groups (step jwt_decode0 user_by_id0 non_ascii0 framework0 world42_queued
               (Handle "specific.A")) = groups world42_queued
     ∧ (∀ c', c' ≠ "specific.A" →
          consumers (step jwt_decode0 user_by_id0 non_ascii0 framework0 world42_queued
                       (Handle "specific.A")) !! c'
          = consumers world42_queued !! c')
     ∧ (∀ self,
          consumers (step jwt_decode0 user_by_id0 non_ascii0 framework0 world42_queued
                       (Handle "specific.A")) !! "specific.A" = Some self →
          consumers world42_queued !! "specific.A" = Some self)).
Proof.
  apply (receive_and_handle_keep_registry jwt_decode0 user_by_id0 non_ascii0 framework0
           world42_queued "specific.A" (VDict envelope_delete_chat)).
  exact world42_queued_reachable.
Defined.

(** In that world Ann does have a broadcast to handle, and her frame
    to route is broadcast to both. *)
Example world42_queued_moves :
  frames (step jwt_decode0 user_by_id0 non_ascii0 framework0 world42_queued
            (Handle "specific.A")) "specific.A"
  = [new_message_frame fields_hi_full (VStr "hi")]
  ∧ mailbox (step jwt_decode0 user_by_id0 non_ascii0 framework0 world42_queued
               (Receive "specific.A" (VDict envelope_delete_chat))) !! "specific.B"
    = Some [new_message_event (VDict message_hi_full);
            VDict [("type", VStr "chat_deleted"); ("chat_id", VInt 42)]].
Proof. vm_compute. split; reflexivity. Qed.

Lemma other_memberships_untouched_witness :
  groups_of "specific.B"
    (step jwt_decode0 user_by_id0 non_ascii0 framework0 world42 (Disconnect "specific.A"))
  = groups_of "specific.B" world42.
Proof.
  apply (other_memberships_untouched jwt_decode0 user_by_id0 non_ascii0 framework0
           world42 (Disconnect "specific.A") "specific.B").
  - exact world42_reachable.
  - cbn. discriminate.
Defined.

Lemma connect_then_disconnect_restores_witness :
  groups_of "specific.A"
    (run jwt_decode0 user_by_id0 non_ascii0 framework0 world42
       [Connect "specific.C" (scope_of "token-ann"); Disconnect "specific.C"])
  = groups_of "specific.A" world42.
Proof.
  apply (connect_then_disconnect_restores jwt_decode0 user_by_id0 non_ascii0 framework0
           world42 "specific.C" (scope_of "token-ann") "specific.A").
  - exact world42_reachable.
  - vm_compute. reflexivity.
Defined.


(** Both members of chat 42 have the broadcast waiting. *)
Example delete_chat_is_queued_for_both :
  mailbox (step jwt_decode0 user_by_id0 non_ascii0 framework0 world42
             (Receive "specific.A" (VDict envelope_delete_chat)))
  = {[ "specific.A" := [VDict [("type", VStr "chat_deleted"); ("chat_id", VInt 42)]];
       "specific.B" := [VDict [("type", VStr "chat_deleted"); ("chat_id", VInt 42)]] ]}.
Proof. vm_compute. reflexivity. Qed.

(** ** Groups nobody joins *)

Lemma post_to_nobody (m : value) (to : gset string) (mb : gmap string (list value)) :
  (∀ b, b ∉ to) → post m to mb = mb.
Proof.
  intros Hno. apply map_eq. intros b.
  rewrite lookup_post, decide_False by apply Hno. reflexivity.
Qed.

Lemma only_chat_groups_have_members (nok : string → bool) (w : World) (k : EventKind)
  (p : list (string * value)) (b : string) :
  hub_inv nok w → chat_kind k = false →
  b ∉ members (group_name (table_target k p)) (groups w).
Proof.
  intros Hinv Hk Hin. unfold members in Hin.
  destruct (groups w !! group_name (table_target k p)) as [ms|] eqn:Hg; cbn in Hin.
  - destruct (inv_group_name nok _ _ _ _ Hinv _ ms b Hg Hin) as (cid & Hname).
    destruct k; try discriminate Hk; cbn in Hname; discriminate Hname.
  - apply not_elem_of_empty in Hin. contradiction.
Qed.

(** The consumer only ever joins the group of its chat. So a frame of a
    kind routed to the group of a user or to the online group, that is
    start_chat, update_profile, typing_indicator, user_online and
    user_offline, reaches no connection at all: routing it queues
    nothing for anyone and pushes no frame, and when the layer accepts
    the name of the group it leaves the hub exactly as it was. *)
Theorem user_and_online_groups_reach_nobody
  (jwt_decode : string → JwtResult) (user_by_id : value → option User)
  (nok : string → bool)
  (fh : string → ChatConsumer.t → value → Run ChatConsumer.t)
  (w : World) (a : string) (d p : list (string * value)) (k : EventKind) :
  reachable jwt_decode user_by_id nok fh w →
  chat_kind k = false →
  Py.dict_get d "event" = Some (VStr (kind_name k)) →
  Py.dict_get d "payload" = Some (VDict p) →
  mailbox (step jwt_decode user_by_id nok fh w (Receive a (VDict d))) = mailbox w
  ∧ outbox (step jwt_decode user_by_id nok fh w (Receive a (VDict d))) = outbox w
  ∧ (Layer.valid_group_name nok (group_name (table_target k p)) = true →
     step jwt_decode user_by_id nok fh w (Receive a (VDict d)) = w).
Proof.
  intros Hr Hk He Hp. pose proof (hub_inv_reachable _ _ _ _ w Hr) as Hinv.
  unfold step. destruct (consumers w !! a) as [self|] eqn:Ha; [|repeat split; auto; intros; congruence].
  rewrite (receive_simple_kind nok self d p k) by (auto; intros ->; discriminate Hk).
  destruct (Layer.valid_group_name nok (group_name (table_target k p)));
    unfold settle; cbn.
  - rewrite post_to_nobody
      by (intros b; apply (only_chat_groups_have_members nok w k p b Hinv Hk)).
    split; [reflexivity|]. split; [reflexivity|]. intros _.
    unfold set_consumers. cbn. rewrite insert_id by exact Ha. destruct w; reflexivity.
  - split; [reflexivity|]. split; [reflexivity|]. discriminate.
Qed.

Lemma user_and_online_groups_reach_nobody_witness :
  mailbox (step jwt_decode0 user_by_id0 non_ascii0 framework0 world42
             (Receive "specific.A" (VDict envelope_typing))) = mailbox world42
  ∧ outbox (step jwt_decode0 user_by_id0 non_ascii0 framework0 world42
              (Receive "specific.A" (VDict envelope_typing))) = outbox world42
  ∧ (Layer.valid_group_name non_ascii0 "user_8" = true →
     step jwt_decode0 user_by_id0 non_ascii0 framework0 world42
       (Receive "specific.A" (VDict envelope_typing)) = world42).
Proof.
  apply (user_and_online_groups_reach_nobody jwt_decode0 user_by_id0 non_ascii0 framework0
           world42 "specific.A" envelope_typing
           [("recipient_id", VInt 8); ("user_id", VInt 7)] TypingIndicator).
  - exact world42_reachable.
  - reflexivity.
  - reflexivity.
  - reflexivity.
Defined.

(** ** Authentication *)

Lemma middleware_resolves
  (jwt_decode : string → JwtResult) (user_by_id : value → option User)
  (sc : Scope) (usr : User) :
  user (JWTAuthMiddleware jwt_decode user_by_id sc) = Some (AuthUser usr)
  ↔ ∃ token claims uid,
      query_token (query sc) = Some token
      ∧ token ≠ EmptyString
      ∧ jwt_decode token = Decoded claims
      ∧ Py.dict_get claims "user_id" = Some uid
      ∧ Py.truthy uid = true
      ∧ user_by_id uid = Some usr.
Proof.
  unfold JWTAuthMiddleware, get_user. cbn [user]. split.
  - destruct (query_token (query sc)) as [token|]; [|discriminate].
    destruct (String.eqb token EmptyString) eqn:Ht; cbn [negb]; [discriminate|].
    destruct (jwt_decode token) as [claims| |] eqn:Hd; try discriminate.
    destruct (Py.dict_get claims "user_id") as [uid|] eqn:Hu; cbn; [|discriminate].
    destruct (Py.truthy uid) eqn:Htr; [|discriminate].
    destruct (user_by_id uid) as [u|] eqn:Hg; [|discriminate].
    intros [= <-]. exists token, claims, uid. repeat split; auto.
    intros ->. discriminate Ht.
  - intros (token & claims & uid & -> & Hne & Hd & Hu & Htr & Hg).
    assert (Ht : String.eqb token EmptyString = false).
    { apply String.eqb_neq, Hne. }
    rewrite Ht, Hd, Hu. cbn. rewrite Htr, Hg. reflexivity.
Qed.

(** The middleware authenticates a connection as a user exactly when
    the query has a non-empty token that decodes, the claims carry a
    user id that counts as true, and a user with that id exists; in
    every other case the connection is anonymous. *)
Theorem middleware_authenticates_iff
  (jwt_decode : string → JwtResult) (user_by_id : value → option User)
  (sc : Scope) (usr : User) :
  user (JWTAuthMiddleware jwt_decode user_by_id sc) = Some (AuthUser usr)
  ↔ ∃ token claims uid,
      query_token (query sc) = Some token
      ∧ token ≠ EmptyString
      ∧ jwt_decode token = Decoded claims
      ∧ Py.dict_get claims "user_id" = Some uid
      ∧ Py.truthy uid = true
      ∧ user_by_id uid = Some usr.
Proof. exact (middleware_resolves jwt_decode user_by_id sc usr). Qed.

(** Anonymous or authenticated, nothing else: the middleware always
    sets the user and hands the query and the route on untouched. *)
Lemma middleware_keeps_scope
  (jwt_decode : string → JwtResult) (user_by_id : value → option User) (sc : Scope) :
  query (JWTAuthMiddleware jwt_decode user_by_id sc) = query sc
  ∧ kwargs (JWTAuthMiddleware jwt_decode user_by_id sc) = kwargs sc.
Proof. split; reflexivity. Qed.

(** A token handed out by [login], presented on the websocket under
    the same key, resolves to the user who logged in, and the
    connection joins the chat group of its route when the layer
    accepts the name of that group. *)
Theorem login_token_opens_the_chat
  (jwt_encode : list (string * value) → string)
  (authenticate : string → string → option User)
  (jwt_decode : string → JwtResult) (user_by_id : value → option User)
  (nok : string → bool)
  (profiles : gmap Z Profile) (input : LoginInput) (payload : AuthPayload)
  (sc : Scope) (c : string) (cid : value) :
  (login jwt_encode authenticate profiles input).2 = Some payload →
  jwt_decode (token payload) = Decoded [("user_id", VInt (id (auth_user payload)))] →
  token payload ≠ EmptyString →
  id (auth_user payload) ≠ 0 →
  user_by_id (VInt (id (auth_user payload))) = Some (auth_user payload) →
  query_token (query sc) = Some (token payload) →
  Py.dict_get (kwargs sc) "chat_id" = Some cid →
  Py.truthy cid = true →
  Layer.valid_group_name nok ("chat_" +:+ Py.str cid) = true →
  authenticate (li_username input) (li_password input) = Some (auth_user payload)
  ∧ user (JWTAuthMiddleware jwt_decode user_by_id sc) = Some (AuthUser (auth_user payload))
  ∧ ChatConsumer.connect nok
      (ChatConsumer.new c (JWTAuthMiddleware jwt_decode user_by_id sc))
    = MkRun [Accept; GroupAdd ("chat_" +:+ Py.str cid) c]
        (inr {| ChatConsumer.channel_name := c;
                ChatConsumer.scope := JWTAuthMiddleware jwt_decode user_by_id sc;
                ChatConsumer.user_id := Some (VInt (id (auth_user payload)));
                ChatConsumer.chat_id := Some cid;
                ChatConsumer.chat_group_name := Some ("chat_" +:+ Py.str cid) |}).
Proof.
  intros Hlogin Hdec Hne Hid Huser Htok Hcid Ht Hv.
  assert (Hauth : authenticate (li_username input) (li_password input)
                  = Some (auth_user payload)).
  { unfold login in Hlogin.
    destruct (authenticate (li_username input) (li_password input)) as [u|];
      cbn in Hlogin; [|discriminate].
    injection Hlogin as <-. reflexivity. }
  assert (Hu : user (JWTAuthMiddleware jwt_decode user_by_id sc)
               = Some (AuthUser (auth_user payload))).
  { apply middleware_resolves.
    exists (token payload), [("user_id", VInt (id (auth_user payload)))],
      (VInt (id (auth_user payload))).
    repeat split; auto. cbn. apply negb_true_iff, Z.eqb_neq, Hid. }
  split; [exact Hauth|]. split; [exact Hu|].
  apply (connect_authenticated nok c _ (auth_user payload) cid Hu Hid); assumption.
Qed.

Lemma login_token_opens_the_chat_witness :
  authenticate0 "ann" "pw-ann" = Some ann
  ∧ user (JWTAuthMiddleware jwt_decode0 user_by_id0 (scope_of "token-ann"))
    = Some (AuthUser ann)
  ∧ ChatConsumer.connect non_ascii0
      (ChatConsumer.new "specific.A"
         (JWTAuthMiddleware jwt_decode0 user_by_id0 (scope_of "token-ann")))
    = MkRun [Accept; GroupAdd "chat_42" "specific.A"] (inr consumer_ann).
Proof.
  apply (login_token_opens_the_chat jwt_encode0 authenticate0 jwt_decode0 user_by_id0
           non_ascii0 profiles0 login_ann {| token := "token-ann"; auth_user := ann |}
           (scope_of "token-ann") "specific.A" (VStr "42"));
    try reflexivity; try discriminate.
Defined.

(** ** Presence and profiles *)

Lemma elem_of_online_users (profiles : gmap Z Profile) (k : Z) :
  k ∈ online_users profiles ↔ ∃ p, profiles !! k = Some p ∧ online p = true.
Proof.
  unfold online_users. rewrite elem_of_dom. split.
  - intros [p Hp]. apply map_lookup_filter_Some in Hp as [? ?]. eauto.
  - intros (p & ? & ?). exists p. apply map_lookup_filter_Some. auto.
Qed.

(** Logging in lists the user as online and keeps the bio; logging out
    afterwards unlists the user, succeeds, and leaves a profile that
    differs from the one before the login by the online flag at most.
    No other profile is touched. *)
Theorem login_then_logout
  (jwt_encode : list (string * value) → string)
  (authenticate : string → string → option User)
  (profiles : gmap Z Profile) (input : LoginInput) (usr : User) :
  authenticate (li_username input) (li_password input) = Some usr →
  let p1 := (login jwt_encode authenticate profiles input).1 in
  let p2 := (logout p1 (id usr)).1 in
  (id usr ∈ online_users p1)
  ∧ (logout p1 (id usr)).2 = true
  ∧ (id usr ∉ online_users p2)
  ∧ p2 !! id usr
    = Some {| bio := bio (default new_profile (profiles !! id usr)); online := false |}
  ∧ (∀ k, k ≠ id usr → p1 !! k = profiles !! k ∧ p2 !! k = profiles !! k).
Proof.
  intros Hauth. unfold login. rewrite Hauth. cbn [fst snd].
  unfold logout. rewrite lookup_insert_eq. cbn [fst snd bio].
  rewrite insert_insert_eq.
  split; [|split; [reflexivity|split; [|split]]].
  - apply elem_of_online_users. eexists. rewrite lookup_insert_eq. split; reflexivity.
  - rewrite elem_of_online_users. intros (p & Hp & Hon).
    rewrite lookup_insert_eq in Hp. injection Hp as <-. discriminate Hon.
  - apply lookup_insert_eq.
  - intros k Hk. rewrite !lookup_insert_ne by congruence. split; reflexivity.
Qed.

Lemma login_then_logout_witness :
  let p1 := (login jwt_encode0 authenticate0 profiles0 login_ann).1 in
  let p2 := (logout p1 (id ann)).1 in
  (id ann ∈ online_users p1)
  ∧ (logout p1 (id ann)).2 = true
  ∧ (id ann ∉ online_users p2)
  ∧ p2 !! id ann
    = Some {| bio := bio (default new_profile (profiles0 !! id ann)); online := false |}
  ∧ (∀ k, k ≠ id ann → p1 !! k = profiles0 !! k ∧ p2 !! k = profiles0 !! k).
Proof.
  apply (login_then_logout jwt_encode0 authenticate0 profiles0 login_ann ann).
  reflexivity.
Defined.

(** After [update_profile] succeeds the profile query gives back what
    the mutation returned: the new bio, the online flag as it was. No
    other profile is touched, and the set of online users is the same. *)
Theorem update_profile_then_profile
  (profiles : gmap Z Profile) (user_id : Z) (new_bio : string) (p : Profile) :
  profiles !! user_id = Some p →
  let r := update_profile profiles user_id new_bio in
  r.2 = Some {| pt_bio := Some new_bio; pt_online := online p |}
  ∧ profile r.1 user_id = r.2
  ∧ (∀ k, k ≠ user_id → profile r.1 k = profile profiles k)
  ∧ online_users r.1 = online_users profiles.
Proof.
  intros Hp. unfold update_profile. rewrite Hp. cbn [fst snd].
  split; [reflexivity|]. split; [|split].
  - unfold profile. rewrite lookup_insert_eq. reflexivity.
  - intros k Hk. unfold profile. rewrite lookup_insert_ne by congruence. reflexivity.
  - apply set_eq. intros k. rewrite !elem_of_online_users.
    destruct (decide (k = user_id)) as [->|Hk].
    + rewrite lookup_insert_eq, Hp. split.
      * intros (q & [= <-] & Hon). eauto.
      * intros (q & [= <-] & Hon). eauto.
    + rewrite lookup_insert_ne by congruence. reflexivity.
Qed.

Lemma update_profile_then_profile_witness :
  let r := update_profile profiles0 7 "away" in
  r.2 = Some {| pt_bio := Some "away"; pt_online := false |}
  ∧ profile r.1 7 = r.2
  ∧ (∀ k, k ≠ 7 → profile r.1 k = profile profiles0 k)
  ∧ online_users r.1 = online_users profiles0.
Proof.
  apply (update_profile_then_profile profiles0 7 "away"
           {| bio := Some "hello"; online := false |}).
  reflexivity.
Defined.

(** Without a profile for the user, [update_profile] gives [None] and
    [logout] gives [False], and each leaves the table as it is; with
    one, neither fails. *)
Theorem profile_mutations_need_a_profile
  (profiles : gmap Z Profile) (user_id : Z) (new_bio : string) :
  ((update_profile profiles user_id new_bio).2 = None ↔ profiles !! user_id = None)
  ∧ ((logout profiles user_id).2 = false ↔ profiles !! user_id = None)
  ∧ (profiles !! user_id = None →
     (update_profile profiles user_id new_bio).1 = profiles
     ∧ (logout profiles user_id).1 = profiles
     ∧ profile profiles user_id = None).
Proof.
  unfold update_profile, logout, profile.
  destruct (profiles !! user_id) as [p|]; cbn; repeat split; try discriminate; auto.
Qed.

(** ** Chats *)

Lemma find_pointwise {A} (f g : A → bool) (l : list A) :
  (∀ x, f x = g x) → List.find f l = List.find g l.
Proof.
  intros H. induction l as [|x l IH]; [reflexivity|]. cbn. rewrite H, IH. reflexivity.
Qed.

Lemma find_snoc {A} (f : A → bool) (l : list A) (x : A) :
  List.find f (l ++ [x])
  = match List.find f l with
    | Some y => Some y
    | None => if f x then Some x else None
    end.
Proof.
  induction l as [|y l IH]; cbn; [reflexivity|].
  destruct (f y); [reflexivity | exact IH].
Qed.

Lemma find_among {A} (f : A → bool) (l : list A) (x : A) :
  In x l → f x = true → ∃ y, List.find f l = Some y ∧ In y l ∧ f y = true.
Proof.
  intros Hin Hf. destruct (List.find f l) as [y|] eqn:Hfind.
  - apply find_some in Hfind as [? ?]. eauto.
  - rewrite (find_none f l Hfind x Hin) in Hf. discriminate.
Qed.

Lemma find_in_filter {A} (f g : A → bool) (l : list A) :
  (∀ x, f x = true → g x = true) →
  List.find f (List.filter g l) = List.find f l.
Proof.
  intros H. induction l as [|x l IH]; [reflexivity|]. cbn.
  destruct (f x) eqn:Hf.
  - rewrite (H x Hf). cbn. rewrite Hf. reflexivity.
  - destruct (g x); cbn; [rewrite Hf|]; exact IH.
Qed.

Lemma has_both_comm (u1 u2 : Z) (r : ChatRow) : has_both u1 u2 r = has_both u2 u1 r.
Proof. unfold has_both. apply andb_comm. Qed.

Lemma has_both_true (u1 u2 : Z) (r : ChatRow) :
  has_both u1 u2 r = true ↔ u1 ∈ participants r ∧ u2 ∈ participants r.
Proof.
  unfold has_both. rewrite andb_true_iff, !bool_decide_eq_true. reflexivity.
Qed.

Lemma get_or_create_chat_found (t : ChatTable) (user1 user2 : User) (now : string) :
  let r := get_or_create_chat t user1 user2 now in
  List.find (has_both (id user1) (id user2)) (chat_rows r.1) = Some r.2.1.
Proof.
  unfold get_or_create_chat.
  destruct (List.find _ (chat_rows t)) as [chat|] eqn:Hf; cbn.
  - exact Hf.
  - rewrite find_snoc, Hf.
    match goal with |- context [has_both ?a ?b ?r] =>
      assert (Ht : has_both a b r = true) end.
    { apply has_both_true. cbn. split.
      - apply elem_of_union_l, elem_of_singleton. reflexivity.
      - apply elem_of_union_r, elem_of_singleton. reflexivity. }
    rewrite Ht. reflexivity.
Qed.

Lemma get_or_create_chat_repeat
  (t : ChatTable) (user1 user2 : User) (now later : string) :
  let r := get_or_create_chat t user1 user2 now in
  get_or_create_chat r.1 user1 user2 later = (r.1, (r.2.1, false))
  ∧ get_or_create_chat r.1 user2 user1 later = (r.1, (r.2.1, false)).
Proof.
  pose proof (get_or_create_chat_found t user1 user2 now) as Hf. cbn zeta in *.
  split; unfold get_or_create_chat at 1.
  - rewrite Hf. reflexivity.
  - rewrite (find_pointwise _ (has_both (id user1) (id user2)))
      by (intros x; apply has_both_comm).
    rewrite Hf. reflexivity.
Qed.

(** Asked again for the chat of the same two users, in either order,
    [get_or_create_chat] hands back the chat it gave the first time,
    reports it as existing, and leaves the table alone. *)
Theorem get_or_create_chat_again
  (t : ChatTable) (user1 user2 : User) (now later : string) :
  let r := get_or_create_chat t user1 user2 now in
  get_or_create_chat r.1 user1 user2 later = (r.1, (r.2.1, false))
  ∧ get_or_create_chat r.1 user2 user1 later = (r.1, (r.2.1, false)).
Proof. exact (get_or_create_chat_repeat t user1 user2 now later). Qed.

(** When no two chats hold the same two users, that is still so after
    [get_or_create_chat]: only one chat exists between the same two
    participants. *)
Theorem get_or_create_chat_keeps_pairs_unique
  (t : ChatTable) (user1 user2 : User) (now : string) :
  pair_unique (chat_rows t) →
  pair_unique (chat_rows (get_or_create_chat t user1 user2 now).1).
Proof.
  intros Hinv. unfold get_or_create_chat.
  destruct (List.find _ (chat_rows t)) as [chat|] eqn:Hf; cbn; [exact Hinv|].
  assert (Hnew : ∀ r a b, In r (chat_rows t) → a ≠ b →
                   a ∈ ({[id user1; id user2]} : gset Z) →
                   b ∈ ({[id user1; id user2]} : gset Z) →
                   ¬ (a ∈ participants r ∧ b ∈ participants r)).
  { intros r a b Hin Hab Ha Hb [Har Hbr].
    pose proof (find_none _ _ Hf r Hin) as Hnone.
    assert (Hboth : has_both (id user1) (id user2) r = true).
    { apply has_both_true.
      apply elem_of_union in Ha as [Ha|Ha]; apply elem_of_singleton in Ha;
        apply elem_of_union in Hb as [Hb|Hb]; apply elem_of_singleton in Hb;
        subst a b; try contradiction; auto. }
    congruence. }
  intros i j ri rj a b Hi Hj Hij Hab (Ha1 & Hb1 & Ha2 & Hb2).
  apply lookup_snoc_Some in Hi as [[_ Hi] | [Hi <-]];
    apply lookup_snoc_Some in Hj as [[_ Hj] | [Hj <-]]; cbn in *.
  - exact (Hinv i j ri rj a b Hi Hj Hij Hab (conj Ha1 (conj Hb1 (conj Ha2 Hb2)))).
  - apply (Hnew ri a b); auto.
    apply list_elem_of_In, list_elem_of_lookup. eauto.
  - apply (Hnew rj a b); auto.
    apply list_elem_of_In, list_elem_of_lookup. eauto.
  - congruence.
Qed.

Lemma chat_table1_unique : pair_unique (chat_rows chat_table1).
Proof.
  intros i j ri rj a b Hi Hj Hij Hab (Ha1 & Hb1 & Ha2 & Hb2).
  destruct i as [|[|i]], j as [|[|j]]; cbn in Hi, Hj; try discriminate;
    try congruence; injection Hi as <-; injection Hj as <-;
    cbn [participants] in Ha1, Hb1, Ha2, Hb2;
    set_unfold; lia.
Qed.

Lemma get_or_create_chat_keeps_pairs_unique_witness :
  pair_unique (chat_rows (get_or_create_chat chat_table1 bob carol "t2").1).
Proof.
  apply (get_or_create_chat_keeps_pairs_unique chat_table1 bob carol "t2").
  exact chat_table1_unique.
Defined.

(** Bob and Carol have no chat yet: one is created, the third row. *)
Example get_or_create_chat_creates :
  get_or_create_chat chat_table1 bob carol "t2"
  = ({| chat_rows :=
          [{| chat_pk := 1; started_at := "t0"; participants := {[7; 8]} |};
           {| chat_pk := 2; started_at := "t1"; participants := {[7; 9]} |};
           {| chat_pk := 3; started_at := "t2"; participants := {[8; 9]} |}];
        next_chat_pk := 4 |},
     ({| chat_pk := 3; started_at := "t2"; participants := {[8; 9]} |}, true)).
Proof. reflexivity. Qed.

(** Asked for the chat of a user with that same user, when the user is
    already in some chat, [get_or_create_chat] creates nothing and
    hands back a chat the user is in, whoever else is in it. *)
Theorem get_or_create_chat_with_oneself
  (t : ChatTable) (u : User) (now : string) (r : ChatRow) :
  In r (chat_rows t) → id u ∈ participants r →
  ∃ r', get_or_create_chat t u u now = (t, (r', false))
      ∧ In r' (chat_rows t) ∧ id u ∈ participants r'.
Proof.
  intros Hin Hu.
  destruct (find_among (has_both (id u) (id u)) (chat_rows t) r Hin)
    as (r' & Hf & Hin' & Hb); [apply has_both_true; auto|].
  exists r'. unfold get_or_create_chat. rewrite Hf.
  apply has_both_true in Hb as [? _]. auto.
Qed.

Lemma get_or_create_chat_with_oneself_witness :
  ∃ r', get_or_create_chat chat_table0 ann ann "t1" = (chat_table0, (r', false))
      ∧ In r' (chat_rows chat_table0) ∧ id ann ∈ participants r'.
Proof.
  apply (get_or_create_chat_with_oneself chat_table0 ann "t1"
           {| chat_pk := 1; started_at := "t0"; participants := {[7; 8]} |}).
  - left. reflexivity.
  - cbn. apply elem_of_union_l, elem_of_singleton. reflexivity.
Defined.

(** [start_chat] raises exactly when one of the two users is unknown,
    and then it is [DoesNotExist]; when it succeeds, starting the same
    chat again, in either order of the two users, gives the same chat
    id and leaves the table as the first call left it. *)
Theorem start_chat_twice
  (us : list User) (t : ChatTable) (input : StartChatInput) (now later : string) :
  (∀ e, start_chat us t input now = inl e →
        e = DoesNotExist
        ∧ (get_user_by_pk us (user1_id input) = inl DoesNotExist
           ∨ get_user_by_pk us (user2_id input) = inl DoesNotExist))
  ∧ (∀ t1 ct, start_chat us t input now = inr (t1, ct) →
       (∃ ct', start_chat us t1 input later = inr (t1, ct') ∧ ct_id ct' = ct_id ct)
       ∧ (∃ ct', start_chat us t1
                   {| user1_id := user2_id input; user2_id := user1_id input |} later
                 = inr (t1, ct')
                 ∧ ct_id ct' = ct_id ct)).
Proof.
  unfold start_chat, get_user_by_pk. cbn [user1_id user2_id].
  destruct (List.find (fun u => id u =? user1_id input) us) as [u1|];
    [|split; [intros e [= <-]; auto | discriminate]].
  destruct (List.find (fun u => id u =? user2_id input) us) as [u2|];
    [|split; [intros e [= <-]; auto | discriminate]].
  split; [discriminate|]. intros t1 ct [= <- <-]. cbn [user1_id user2_id ct_id].
  destruct (get_or_create_chat_repeat t u1 u2 now later) as [H1 H2]. cbn zeta in H1, H2.
  split; [rewrite H1 | rewrite H2]; eexists; split; reflexivity.
Qed.

(** ** The message table *)

Lemma NoDup_map_eq {A B} (f : A → B) (l : list A) (x y : A) :
  NoDup (List.map f l) → In x l → In y l → f x = f y → x = y.
Proof.
  induction l as [|z l IH]; cbn; [contradiction|].
  intros Hnd Hx Hy Hf. apply NoDup_cons in Hnd as [Hz Hnd].
  destruct Hx as [<-|Hx], Hy as [<-|Hy]; auto.
  - exfalso. apply Hz. rewrite Hf. apply list_elem_of_In, in_map, Hy.
  - exfalso. apply Hz. rewrite <- Hf. apply list_elem_of_In, in_map, Hx.
Qed.

Lemma NoDup_map_filter {A B} (f : A → B) (g : A → bool) (l : list A) :
  NoDup (List.map f l) → NoDup (List.map f (List.filter g l)).
Proof.
  induction l as [|z l IH]; cbn; [auto|].
  intros Hnd. apply NoDup_cons in Hnd as [Hz Hnd].
  destruct (g z); cbn; [|auto].
  apply NoDup_cons_2; [|auto].
  intros Hin. apply Hz. apply list_elem_of_In in Hin. apply list_elem_of_In.
  apply in_map_iff in Hin as (x & Hx & Hin). apply filter_In in Hin as [Hin _].
  apply in_map_iff. eauto.
Qed.

Lemma Forall_filter_keeps {A} (P : A → Prop) (g : A → bool) (l : list A) :
  Forall P l → Forall P (List.filter g l).
Proof.
  intros H. apply List.Forall_forall. intros x Hx.
  apply filter_In in Hx as [Hx _]. rewrite List.Forall_forall in H. auto.
Qed.

Lemma save_message_stored (db : Db) (msg : Message.t) :
  NoDup (List.map Message.id (messages db)) → In msg (messages db) →
  save_message db msg = db.
Proof.
  intros Hnd Hin. unfold save_message.
  assert (Hex : existsb (fun r => Message.id r =? Message.id msg) (messages db) = true).
  { apply existsb_exists. exists msg. split; [exact Hin | apply Z.eqb_refl]. }
  rewrite Hex.
  assert (Hmap : List.map (fun r => if Message.id r =? Message.id msg then msg else r)
                   (messages db) = messages db).
  { rewrite <- (map_id (messages db)) at 2. apply map_ext_in. intros r Hr.
    destruct (Message.id r =? Message.id msg) eqn:E; [|reflexivity].
    apply Z.eqb_eq in E. symmetry.
    exact (NoDup_map_eq Message.id (messages db) r msg Hnd Hr Hin E). }
  rewrite Hmap. destruct db; reflexivity.
Qed.

Lemma mark_messages_read_noop (db : Db) (chat_id user_id : Z) :
  NoDup (List.map Message.id (messages db)) →
  mark_messages_read db chat_id user_id = (db, true).
Proof.
  intros Hnd. unfold mark_messages_read. f_equal.
  assert (H : ∀ l, (∀ m, In m l → In m (messages db)) → foldl save_message db l = db).
  { induction l as [|m l IH]; [reflexivity|]. intros Hl. cbn [foldl].
    rewrite (save_message_stored db m Hnd) by (apply Hl; left; reflexivity).
    apply IH. intros m' Hm'. apply Hl. right. exact Hm'. }
  apply H. intros m Hm. apply filter_In in Hm as [Hm _]. exact Hm.
Qed.

(** [mark_messages_read] always answers [True] and changes no stored
    message: a message has no read field, so each row is saved with the
    fields it was loaded with. *)
Theorem mark_messages_read_changes_nothing (db : Db) (chat_id user_id : Z) :
  NoDup (List.map Message.id (messages db)) →
  mark_messages_read db chat_id user_id = (db, true).
Proof. exact (mark_messages_read_noop db chat_id user_id). Qed.

Lemma mark_messages_read_changes_nothing_witness :
  mark_messages_read db1 42 7 = (db1, true).
Proof.
  apply (mark_messages_read_changes_nothing db1 42 7).
  cbn. apply NoDup_cons_2; [|apply NoDup_nil_2]. intros H. inversion H.
Defined.

Lemma get_chat_known (db : Db) (chat_id : Z) :
  In chat_id (chats db) → get_chat db chat_id = inr chat_id.
Proof.
  intros Hin. unfold get_chat.
  destruct (find_among (fun c => c =? chat_id) (chats db) chat_id Hin (Z.eqb_refl _))
    as (y & -> & _ & Hy).
  apply Z.eqb_eq in Hy. subst y. reflexivity.
Qed.

Lemma get_chat_unknown (db : Db) (chat_id : Z) :
  ¬ In chat_id (chats db) → get_chat db chat_id = inl DoesNotExist.
Proof.
  intros Hnin. unfold get_chat.
  destruct (List.find _ (chats db)) as [c|] eqn:Hf; [|reflexivity].
  apply find_some in Hf as [Hin Hc]. apply Z.eqb_eq in Hc. subst c. contradiction.
Qed.

(** Deleting a chat that exists answers [True] and takes the chat and
    all of its messages out of the store; after that the chat is
    unknown, a message sent to it is refused with [DoesNotExist], and
    the other chats and their messages are as before. *)
Theorem delete_chat_cascades (db : Db) (chat_id : Z) :
  In chat_id (chats db) →
  let r := delete_chat db chat_id in
  r.2 = true
  ∧ get_chat r.1 chat_id = inl DoesNotExist
  ∧ (∀ m, In m (messages r.1) ↔ In m (messages db) ∧ Message.chat m ≠ chat_id)
  ∧ (∀ c, c ≠ chat_id → get_chat r.1 c = get_chat db c)
  ∧ (∀ input now, in_chat_id input = chat_id →
       send_message r.1 input now = inl DoesNotExist).
Proof.
  intros Hin. unfold delete_chat. rewrite (get_chat_known db chat_id Hin). cbn [fst snd].
  set (db' := {| users := users db;
                 chats := List.filter (fun c => negb (c =? chat_id)) (chats db);
                 messages := List.filter (fun m => negb (Message.chat m =? chat_id))
                               (messages db);
                 next_id := next_id db |}).
  assert (Hgone : get_chat db' chat_id = inl DoesNotExist).
  { apply get_chat_unknown. cbn. intros H. apply filter_In in H as [_ H].
    rewrite Z.eqb_refl in H. discriminate. }
  split; [reflexivity|]. split; [exact Hgone|]. split; [|split].
  - intros m. cbn. rewrite filter_In, negb_true_iff, Z.eqb_neq. reflexivity.
  - intros c Hc. unfold get_chat. cbn.
    rewrite find_in_filter; [reflexivity|].
    intros x Hx. apply Z.eqb_eq in Hx. subst x. apply negb_true_iff, Z.eqb_neq, Hc.
  - intros input now Hi. unfold send_message. rewrite Hi, Hgone. reflexivity.
Qed.

Lemma delete_chat_cascades_witness :
  let r := delete_chat db1 42 in
  r.2 = true
  ∧ get_chat r.1 42 = inl DoesNotExist
  ∧ (∀ m, In m (messages r.1) ↔ In m (messages db1) ∧ Message.chat m ≠ 42)
  ∧ (∀ c, c ≠ 42 → get_chat r.1 c = get_chat db1 c)
  ∧ (∀ input now, in_chat_id input = 42 →
       send_message r.1 input now = inl DoesNotExist).
Proof.
  apply (delete_chat_cascades db1 42). left. reflexivity.
Defined.

(** Deleting a message that exists answers [True] and removes the row
    with that key and no other; deleting what is not there, a chat or a
    message, answers [False] and leaves the store as it is. *)
Theorem delete_message_removes_one_row (db : Db) (message_id : Z) :
  ((∃ m, In m (messages db) ∧ Message.id m = message_id) →
   (delete_message db message_id).2 = true
   ∧ ∀ m, In m (messages (delete_message db message_id).1)
          ↔ In m (messages db) ∧ Message.id m ≠ message_id)
  ∧ ((∀ m, In m (messages db) → Message.id m ≠ message_id) →
     delete_message db message_id = (db, false))
  ∧ (∀ chat_id, ¬ In chat_id (chats db) → delete_chat db chat_id = (db, false)).
Proof.
  split; [|split].
  - intros (m & Hin & Hid). unfold delete_message.
    destruct (find_among (fun r => Message.id r =? message_id) (messages db) m Hin)
      as (y & -> & _ & Hy); [apply Z.eqb_eq, Hid|].
    apply Z.eqb_eq in Hy. cbn. split; [reflexivity|].
    intros r. rewrite filter_In, negb_true_iff, Z.eqb_neq, Hy. reflexivity.
  - intros Hnone. unfold delete_message.
    destruct (List.find _ (messages db)) as [y|] eqn:Hf; [|reflexivity].
    apply find_some in Hf as [Hin Hy]. apply Z.eqb_eq in Hy.
    exfalso. exact (Hnone y Hin Hy).
  - intros chat_id Hnin. unfold delete_chat.
    rewrite (get_chat_unknown db chat_id Hnin). reflexivity.
Qed.

Lemma send_message_stores (db : Db) (input : SendMessageInput) (now : string)
  (db' : Db) (mt : MessageType) :
  send_message db input now = inr (db', mt) →
  ∃ row, messages db' = (messages db ++ [row])%list
       ∧ Message.id row = next_id db
       ∧ next_id db' = next_id db + 1
       ∧ chats db' = chats db ∧ users db' = users db.
Proof.
  unfold send_message.
  destruct (get_chat db (in_chat_id input)); [discriminate|].
  destruct (get_sender db (in_sender_id input)); [discriminate|].
  destruct (encode_utf8 _); [discriminate|].
  destruct (decode_utf8 _); [discriminate|].
  intros [= <- <-]. eexists. cbn. repeat split; reflexivity.
Qed.

(** The keys of the message rows stay distinct, and below the key the
    next row will get, through every mutation of the message table:
    sending, deleting a chat, deleting a message, marking as read. *)
Theorem message_keys_stay_unique (db : Db) (op : MessageOp) :
  message_keys_ok db → message_keys_ok (after_op db op).
Proof.
  intros [Hnd Hlt]. destruct op as [input now | chat_id | message_id | chat_id user_id];
    unfold after_op.
  - destruct (send_message db input now) as [e|[db' mt]] eqn:Hs; [split; assumption|].
    destruct (send_message_stores db input now db' mt Hs)
      as (row & Hm & Hid & Hn & _ & _).
    cbn [fst]. unfold message_keys_ok. rewrite Hm, Hn, map_app. cbn [List.map]. split.
    + apply NoDup_app. split; [exact Hnd|]. split; [|apply NoDup_singleton].
      intros k Hk Hk'. apply list_elem_of_In in Hk. apply list_elem_of_singleton in Hk'.
      apply in_map_iff in Hk as (m & Hmk & Hin).
      rewrite List.Forall_forall in Hlt. specialize (Hlt m Hin). lia.
    + apply Forall_app. split.
      * eapply Forall_impl; [exact Hlt|]. intros m Hmlt. cbn in Hmlt. lia.
      * constructor; [lia | constructor].
  - unfold delete_chat. destruct (get_chat db chat_id); [split; assumption|].
    cbn. split; [apply NoDup_map_filter, Hnd | apply Forall_filter_keeps, Hlt].
  - unfold delete_message. destruct (List.find _ (messages db)); [|split; assumption].
    cbn. split; [apply NoDup_map_filter, Hnd | apply Forall_filter_keeps, Hlt].
  - rewrite (mark_messages_read_noop db chat_id user_id Hnd). split; assumption.
Qed.

Lemma db1_keys_ok : message_keys_ok db1.
Proof.
  split.
  - cbn. apply NoDup_cons_2; [|apply NoDup_nil_2]. intros H. inversion H.
  - repeat constructor.
Qed.

Lemma message_keys_stay_unique_witness :
  message_keys_ok (after_op db1 (OpSend input0 "t2")).
Proof.
  apply (message_keys_stay_unique db1 (OpSend input0 "t2")).
  exact db1_keys_ok.
Defined.

(** The send of the sample goes through: a second row, with the next
    key. *)
Example after_send_has_two_rows :
  List.map Message.id (messages (after_op db1 (OpSend input0 "t2"))) = [1; 2]
  ∧ next_id (after_op db1 (OpSend input0 "t2")) = 3.
Proof. split; reflexivity. Qed.

(** For a content that is text, [send_message] fails exactly when the
    chat or the sender is unknown, with [DoesNotExist], and stores
    nothing; it raises nothing else. *)
Theorem send_message_fails_iff_unknown
  (db : Db) (input : SendMessageInput) (now : string) :
  utf8_valid (in_content input) = true →
  (send_message db input now = inl DoesNotExist
   ↔ ¬ In (in_chat_id input) (chats db)
     ∨ ¬ (∃ u, In u (users db) ∧ id u = in_sender_id input))
  ∧ (∀ e, send_message db input now = inl e → e = DoesNotExist).
Proof.
  intros Hs.
  destruct (in_dec Z.eq_dec (in_chat_id input) (chats db)) as [Hc|Hc].
  - destruct (get_sender db (in_sender_id input)) as [e|sender] eqn:Hg.
    + assert (He : e = DoesNotExist ∧ ¬ (∃ u, In u (users db) ∧ id u = in_sender_id input)).
      { unfold get_sender in Hg.
        destruct (List.find _ (users db)) as [u|] eqn:Hf; [discriminate|].
        injection Hg as <-. split; [reflexivity|]. intros (u & Hin & Hid).
        pose proof (find_none _ _ Hf u Hin) as Hn. cbn in Hn.
        rewrite Hid, Z.eqb_refl in Hn. discriminate. }
      destruct He as [-> Hno]. unfold send_message.
      rewrite (get_chat_known db _ Hc), Hg. split.
      * split; [auto | reflexivity].
      * intros e [= <-]. reflexivity.
    + destruct (send_message_content_ok db input now (in_chat_id input) sender
                  (get_chat_known db _ Hc) Hg Hs) as (db' & mt & Hok).
      rewrite Hok. split; [|discriminate]. split; [discriminate|].
      intros [Hn | Hn]; [contradiction|]. exfalso. apply Hn.
      unfold get_sender in Hg.
      destruct (List.find _ (users db)) as [u|] eqn:Hf; [|discriminate].
      injection Hg as ->. apply find_some in Hf as [Hin Hid].
      apply Z.eqb_eq in Hid. eauto.
  - unfold send_message. rewrite (get_chat_unknown db _ Hc). split.
    + split; [auto | reflexivity].
    + intros e [= <-]. reflexivity.
Qed.

Lemma send_message_fails_iff_unknown_witness :
  (send_message db0 input0 "t1" = inl DoesNotExist
   ↔ ¬ In (in_chat_id input0) (chats db0)
     ∨ ¬ (∃ u, In u (users db0) ∧ id u = in_sender_id input0))
  ∧ (∀ e, send_message db0 input0 "t1" = inl e → e = DoesNotExist).
Proof.
  apply (send_message_fails_iff_unknown db0 input0 "t1"). reflexivity.
Defined.

(** Two contents with the same stored text are the same content:
    [encrypt_content] loses nothing. *)
Theorem encrypt_content_injective (m1 m2 : Message.t) (e : string) :
  Message.encrypt_content m1 = inr e →
  Message.encrypt_content m2 = inr e →
  Message.content m1 = Message.content m2.
Proof.
  unfold Message.encrypt_content, encode_utf8.
  destruct (utf8_valid (Message.content m1)); [|discriminate].
  destruct (utf8_valid (Message.content m2)); [|discriminate].
  rewrite !Base64Facts.b64encode_is_text.
  intros [= H1] [= H2].
  assert (H : Base64.b64decode (Base64.b64encode (Message.content m1))
              = Base64.b64decode (Base64.b64encode (Message.content m2)))
    by congruence.
  rewrite !Base64Facts.b64decode_b64encode in H. injection H as H. exact H.
Qed.

Lemma encrypt_content_injective_witness :
  Message.content row_plain_hi = Message.content row_bob_hi.
Proof.
  apply (encrypt_content_injective row_plain_hi row_bob_hi "aGk="); reflexivity.
Defined.

(** Different contents are stored as different texts. *)
Example encrypt_content_tells_apart :
  Message.encrypt_content row_plain_hi = inr "aGk="
  ∧ Message.encrypt_content row_ho = inr "aG8=".
Proof. split; reflexivity. Qed.

(** ** When receive raises *)

Lemma kind_of_name_Some (s : string) (k : EventKind) :
  kind_of_name s = Some k → s = kind_name k.
Proof.
  unfold kind_of_name.
  repeat match goal with
         | |- context [String.eqb s ?lit] =>
             let E := fresh "E" in
             destruct (String.eqb s lit) eqn:E;
             [apply String.eqb_eq in E; intros [= <-]; exact E|]
         end.
  discriminate.
Qed.

Lemma kind_of_name_None (s : string) (k : EventKind) :
  kind_of_name s = None → s ≠ kind_name k.
Proof.
  intros H ->. destruct k; discriminate H.
Qed.

Lemma receive_bad_payload (nok : string → bool) (self : ChatConsumer.t)
  (d : list (string * value)) (k : EventKind) :
  Py.dict_get d "event" = Some (VStr (kind_name k)) →
  match Py.dict_get d "payload" with Some (VDict _) => False | _ => True end →
  ChatConsumer.receive nok self (VDict d) = MkRun [] (inl AttributeError).
Proof.
  intros He Hp. unfold ChatConsumer.receive, Py.get. rewrite He.
  destruct (Py.dict_get d "payload") as [[]|]; try contradiction;
    destruct k; reflexivity.
Qed.

Lemma receive_bad_message (nok : string → bool) (self : ChatConsumer.t)
  (d p : list (string * value)) :
  Py.dict_get d "event" = Some (VStr "new_message") →
  Py.dict_get d "payload" = Some (VDict p) →
  message_is_mapping p = false →
  ChatConsumer.receive nok self (VDict d) = MkRun [] (inl AttributeError).
Proof.
  intros He Hp Hm. unfold ChatConsumer.receive, Py.get. rewrite He, Hp.
  unfold message_is_mapping in Hm. cbn.
  destruct (Py.dict_get p "message") as [[]|]; try discriminate; reflexivity.
Qed.

(** What [receive] raises, and when: [AttributeError] on a frame that
    is not a mapping, on one whose event names a kind while the payload
    is missing or not a mapping, and on a new_message whose message is
    there and not a mapping; [TypeError] when the layer refuses the
    name of the target group.  In each case nothing has been
    broadcast.  On every other frame [receive] returns. *)
Theorem receive_raises_iff (nok : string → bool)
  (self : ChatConsumer.t) (data : value) :
  match receive_error nok data with
  | Some e => ChatConsumer.receive nok self data = MkRun [] (inl e)
  | None => returns (ChatConsumer.receive nok self data) = true
  end.
Proof.
  destruct data as [| | | | |l|d]; try reflexivity.
  unfold receive_error.
  destruct (Py.dict_get d "event") as [ev|] eqn:He.
  - destruct ev as [| | | |s| |];
      try (rewrite receive_unrecognised;
           [reflexivity | intros k; rewrite He; discriminate]).
    destruct (kind_of_name s) as [k|] eqn:Hk.
    + apply kind_of_name_Some in Hk. subst s.
      destruct (Py.dict_get d "payload") as [pv|] eqn:Hp;
        [|apply (receive_bad_payload nok self d k); [exact He | rewrite Hp; exact I]].
      destruct pv as [| | | | | |p];
        try (apply (receive_bad_payload nok self d k); [exact He | rewrite Hp; exact I]).
      assert (Hcase : k = NewMessage ∨ k ≠ NewMessage)
        by (destruct k; auto; right; discriminate).
      destruct Hcase as [->|Hne].
      * destruct (message_is_mapping p) eqn:Hm.
        -- destruct (Layer.valid_group_name nok (group_name (table_target NewMessage p)))
             eqn:Hv.
           ++ rewrite (receive_by_table nok self d p NewMessage He Hp Hm Hv). reflexivity.
           ++ exact (receive_invalid_group nok self d p NewMessage He Hp Hm Hv).
        -- exact (receive_bad_message nok self d p He Hp Hm).
      * assert (Hsel : match k with NewMessage => message_is_mapping p | _ => true end
                       = true) by (destruct k; try reflexivity; contradiction).
        rewrite Hsel, (receive_simple_kind nok self d p k Hne He Hp).
        destruct (Layer.valid_group_name nok (group_name (table_target k p)));
          reflexivity.
    + rewrite receive_unrecognised; [reflexivity|].
      intros k. rewrite He. intros [= ->]. exact (kind_of_name_None _ k Hk eq_refl).
  - rewrite receive_unrecognised; [reflexivity|]. intros k. rewrite He. discriminate.
Qed.

(** ** The stores on sample data *)

Example start_chat_existing :
  start_chat [ann; bob] chat_table0 {| user1_id := 8; user2_id := 7 |} "t1"
  = inr (chat_table0,
         {| ct_id := 1; ct_started_at := "t0"; ct_participants := [bob; ann] |}).
Proof. vm_compute. reflexivity. Qed.

Example start_chat_unknown_user :
  start_chat [ann; bob] chat_table0 {| user1_id := 7; user2_id := 9 |} "t1"
  = inl DoesNotExist.
Proof. reflexivity. Qed.

Example delete_message_stored :
  delete_message db1 1
  = ({| users := [ann; bob]; chats := [42; 43]; messages := []; next_id := 2 |}, true).
Proof. reflexivity. Qed.

Example frame_that_is_a_list :
  receive_error non_ascii0 (VList [VInt 1]) = Some AttributeError.
Proof. reflexivity. Qed.

Example frame_for_a_bad_group :
  receive_error non_ascii0 (VDict envelope_bad_group) = Some TypeError.
Proof. reflexivity. Qed.

(** ** A connection that raised *)

(** A running connection whose [receive] raises on a frame is ended
    where it stands: the close of its transport then runs no handler,
    and every group that held its channel still holds it. *)
Theorem raised_connection_stays_listed
  (jwt_decode : string → JwtResult) (user_by_id : value → option User)
  (nok : string → bool)
  (fh : string → ChatConsumer.t → value → Run ChatConsumer.t)
  (w : World) (c : string) (self : ChatConsumer.t) (data : value) (e : Exn) :
  consumers w !! c = Some self →
  outcome (ChatConsumer.receive nok self data) = inl e →
  groups (run jwt_decode user_by_id nok fh w [Receive c data; Disconnect c]) = groups w
  ∧ consumers (run jwt_decode user_by_id nok fh w [Receive c data; Disconnect c]) !! c
    = None
  ∧ faults (run jwt_decode user_by_id nok fh w [Receive c data; Disconnect c])
    = (faults w ++ [(c, e)])%list.
Proof.
  intros Hc He. unfold run. cbn [foldl].
  set (w1 := step jwt_decode user_by_id nok fh w (Receive c data)).
  assert (H1 : groups w1 = groups w ∧ consumers w1 !! c = None
               ∧ faults w1 = (faults w ++ [(c, e)])%list).
  { unfold w1, step. rewrite Hc.
    destruct (receive_shape nok self data) as [[e' Hs] | [Hs | (g & k & fs & Hs)]];
      rewrite Hs in He |- *; cbn in He; try discriminate.
    injection He as ->. unfold settle. cbn. rewrite lookup_delete_eq. auto. }
  destruct H1 as (Hg & Hnone & Hf).
  assert (Hw : step jwt_decode user_by_id nok fh w1 (Disconnect c) = w1).
  { unfold step. rewrite Hnone. reflexivity. }
  rewrite Hw. auto.
Qed.

Lemma raised_connection_stays_listed_witness :
  groups (run jwt_decode0 user_by_id0 non_ascii0 framework0 world42
            [Receive "specific.A" (VDict envelope_text_message);
             Disconnect "specific.A"]) = groups world42
  ∧ consumers (run jwt_decode0 user_by_id0 non_ascii0 framework0 world42
                 [Receive "specific.A" (VDict envelope_text_message);
                  Disconnect "specific.A"]) !! "specific.A" = None
  ∧ faults (run jwt_decode0 user_by_id0 non_ascii0 framework0 world42
              [Receive "specific.A" (VDict envelope_text_message);
               Disconnect "specific.A"])
    = (faults world42 ++ [("specific.A", AttributeError)])%list.
Proof.
  apply (raised_connection_stays_listed jwt_decode0 user_by_id0 non_ascii0 framework0
           world42 "specific.A" consumer_ann (VDict envelope_text_message)
           AttributeError).
  - exact (proj1 world42_members).
  - reflexivity.
Defined.

(** Ann's channel is still in the group of chat 42. *)
Example raised_connection_in_group :
  groups (run jwt_decode0 user_by_id0 non_ascii0 framework0 world42
            [Receive "specific.A" (VDict envelope_text_message);
             Disconnect "specific.A"])
  = {[ "chat_42" := {[ "specific.A"; "specific.B" ]} ]}.
Proof. vm_compute. reflexivity. Qed.
